(** * qsipost: construction of the post-processing workflow graph

    A shallow embedding of the graph builders of [qsipost.workflows]
    (base.py, register_atlas.py, tensor_estimations/mrtrix3.py,
    tractography/mrtrix.py, tractography/tractography.py) and of the part of
    the nipype engine they call, followed by the properties of the
    specification that concern them. *)

From Stdlib Require Import String Ascii List ZArith QArith Bool Arith Lia.
From Stdlib Require Import DecimalString SpecFloat.
Import ListNotations.
Set Warnings "-register-all".
Local Close Scope Q_scope.
Local Open Scope string_scope.
Local Open Scope list_scope.

Infix "+++" := String.append (at level 60, right associativity).

(** ** Python values, dictionaries and exceptions *)

Module Py.

(** The values a configuration entry or a node parameter holds.  A Python
    float is kept as the rational it denotes. *)
Inductive value : Type :=
| VNone
| VBool (b : bool)
| VInt (z : Z)
| VFloat (q : Q)
| VStr (s : string)
| VList (l : list value).

(** [bool(v)], the test behind [if v:]. *)
Definition truthy (v : value) : bool :=
  match v with
  | VNone => false
  | VBool b => b
  | VInt z => negb (z =? 0)%Z
  | VFloat q => negb (Qeq_bool q 0)
  | VStr s => negb (s =? "")
  | VList l => match l with [] => false | _ :: _ => true end
  end.

Definition is_none (v : value) : bool :=
  match v with VNone => true | _ => false end.

Inductive exn : Type :=
| ValueError (msg : string)
| KeyError (key : string)
| AttributeError (attr : string)
| IndexError (msg : string)
| TypeError (msg : string)
| OSError (msg : string).

Inductive result (A : Type) : Type :=
| Ok (a : A)
| Raise (e : exn).
Arguments Ok {A} a.
Arguments Raise {A} e.

(** A [dict] with string keys, in insertion order. *)
Definition dict (V : Type) : Type := list (string * V).

Fixpoint get {V} (d : dict V) (k : string) : option V :=
  match d with
  | [] => None
  | (k', v) :: d' => if k' =? k then Some v else get d' k
  end.

(** [d[k]] *)
Definition getitem {V} (d : dict V) (k : string) : result V :=
  match get d k with
  | Some v => Ok v
  | None => Raise (KeyError k)
  end.

(** [d[k] = v] *)
Fixpoint setitem {V} (d : dict V) (k : string) (v : V) : dict V :=
  match d with
  | [] => [(k, v)]
  | (k', v') :: d' =>
      if k' =? k then (k, v) :: d' else (k', v') :: setitem d' k v
  end.

Definition values {V} (d : dict V) : list V := map snd d.

(** [k in d] *)
Definition mem_key {V} (k : string) (d : dict V) : bool :=
  match get d k with Some _ => true | None => false end.

(** [str(n)] for a natural number. *)
Definition str_of_nat (n : nat) : string :=
  NilEmpty.string_of_uint (Nat.to_uint n).

End Py.

Import Py.

(** ** The build monad

    Building a graph raises exceptions and has effects the properties speak
    about (objects are created, collaborators are called, directories and
    files are written).  A builder is a function from the build state to a
    result and the state it leaves, the state being kept when an exception
    is raised. *)

(** A session record of the dataset-discovery collaborator: file paths by
    role. *)
Definition SessionInputs : Type := dict string.

Inductive Event : Type :=
| NodeCreated (name : string)        (* pe.Node(...), pe.MapNode(...) *)
| WorkflowCreated (name : string)    (* pe.Workflow(name=...) *)
| CollectData (subject_id : string)  (* collect_data(...) *)
| InitAnatomicalWf (name : string)   (* init_anatomical_wf(name=...) *)
| InitDiffusionWf (dwi_data : SessionInputs) (* init_diffusion_wf(dwi_data=...) *)
| Mkdir (path : string)              (* Path.mkdir(exist_ok=True, parents=True) *)
| GraphWritten (wf : string)         (* Workflow.write_graph(...) *)
| ConfigSaved (path : string).       (* config.to_filename(...) *)

Record BuildState : Type := mkState {
  next_uid : nat;          (* identity given to the next object created *)
  trace : list Event       (* what happened so far, oldest first *)
}.

Definition Build (A : Type) : Type := BuildState -> result A * BuildState.

Definition ret {A} (a : A) : Build A := fun st => (Ok a, st).

Definition bind {A B} (m : Build A) (f : A -> Build B) : Build B :=
  fun st =>
    match m st with
    | (Ok a, st') => f a st'
    | (Raise e, st') => (Raise e, st')
    end.

Definition raise {A} (e : exn) : Build A := fun st => (Raise e, st).

Definition lift {A} (r : result A) : Build A := fun st => (r, st).

(** The trace with one more event at its end. *)
Definition record (tr : list Event) (ev : Event) : list Event := tr ++ [ev].

Definition emit (ev : Event) : Build unit :=
  fun st => (Ok tt, mkState (next_uid st) (record (trace st) ev)).

Definition fresh : Build nat :=
  fun st => (Ok (next_uid st), mkState (S (next_uid st)) (trace st)).

Declare Scope build_scope.
Delimit Scope build_scope with build.
Notation "x <- m ;; k" := (bind m (fun x => k))
  (at level 100, m at next level, right associativity) : build_scope.
Notation "m ;; k" := (bind m (fun _ => k))
  (at level 100, right associativity) : build_scope.
Local Open Scope build_scope.

(** [for x in xs: acc = body(acc, x)] *)
Fixpoint for_each {A X} (body : A -> X -> Build A) (xs : list X) (acc : A)
  : Build A :=
  match xs with
  | [] => ret acc
  | x :: xs' => acc' <- body acc x ;; for_each body xs' acc'
  end.

Definition init_state : BuildState := mkState 0 [].

(** ** The workflow engine

    Modelled from the spec: the engine of nipype ([pe.Node], [pe.MapNode],
    [pe.Workflow], the utility interfaces) is a library, none of it is under
    src/.  Nodes, edges and workflows are those of the data model (section 3
    of the specification), [connect] and the nesting of workflows those of
    its section 4.2, the fan-in node that of its section 4.1. *)

Module Engine.

(** Modelled from the spec: the kind tags of a node (section 3); nipype's
    interface classes are not under src/. *)
Inductive Kind : Type :=
| Identity | FanIn | Function | ExternalTool | DerivativeSink.

(** Modelled from the spec: what [pe.Node] wraps, that is the declared
    input and output ports and the parameter mapping of a node (section 3),
    the parameters being the keyword arguments of the interface and what is
    set through [.inputs]. *)
Record Interface : Type := mkInterface {
  i_class : string;
  i_kind : Kind;
  i_inputs : list string;
  i_outputs : list string;
  i_params : dict value
}.

(** Modelled from the spec: the node of section 3, with the two settings
    of [pe.Node] and [pe.MapNode] the builders use. *)
Record Node : Type := mkNode {
  n_name : string;
  n_interface : Interface;
  n_iterfield : list string;          (* non-empty for a MapNode *)
  n_run_without_submitting : bool;
  n_crashdump_dir : option string     (* config["execution"]["crashdump_dir"] *)
}.

(** Modelled from the spec: the edge of section 3, (source node, source
    port, destination node, destination port).  An edge names its end
    nodes; names are unique within a workflow. *)
Record Edge : Type := mkEdge {
  e_src : string;
  e_src_port : string;
  e_dst : string;
  e_dst_port : string
}.

(** Modelled from the spec: the workflow of section 3, a name, nodes and
    edges, usable as a node of a parent workflow.  A member is a node or a
    workflow; [uid] is the identity of the Python object. *)
Inductive EngineBase : Type :=
| ANode (uid : nat) (n : Node)
| AWorkflow (uid : nat) (name : string) (members : list EngineBase)
            (edges : list Edge) (crashdump_dir : option string).

Definition uid_of (u : EngineBase) : nat :=
  match u with ANode i _ => i | AWorkflow i _ _ _ _ => i end.

Definition name_of (u : EngineBase) : string :=
  match u with ANode _ n => n_name n | AWorkflow _ nm _ _ _ => nm end.

Definition members_of (u : EngineBase) : list EngineBase :=
  match u with ANode _ _ => [] | AWorkflow _ _ ms _ _ => ms end.

Definition edges_of (u : EngineBase) : list Edge :=
  match u with ANode _ _ => [] | AWorkflow _ _ _ es _ => es end.

Definition is_workflow (u : EngineBase) : bool :=
  match u with ANode _ _ => false | AWorkflow _ _ _ _ _ => true end.

Definition with_uid (i : nat) (u : EngineBase) : EngineBase :=
  match u with
  | ANode _ n => ANode i n
  | AWorkflow _ nm ms es c => AWorkflow i nm ms es c
  end.

Definition find_member (nm : string) (ms : list EngineBase)
  : option EngineBase :=
  find (fun m => name_of m =? nm) ms.

(** *** Interfaces *)

(** Modelled from the spec: [niu.IdentityInterface(fields=...)], the
    pass-through node; every field is an input and an output. *)
Definition IdentityInterface (fields : list string) : Interface :=
  mkInterface "IdentityInterface" Identity fields fields [].

(** Modelled from the spec: the ports [in1 .. inN] of a fan-in node
    (section 4.1). *)
Definition merge_inputs (n : nat) : list string :=
  map (fun i => "in" +++ str_of_nat (S i)) (seq 0 n).

(** Modelled from the spec: [niu.Merge(n)], the fan-in node of section
    4.1, with [n] inputs and one output holding the sequence. *)
Definition Merge (n : nat) : Interface :=
  mkInterface "Merge" FanIn (merge_inputs n) ["out"] [].

(** Modelled from the spec: [niu.Function(function=f, input_names=...,
    output_names=...)], the inline transform; its ports are the names
    given. *)
Definition FunctionInterface (f : string) (input_names output_names : list string)
  : Interface :=
  mkInterface "Function" Function input_names output_names
              [("function_str", VStr f)].

(** Modelled from the spec: the external-tool node of section 4.1, opaque
    but for its ports.  An interface of an external tool: its class, the ports the class
    declares, and the keyword arguments of the call. *)
Definition Tool (cls : string) (ports : list string * list string)
           (kwargs : dict value) : Interface :=
  mkInterface cls ExternalTool (fst ports) (snd ports) kwargs.

(** Modelled from the spec: the derivative sink,
    [qsipost.interfaces.bids.DerivativesDataSink], which is not under
    src/. *)
Definition Sink (ports : list string * list string) (kwargs : dict value)
  : Interface :=
  mkInterface "DerivativesDataSink" DerivativeSink (fst ports) (snd ports) kwargs.

(** *** Nodes and workflows *)

(** Modelled from the spec: [pe.Node(interface, name=...)] makes a new
    node; a node joins a workflow when it is first connected. *)
Definition pe_Node (interface : Interface) (name : string)
           (run_without_submitting : bool) : Build EngineBase :=
  i <- fresh ;;
  emit (NodeCreated name) ;;
  ret (ANode i (mkNode name interface [] run_without_submitting None)).

(** Modelled from the spec: [pe.MapNode(interface, iterfield=...,
    name=...)], the node that stands for one instance per item. *)
Definition pe_MapNode (interface : Interface) (iterfield : list string)
           (name : string) : Build EngineBase :=
  i <- fresh ;;
  emit (NodeCreated name) ;;
  ret (ANode i (mkNode name interface iterfield false None)).

(** Modelled from the spec: [pe.Workflow(name=...)] makes an empty
    workflow. *)
Definition pe_Workflow (name : string) : Build EngineBase :=
  i <- fresh ;;
  emit (WorkflowCreated name) ;;
  ret (AWorkflow i name [] [] None).

(** [node.inputs.<k> = v] *)
Definition set_input (u : EngineBase) (k : string) (v : value) : EngineBase :=
  match u with
  | ANode i n =>
      let itf := n_interface n in
      ANode i (mkNode (n_name n)
                 (mkInterface (i_class itf) (i_kind itf) (i_inputs itf)
                    (i_outputs itf) (setitem (i_params itf) k v))
                 (n_iterfield n) (n_run_without_submitting n)
                 (n_crashdump_dir n))
  | AWorkflow _ _ _ _ _ => u
  end.

Definition params_of (u : EngineBase) : dict value :=
  match u with
  | ANode _ n => i_params (n_interface n)
  | AWorkflow _ _ _ _ _ => []
  end.

(** *** Ports *)

Inductive Direction : Type := In_ | Out_.

Definition node_ports (d : Direction) (n : Node) : list string :=
  match d with
  | In_ => i_inputs (n_interface n)
  | Out_ => i_outputs (n_interface n)
  end.

Definition mem (s : string) (l : list string) : bool :=
  existsb (String.eqb s) l.

(** [strip_prefix p s] is the rest of [s] after [p], when [s] starts with
    [p]. *)
Fixpoint strip_prefix (p s : string) : option string :=
  match p with
  | EmptyString => Some s
  | String a p' =>
      match s with
      | EmptyString => None
      | String b s' => if Ascii.eqb a b then strip_prefix p' s' else None
      end
  end.

(** Modelled from the spec: ports are resolved by exact name (sections 3
    and 4.1).  The ports of a node are the declared ones.  The ports of a workflow
    used as a node are the ports of its [inputnode] and [outputnode],
    written [inputnode.<port>] and [outputnode.<port>]. *)
Definition has_port (d : Direction) (u : EngineBase) (p : string) : bool :=
  match u with
  | ANode _ n => mem p (node_ports d n)
  | AWorkflow _ _ ms _ _ =>
      let io := match d with In_ => "inputnode" | Out_ => "outputnode" end in
      match strip_prefix (io +++ ".") p with
      | None => false
      | Some field =>
          match find_member io ms with
          | Some (ANode _ n) => mem field (node_ports d n)
          | _ => false
          end
      end
  end.

(** *** Adding nodes *)

(** Modelled from the spec: [add_node] of section 4.2, which fails if the
    name already exists in the workflow.  An
    object that is already a member is left where it is. *)
Definition register (wf : EngineBase) (u : EngineBase) : result EngineBase :=
  match wf with
  | ANode _ _ => Raise (TypeError "not a workflow")
  | AWorkflow i nm ms es c =>
      match find_member (name_of u) ms with
      | Some m =>
          if Nat.eqb (uid_of m) (uid_of u) then Ok wf
          else Raise (OSError ("Duplicate node name " +++ name_of u +++ " found."))
      | None => Ok (AWorkflow i nm (ms ++ [u]) es c)
      end
  end.

Fixpoint register_all (wf : EngineBase) (us : list EngineBase)
  : result EngineBase :=
  match us with
  | [] => Ok wf
  | u :: us' =>
      match register wf u with
      | Ok wf' => register_all wf' us'
      | Raise e => Raise e
      end
  end.

(** Modelled from the spec: [workflow.add_nodes(nodes)], [add_node] for
    each. *)
Definition add_nodes (wf : EngineBase) (us : list EngineBase)
  : result EngineBase :=
  register_all wf us.

(** Modelled from the spec: [workflow.get_node(name)], the member of that
    name. *)
Definition get_node (wf : EngineBase) (nm : string) : option EngineBase :=
  find_member nm (members_of wf).

(** *** Connecting *)

(** One element of the list given to [connect]: source, destination, and
    the (source port, destination port) pairs. *)
Definition Connection : Type := EngineBase * EngineBase * list (string * string).

Inductive ConnectResult : Type :=
| Connected (e : Edge)
| PortMismatch (e : Edge).

Definition requested (c : Connection) : list (EngineBase * EngineBase * Edge) :=
  let '(src, dst, ports) := c in
  map (fun sd => (src, dst, mkEdge (name_of src) (fst sd) (name_of dst) (snd sd)))
      ports.

(** A requested edge is accepted when both of its ports exist. *)
Definition port_ok (r : EngineBase * EngineBase * Edge) : bool :=
  let '(src, dst, e) := r in
  has_port Out_ src (e_src_port e) && has_port In_ dst (e_dst_port e).

Definition connect_result (r : EngineBase * EngineBase * Edge) : ConnectResult :=
  if port_ok r then Connected (snd r) else PortMismatch (snd r).

Definition accepted (cs : list Connection) : list Edge :=
  map snd (filter port_ok (flat_map requested cs)).

Definition endpoints (cs : list Connection) : list EngineBase :=
  flat_map (fun c => [fst (fst c); snd (fst c)]) cs.

(** Modelled from the spec: [workflow.connect(cs)], the best-effort batch
    connect of sections 4.2 and 9.  The end nodes become members of the
    workflow, then every (source port, destination port) pair is checked
    on its own: a pair naming an absent port is rejected with a port
    mismatch, the other pairs are applied.  The per-edge results are
    returned. *)
Definition connect (wf : EngineBase) (cs : list Connection)
  : result (EngineBase * list ConnectResult) :=
  match register_all wf (endpoints cs) with
  | Raise e => Raise e
  | Ok (ANode _ _) => Raise (TypeError "not a workflow")
  | Ok (AWorkflow i nm ms es c) =>
      Ok (AWorkflow i nm ms (es ++ accepted cs) c,
          map connect_result (flat_map requested cs))
  end.

(** The builders call [connect] as a statement: the per-edge results are
    discarded. *)
Definition connect_ (wf : EngineBase) (cs : list Connection) : Build EngineBase :=
  r <- lift (connect wf cs) ;; ret (fst r).

(** *** Configuration of the nodes of a workflow *)

(** [for node in wf._get_all_nodes(): node.config = deepcopy(wf.config)],
    on the crash directory. *)
Fixpoint copy_config (c : option string) (u : EngineBase) : EngineBase :=
  match u with
  | ANode i n =>
      ANode i (mkNode (n_name n) (n_interface n) (n_iterfield n)
                 (n_run_without_submitting n) c)
  | AWorkflow i nm ms es c' => AWorkflow i nm (map (copy_config c) ms) es c'
  end.

Definition set_crashdump_dir (u : EngineBase) (dir : string) : EngineBase :=
  match u with
  | ANode i n =>
      ANode i (mkNode (n_name n) (n_interface n) (n_iterfield n)
                 (n_run_without_submitting n) (Some dir))
  | AWorkflow i nm ms es _ => AWorkflow i nm ms es (Some dir)
  end.

Definition crashdump_dir_of (u : EngineBase) : option string :=
  match u with
  | ANode _ n => n_crashdump_dir n
  | AWorkflow _ _ _ _ c => c
  end.

(** *** Fan-in and fan-out *)

(** The edges that arrive at port [p] of the member [nm]. *)
Definition sources_of (wf : EngineBase) (nm p : string) : list (string * string) :=
  map (fun e => (e_src e, e_src_port e))
      (filter (fun e => (e_dst e =? nm) && (e_dst_port e =? p)) (edges_of wf)).

(** Modelled from the spec: what a fan-in node with [n] inputs aggregates
    (section 4.1), the sources of
    [in1 .. inN], in this order. *)
Definition merge_sources (wf : EngineBase) (nm : string) (n : nat)
  : list (string * string) :=
  flat_map (sources_of wf nm) (merge_inputs n).

(** Modelled from the spec: the fan-out of section 4.4 as [pe.MapNode]
    does it.  The instances of a MapNode: one per element of the list given to the
    field it iterates over, that element being the instance's value of
    the field. *)
Definition mapnode_instances (field : string) (n : Node) : list Node :=
  match get (i_params (n_interface n)) field with
  | Some (VList vs) =>
      map (fun iv =>
             let itf := n_interface n in
             mkNode ("_" +++ n_name n +++ str_of_nat (fst iv))
               (mkInterface (i_class itf) (i_kind itf) (i_inputs itf)
                  (i_outputs itf) (setitem (i_params itf) field (snd iv)))
               [] (n_run_without_submitting n) (n_crashdump_dir n))
          (combine (seq 0 (length vs)) vs)
  | _ => []
  end.

End Engine.

Import Engine.

(** ** Paths *)

Definition path_join (a b : string) : string := a +++ "/" +++ b.

Fixpoint has_slash (s : string) : bool :=
  match s with
  | EmptyString => false
  | String c s' => if Ascii.eqb c "/" then true else has_slash s'
  end.

Fixpoint dirname (s : string) : string :=
  match s with
  | EmptyString => ""
  | String c s' => if has_slash s' then String c (dirname s') else ""
  end.

(** [Path(p).parent] *)
Definition path_parent (p : string) : string :=
  match dirname p with
  | EmptyString =>
      match p with
      | String "/" _ => "/"
      | _ => "."
      end
  | d => d
  end.

(** ** The configuration and the collaborators *)

(** [qsipost.parcellations.atlases.atlas.Atlas]: the attributes the
    builders read.  [atlas_nifti_file] is the one [hasattr] tests. *)
Record Atlas : Type := mkAtlas {
  atlas_name : string;                 (* .name *)
  atlas_nifti_file : option string;
  description_csv : string;
  label_name : string
}.

(** [qsipost.config], the entries the builders read. *)
Record Config : Type := mkConfig {
  (* config.workflow *)
  parcellation_atlas : string + Atlas;
  anat_only : bool;
  do_sift_filtering : bool;
  sift_term_number : value;
  sift_term_ratio : value;
  n_tracts : value;
  angle : value;
  (* config.execution *)
  participant_label : list string;
  output_dir : string;
  work_dir : string;
  run_uuid : string;
  write_graph : bool;
  layout_description : dict (dict string);
  (* config.environment *)
  version : string;
  nipype_version : string;
  (* config.nipype *)
  omp_nthreads : value
}.

(** ** Floating-point numbers

    A Python [float] is a binary64 number of IEEE 754, and the fields of
    the header of an image are [numpy.float32], binary32 numbers.  Both are
    values of the standard library's [spec_float]: zeros, infinities, NaN
    and the finite numbers [m * 2^e]; the operations round to the nearest
    number of the format, ties to even, and overflow to an infinity. *)

Module Np.

Definition float64 : Type := spec_float.     (* 53 bits, below 2^1024 *)
Definition float32 : Type := spec_float.     (* 24 bits, below 2^128 *)

(** The Python [float] nearest to [m * 2^e]. *)
Definition float64_of (m e : Z) : float64 := binary_normalize 53 1024 m e false.

(** [numpy.float32(z)] for a Python [int]. *)
Definition float32_of_int (z : Z) : float32 := binary_normalize 24 128 z 0 false.

(** [numpy.float32(x)] for a Python [float]. *)
Definition float32_of_float (x : float64) : float32 :=
  match x with
  | S754_finite s m e => binary_round 24 128 s m e
  | _ => x
  end.

(** [x * y] on two [numpy.float32]. *)
Definition mul (x y : float32) : float32 := SFmul 24 128 x y.

(** [a * x] for a Python number [a] and a [numpy.float32] [x]: NumPy takes
    the Python number as a [float32], and the product is a [float32]. *)
Definition int_times (a : Z) (x : float32) : float32 :=
  mul (float32_of_int a) x.

Definition float_times (a : float64) (x : float32) : float32 :=
  mul (float32_of_float a) x.

(** The rational a zero or a finite number denotes, in lowest terms. *)
Definition to_Q (x : spec_float) : option Q :=
  match x with
  | S754_zero _ => Some 0%Q
  | S754_finite s m e =>
      let q := (inject_Z (Zpos m) * Qpower 2 e)%Q in
      Some (Qred (if s then Qopp q else q))
  | S754_infinity _ | S754_nan => None
  end.

End Np.

(** [nibabel] image: its header, the fields of which are arrays of
    [numpy.float32]. *)
Record Image : Type := mkImage {
  header : dict (list Np.float32)
}.

(** ** src/qsipost/workflows/diffusion/procedures/tensor_estimations/mrtrix3.py *)

Definition TENSOR_PARAMETERS : list string :=
  ["adc"; "fa"; "ad"; "rd"; "cl"; "cp"; "cs"; "evec"; "eval"].

(** [enumerate(xs)] *)
Definition enumerate {A} (xs : list A) : list (nat * A) :=
  combine (seq 0 (length xs)) xs.

Section Builders.

(** The ambient configuration. *)
Variable config : Config.

(** What the builders use and src/ does not hold. *)

(** The ports declared by an interface class (nipype's and
    [qsipost.interfaces]'), inputs then outputs. *)
Variable tool_ports : string -> list string * list string.
(** [qsipost.workflows.diffusion.procedures.utils.derivatives] *)
Variable DIFFUSION_WF_OUTPUT_ENTITIES : dict (dict value).
(** [Atlas(name, load_existing=True)] *)
Variable Atlas_load : string -> result Atlas.
(** [packaging.version.Version(s)], its [major] and [minor] *)
Variable Version : string -> result (nat * nat).
(** [collect_data(layout=config.execution.layout, participant_label=...)]:
    the subject's files and the sessions' files by session. *)
Variable collect_data : string -> result (dict string * dict SessionInputs).
(** [qsipost.workflows.anatomical.anatomical.init_anatomical_wf] *)
Variable init_anatomical_wf : string -> result EngineBase.
(** [qsipost.workflows.diffusion.diffusion.init_diffusion_wf] *)
Variable init_diffusion_wf : SessionInputs -> result EngineBase.
(** [nibabel.load] *)
Variable nib_load : string -> result Image.

(** A call of a builder that is not under src/ returns a new object. *)
Definition new_object (r : result EngineBase) : Build EngineBase :=
  u <- lift r ;; i <- fresh ;; ret (with_uid i u).

(** *** src/qsipost/workflows/anatomical/procedures/register_atlas.py *)

Definition init_registration_wf (name : string) : Build EngineBase :=
  workflow <- pe_Workflow name ;;
  inputnode <- pe_Node
    (IdentityInterface
       ["anatomical_reference"; "mni_to_native_transform"; "atlas_name";
        "atlas_nifti_file"])
    "inputnode" false ;;
  outputnode <- pe_Node
    (IdentityInterface ["whole_brain_parcellation"]) "outputnode" false ;;
  apply_transforms <- pe_Node
    (Tool "ApplyTransforms" (tool_ports "ApplyTransforms")
          [("interpolation", VStr "NearestNeighbor")])
    "apply_transforms" false ;;
  workflow <- connect_ workflow
    [ (inputnode, apply_transforms,
        [ ("atlas_nifti_file", "input_image");
          ("mni_to_native_transform", "transforms");
          ("anatomical_reference", "reference_image") ]);
      (apply_transforms, outputnode,
        [ ("output_image", "whole_brain_parcellation") ]) ] ;;
  ret workflow.

(** *** tensor_estimations/mrtrix3.py *)

(** The keyword arguments of [DerivativesDataSink]: a dictionary unpacked
    with the double star, then the arguments written out. *)
Definition sink_kwargs (entities : option (dict value)) (extra : dict value)
  : result (dict value) :=
  match entities with
  | None => Raise (TypeError "argument after ** must be a mapping, not NoneType")
  | Some d =>
      if existsb (fun kv => Py.mem_key (fst kv) d) extra
      then Raise (TypeError "got multiple values for keyword argument")
      else Ok (d ++ extra)
  end.

Definition init_mrtrix3_tensor_wf (name : string) : Build EngineBase :=
  workflow <- pe_Workflow name ;;
  inputnode <- pe_Node
    (IdentityInterface ["base_directory"; "dwi_nifti"; "dwi_grad"; "dwi_mask"])
    "inputnode" false ;;
  outputnode <- pe_Node (IdentityInterface TENSOR_PARAMETERS) "outputnode" false ;;
  dwi2tensor_wf <- pe_Node
    (Tool "FitTensor" (tool_ports "FitTensor")
          [("nthreads", omp_nthreads config)])
    "mrtrix3_tensor_wf" false ;;
  tensor2metric_wf <- pe_Node
    (Tool "TensorMetrics" (tool_ports "TensorMetrics")
          (map (fun param => ("out_" +++ param, VStr (param +++ ".nii.gz")))
               TENSOR_PARAMETERS))
    "mrtrix3_tensor2metric_wf" false ;;
  listify_metrics_wf <- pe_Node
    (Merge (length TENSOR_PARAMETERS)) "listify_tensor_params" false ;;
  kwargs <- lift
    (sink_kwargs (get DIFFUSION_WF_OUTPUT_ENTITIES "dti_derived_parameters")
                 [("reconstruction_software", VStr "mrtrix3");
                  ("save_meta", VBool false)]) ;;
  ds_tensor_wf <- pe_MapNode
    (Sink (tool_ports "DerivativesDataSink") kwargs)
    ["in_file"; "desc"] "ds_tensor_wf" ;;
  let ds_tensor_wf :=
    set_input ds_tensor_wf "desc" (VList (map VStr TENSOR_PARAMETERS)) in
  workflow <- connect_ workflow
    [ (inputnode, dwi2tensor_wf,
        [ ("dwi_nifti", "in_file");
          ("dwi_grad", "grad_file");
          ("dwi_mask", "in_mask") ]);
      (dwi2tensor_wf, tensor2metric_wf,
        [ ("out_file", "in_file") ]);
      (tensor2metric_wf, outputnode,
        map (fun param => ("out_" +++ param, param)) TENSOR_PARAMETERS);
      (outputnode, listify_metrics_wf,
        map (fun ip => (snd ip, "in" +++ str_of_nat (fst ip + 1)))
            (enumerate TENSOR_PARAMETERS));
      (listify_metrics_wf, ds_tensor_wf,
        [ ("out", "in_file") ]);
      (inputnode, ds_tensor_wf,
        [ ("base_directory", "base_directory");
          ("dwi_nifti", "source_file") ]) ] ;;
  ret workflow.

(** *** tractography/mrtrix.py *)

(** [stepscale] is a Python [float], the two lengths are Python [int]s;
    the voxel size read from the header is a [numpy.float32], and so are
    the three products. *)
Definition estimate_tractography_parameters
           (in_file : string) (stepscale : Np.float64)
           (lenscale_min lenscale_max : Z)
  : result (Np.float32 * Np.float32 * Np.float32) :=
  match nib_load in_file with
  | Raise e => Raise e
  | Ok data =>
      match get (header data) "pixdim" with
      | None => Raise (ValueError "no field of name pixdim")
      | Some field =>
          match nth_error field 1 with
          | None => Raise (IndexError "index 1 is out of bounds")
          | Some pixdim =>
              let stepscale := Np.float_times stepscale pixdim in
              let lenscale_min := Np.int_times lenscale_min pixdim in
              let lenscale_max := Np.int_times lenscale_max pixdim in
              Ok (stepscale, lenscale_min, lenscale_max)
          end
      end
  end.

(** The message of the [ValueError], its white space apart. *)
Definition sift_error : string :=
  "Either sift_term_number or sift_term_ratio must be specified if sift_filtering is set to True.".

(** Lines 259-270 of [init_mrtrix_tractography_wf]: the termination
    criterion given to the filter, the first of the two settings that is a
    true value. *)
Definition tcksift_kwargs : result (dict value) :=
  if truthy (sift_term_number config)
  then Ok [("term_number", sift_term_number config)]
  else if truthy (sift_term_ratio config)
  then Ok [("term_ratio", sift_term_ratio config)]
  else Raise (ValueError sift_error).

(** Lines 259-277: the filter node, created once its keyword arguments are
    known. *)
Definition tcksift_node : Build EngineBase :=
  tcksift_kwargs <- lift tcksift_kwargs ;;
  pe_Node
    (Tool "TCKSift" (tool_ports "TCKSift")
          (tcksift_kwargs ++ [("fd_scale_gm", VBool true)]))
    "tcksift" false.

(** [n_tracts_] and [angle_] are the arguments [n_tracts] and [angle] of
    the source, which reads the configuration instead. *)
Definition init_mrtrix_tractography_wf
           (name tractography_algorithm : string) (n_tracts_ angle_ : Z)
           (stepscale : Q) (lenscale_min lenscale_max : Z)
           (output_dir_ : string) : Build EngineBase :=
  workflow <- pe_Workflow name ;;
  inputnode <- pe_Node
    (IdentityInterface
       ["dwi_file"; "dwi_reference"; "dwi_grad"; "dwi_mask_file"; "t1w_file";
        "t1w_mask_file"])
    "inputnode" false ;;
  outputnode <- pe_Node (IdentityInterface ["tck_file"]) "outputnode" false ;;
  dwi2response_node <- pe_Node
    (Tool "ResponseSD" (tool_ports "ResponseSD")
          [("algorithm", VStr "dhollander"); ("wm_file", VStr "wm.txt");
           ("gm_file", VStr "gm.txt"); ("csf_file", VStr "csf.txt");
           ("voxels_file", VStr "voxels.mif")])
    "dwi2response" false ;;
  dwi2fod_node <- pe_Node
    (Tool "EstimateFOD" (tool_ports "EstimateFOD")
          [("algorithm", VStr "msmt_csd")])
    "dwi2fod" false ;;
  mtnormalise_node <- pe_Node
    (Tool "MTNormalise" (tool_ports "MTNormalise") []) "mtnormalise" false ;;
  gen_5tt_node <- pe_Node
    (Tool "Generate5tt" (tool_ports "Generate5tt") [("algorithm", VStr "fsl")])
    "gen_5tt" false ;;
  estimate_tracts_parameters_node <- pe_Node
    (FunctionInterface "estimate_tractography_parameters"
       ["in_file"; "stepscale"; "lenscale_min"; "lenscale_max"]
       ["stepscale"; "lenscale_min"; "lenscale_max"])
    "estimate_tractography_parameters" false ;;
  let estimate_tracts_parameters_node :=
    set_input estimate_tracts_parameters_node "stepscale" (VFloat stepscale) in
  let estimate_tracts_parameters_node :=
    set_input estimate_tracts_parameters_node "lenscale_min" (VInt lenscale_min) in
  let estimate_tracts_parameters_node :=
    set_input estimate_tracts_parameters_node "lenscale_max" (VInt lenscale_max) in
  tckgen_node <- pe_Node
    (Tool "Tractography" (tool_ports "Tractography")
          [("algorithm", VStr tractography_algorithm);
           ("select", n_tracts config); ("angle", angle config)])
    "tckgen" false ;;
  ds_tracts <- pe_Node
    (Sink (tool_ports "DerivativesDataSink")
          [("base_directory", VStr output_dir_); ("suffix", VStr "tracts");
           ("extension", VStr ".tck"); ("desc", VStr "unfiltered");
           ("reconstruction", VStr "mrtrix")])
    "ds_unfiltered_tracts" true ;;
  workflow <- connect_ workflow
    [ (inputnode, dwi2response_node,
        [ ("dwi_file", "in_file"); ("dwi_grad", "grad_file");
          ("dwi_mask_file", "in_mask") ]);
      (inputnode, dwi2fod_node,
        [ ("dwi_file", "in_file"); ("dwi_grad", "grad_file");
          ("dwi_mask_file", "in_mask") ]);
      (dwi2response_node, dwi2fod_node,
        [ ("wm_file", "wm_txt"); ("gm_file", "gm_txt"); ("csf_file", "csf_txt") ]);
      (dwi2fod_node, mtnormalise_node,
        [ ("wm_odf", "in_wm_fod"); ("gm_odf", "in_gm_fod");
          ("csf_odf", "in_csf_fod") ]);
      (inputnode, mtnormalise_node, [ ("dwi_mask_file", "in_mask") ]);
      (inputnode, gen_5tt_node,
        [ ("t1w_file", "in_file"); ("t1w_mask_file", "in_mask") ]);
      (mtnormalise_node, tckgen_node, [ ("out_wm_fod", "in_file") ]);
      (inputnode, estimate_tracts_parameters_node, [ ("dwi_file", "in_file") ]);
      (gen_5tt_node, tckgen_node, [ ("out_file", "act_file") ]);
      (estimate_tracts_parameters_node, tckgen_node,
        [ ("stepscale", "step_size"); ("lenscale_min", "min_length");
          ("lenscale_max", "max_length") ]);
      (inputnode, tckgen_node, [ ("dwi_mask_file", "seed_image") ]);
      (tckgen_node, outputnode, [ ("out_file", "tck_file") ]);
      (tckgen_node, ds_tracts, [ ("out_file", "in_file") ]);
      (inputnode, ds_tracts, [ ("dwi_file", "source_file") ]) ] ;;
  if do_sift_filtering config then
    tcksift_node <- tcksift_node ;;
    workflow <- connect_ workflow
      [ (tckgen_node, tcksift_node, [ ("out_file", "in_tracks") ]);
        (mtnormalise_node, tcksift_node, [ ("out_wm_fod", "in_fod") ]);
        (gen_5tt_node, tcksift_node, [ ("out_file", "act_file") ]);
        (tcksift_node, outputnode, [ ("out_file", "tck_file") ]) ] ;;
    ret workflow
  else ret workflow.

(** The call with every argument at its default. *)
Definition init_mrtrix_tractography_wf_default : Build EngineBase :=
  init_mrtrix_tractography_wf "mrtrix_tractography_wf" "SD_Stream" 1000 45
                              (1 # 2) 30 500 ".".

(** *** tractography/tractography.py *)

Definition init_tractography_wf (name : string) : Build EngineBase :=
  workflow <- pe_Workflow name ;;
  inputnode <- pe_Node
    (IdentityInterface
       ["base_directory"; "dwi_reference"; "dwi_nifti"; "dwi_bvec"; "dwi_bval";
        "dwi_grad"; "dwi_mask"; "t1w_file"; "t1w_mask_file"])
    "inputnode" false ;;
  mrtrix3_tractography_wf <- init_mrtrix_tractography_wf_default ;;
  workflow <- connect_ workflow
    [ (inputnode, mrtrix3_tractography_wf,
        [ ("dwi_nifti", "inputnode.dwi_file");
          ("dwi_reference", "inputnode.dwi_reference");
          ("dwi_grad", "inputnode.dwi_grad");
          ("dwi_mask", "inputnode.dwi_mask_file");
          ("t1w_file", "inputnode.t1w_file");
          ("t1w_mask_file", "inputnode.t1w_mask_file") ]) ] ;;
  ret workflow.

(** *** src/qsipost/workflows/base.py *)

Definition subject_wf_name (subject_id : string) : string :=
  "single_subject_" +++ subject_id +++ "_wf".

(** The fields declared by the subject's input node. *)
Definition subject_inputnode_fields : list string :=
  ["base_directory"; "anatomical_reference"; "anatomical_brain_mask";
   "mni_to_native_transform"; "gm_probabilistic_segmentation"; "atlas_name";
   "atlas_nifti"; "atlas_table"; "label_column"; "subject_id";
   "freesurfer_dir"].

(** The port pairs of the connection of the subject's input node to the
    anatomical workflow. *)
Definition anatomical_connections : list (string * string) :=
  [ ("base_directory", "inputnode.base_directory");
    ("atlas_name", "inputnode.atlas_name");
    ("atlas_nifti_file", "inputnode.atlas_nifti_file");
    ("anatomical_reference", "inputnode.anatomical_reference");
    ("mni_to_native_transform", "inputnode.mni_to_native_transform");
    ("gm_probabilistic_segmentation", "inputnode.gm_probabilistic_segmentation");
    ("subject_id", "inputnode.subject_id");
    ("freesurfer_dir", "inputnode.freesurfer_dir") ].

(** The port pairs of the connections of one session workflow. *)
Definition session_input_connections : list (string * string) :=
  [ ("base_directory", "inputnode.base_directory");
    ("atlas_name", "inputnode.atlas_name");
    ("anatomical_reference", "inputnode.t1w_file");
    ("anatomical_brain_mask", "inputnode.t1w_mask_file") ].

Definition session_parcellation_connections : list (string * string) :=
  [ ("outputnode.whole_brain_parcellation",
     "inputnode.whole_brain_t1w_parcellation");
    ("outputnode.gm_cropped_parcellation",
     "inputnode.gm_cropped_t1w_parcellation") ].

(** The body of [for session_inputs in sessions_data.values():], on the
    workflow and the list [diffusion_workflows]. *)
Definition session_step (inputnode anatomical_workflow : EngineBase)
           (acc : EngineBase * list EngineBase) (session_inputs : SessionInputs)
  : Build (EngineBase * list EngineBase) :=
  let '(workflow, diffusion_workflows) := acc in
  emit (InitDiffusionWf session_inputs) ;;
  session_workflow <- new_object (init_diffusion_wf session_inputs) ;;
  workflow <- connect_ workflow
    [ (inputnode, session_workflow, session_input_connections);
      (anatomical_workflow, session_workflow, session_parcellation_connections) ] ;;
  ret (workflow, diffusion_workflows ++ [session_workflow]).

(** [atlas.atlas_nifti_file], an attribute the object may not have. *)
Definition get_atlas_nifti_file (a : Atlas) : result string :=
  match atlas_nifti_file a with
  | Some f => Ok f
  | None => Raise (AttributeError "atlas_nifti_file")
  end.

(** [init_single_subject_wf].  The texts put in [workflow.__desc__] are
    left out (the version read for them is not: reading it can raise), and
    the path of the FreeSurfer directory is taken as already resolved. *)
Definition init_single_subject_wf (subject_id : string)
           (parcellation_atlas : Atlas) : Build EngineBase :=
  description <- lift (getitem (layout_description config) "PipelineDescription") ;;
  qsiprep_ver <- lift (getitem description "Version") ;;
  let name := subject_wf_name subject_id in
  workflow <- pe_Workflow name ;;
  let qsipost_dir := output_dir config in
  let freesurfer_dir := path_join (path_parent qsipost_dir) "freesurfer" in
  emit (Mkdir freesurfer_dir) ;;
  let anat_only := anat_only config in
  emit (CollectData subject_id) ;;
  data <- lift (collect_data subject_id) ;;
  let '(subject_data, sessions_data) := data in
  inputnode <- pe_Node (IdentityInterface subject_inputnode_fields)
                       "inputnode_subject" false ;;
  let inputnode := set_input inputnode "base_directory" (VStr qsipost_dir) in
  let inputnode :=
    set_input inputnode "atlas_name" (VStr (atlas_name parcellation_atlas)) in
  nifti <- lift (get_atlas_nifti_file parcellation_atlas) ;;
  let inputnode := set_input inputnode "atlas_nifti_file" (VStr nifti) in
  let inputnode :=
    set_input inputnode "atlas_table" (VStr (description_csv parcellation_atlas)) in
  let inputnode :=
    set_input inputnode "label_column" (VStr (label_name parcellation_atlas)) in
  v <- lift (getitem subject_data "anatomical_reference") ;;
  let inputnode := set_input inputnode "anatomical_reference" (VStr v) in
  v <- lift (getitem subject_data "anatomical_brain_mask") ;;
  let inputnode := set_input inputnode "anatomical_brain_mask" (VStr v) in
  v <- lift (getitem subject_data "mni_to_native_transform") ;;
  let inputnode := set_input inputnode "mni_to_native_transform" (VStr v) in
  v <- lift (getitem subject_data "gm_probabilistic_segmentation") ;;
  let inputnode := set_input inputnode "gm_probabilistic_segmentation" (VStr v) in
  let inputnode := set_input inputnode "subject_id" (VStr subject_id) in
  let inputnode := set_input inputnode "freesurfer_dir" (VStr freesurfer_dir) in
  emit (InitAnatomicalWf "anatomical_wf") ;;
  anatomical_workflow <- new_object (init_anatomical_wf "anatomical_wf") ;;
  workflow <- connect_ workflow
    [ (inputnode, anatomical_workflow, anatomical_connections) ] ;;
  if anat_only then ret workflow
  else
    let diffusion_workflows : list EngineBase := [] in
    let num_sessions := length sessions_data in
    acc <- for_each (session_step inputnode anatomical_workflow)
                    (values sessions_data) (workflow, diffusion_workflows) ;;
    ret (fst acc).

(** [Atlas(name, load_existing=True)] followed by the [hasattr] test. *)
Definition atlas_error (a : Atlas) : string :=
  "Could not find the atlas " +++ atlas_name a
  +++ " in the configured atlas directory. Please check the name or initialize a corresponding Atlas object.".

Definition resolve_atlas : Build Atlas :=
  match parcellation_atlas config with
  | inl name =>
      a <- lift (Atlas_load name) ;;
      match atlas_nifti_file a with
      | None => raise (ValueError (atlas_error a))
      | Some _ => ret a
      end
  | inr a => ret a
  end.

Definition log_dir_of (subject_id : string) : string :=
  path_join (path_join (path_join (output_dir config) ("sub-" +++ subject_id))
                       "log")
            (run_uuid config).

(** The body of [for subject_id in config.execution.participant_label:]. *)
Definition subject_step (parcellation_atlas : Atlas) (qsipost_wf : EngineBase)
           (subject_id : string) : Build EngineBase :=
  let name := subject_wf_name subject_id in
  single_subject_wf <- init_single_subject_wf subject_id parcellation_atlas ;;
  let single_subject_wf :=
    set_crashdump_dir single_subject_wf (log_dir_of subject_id) in
  let single_subject_wf :=
    copy_config (crashdump_dir_of single_subject_wf) single_subject_wf in
  qsipost_wf <- lift (add_nodes qsipost_wf [single_subject_wf]) ;;
  (if write_graph config then
     match get_node qsipost_wf name with
     | Some wf_to_write => emit (GraphWritten (name_of wf_to_write))
     | None => raise (AttributeError "base_dir")
     end
   else ret tt) ;;
  let log_dir := log_dir_of subject_id in
  emit (Mkdir log_dir) ;;
  emit (ConfigSaved (path_join log_dir "qsipost.toml")) ;;
  ret qsipost_wf.

Definition root_wf_name (ver : nat * nat) : string :=
  "qsipost_" +++ str_of_nat (fst ver) +++ "_" +++ str_of_nat (snd ver) +++ "_wf".

(** [init_qsipost_wf].  The base directories of the workflows, which only
    the execution and the rendering of the graph read, are left out. *)
Definition init_qsipost_wf : Build EngineBase :=
  parcellation_atlas <- resolve_atlas ;;
  ver <- lift (Version (version config)) ;;
  qsipost_wf <- pe_Workflow (root_wf_name ver) ;;
  for_each (subject_step parcellation_atlas) (participant_label config) qsipost_wf.

End Builders.

(** ** A small cohort

    Two subjects, [01] with one session and [02] with two, and the
    collaborators' answers for them; used to run the builders. *)

Module Sample.

Definition ports (cls : string) : list string * list string :=
  if cls =? "ApplyTransforms" then
    (["input_image"; "transforms"; "reference_image"; "interpolation"],
     ["output_image"])
  else if cls =? "FitTensor" then
    (["in_file"; "grad_file"; "in_mask"; "nthreads"], ["out_file"])
  else if cls =? "TensorMetrics" then
    ("in_file" :: map (fun p => "out_" +++ p) TENSOR_PARAMETERS,
     map (fun p => "out_" +++ p) TENSOR_PARAMETERS)
  else if cls =? "DerivativesDataSink" then
    (["base_directory"; "in_file"; "source_file"; "desc"; "suffix";
      "extension"; "reconstruction"; "reconstruction_software"; "save_meta"],
     ["out_file"])
  else if cls =? "ResponseSD" then
    (["in_file"; "grad_file"; "in_mask"; "algorithm"; "wm_file"; "gm_file";
      "csf_file"; "voxels_file"],
     ["wm_file"; "gm_file"; "csf_file"])
  else if cls =? "EstimateFOD" then
    (["in_file"; "grad_file"; "in_mask"; "algorithm"; "wm_txt"; "gm_txt";
      "csf_txt"],
     ["wm_odf"; "gm_odf"; "csf_odf"])
  else if cls =? "MTNormalise" then
    (["in_wm_fod"; "in_gm_fod"; "in_csf_fod"; "in_mask"],
     ["out_wm_fod"; "out_gm_fod"; "out_csf_fod"])
  else if cls =? "Generate5tt" then
    (["in_file"; "in_mask"; "algorithm"], ["out_file"])
  else if cls =? "Tractography" then
    (["in_file"; "act_file"; "seed_image"; "step_size"; "min_length";
      "max_length"; "algorithm"; "select"; "angle"],
     ["out_file"])
  else if cls =? "TCKSift" then
    (["in_tracks"; "in_fod"; "act_file"; "term_number"; "term_ratio";
      "fd_scale_gm"],
     ["out_file"])
  else ([], []).

Definition entities : dict (dict value) :=
  [("dti_derived_parameters",
    [("suffix", VStr "dwiref"); ("extension", VStr ".nii.gz")])].

Definition brainnetome : Atlas :=
  mkAtlas "brainnetome" (Some "/atlases/brainnetome.nii.gz")
          "/atlases/brainnetome.csv" "Label".

(** An atlas directory that holds [brainnetome] only. *)
Definition load_atlas (name : string) : result Atlas :=
  if name =? "brainnetome" then Ok brainnetome
  else Ok (mkAtlas name None "" "").

Definition parse_version (s : string) : result (nat * nat) :=
  if s =? "0.1.0" then Ok (0, 1)
  else Raise (ValueError ("Invalid version: " +++ s)).

Definition subject_files (sid : string) : dict string :=
  [("anatomical_reference", "sub-" +++ sid +++ "_desc-preproc_T1w.nii.gz");
   ("anatomical_brain_mask", "sub-" +++ sid +++ "_desc-brain_mask.nii.gz");
   ("mni_to_native_transform", "sub-" +++ sid +++ "_from-MNI_to-T1w_xfm.h5");
   ("gm_probabilistic_segmentation", "sub-" +++ sid +++ "_label-GM_probseg.nii.gz")].

Definition session_files (sid ses : string) : SessionInputs :=
  [("session", ses);
   ("dwi_nifti", "sub-" +++ sid +++ "_ses-" +++ ses +++ "_dwi.nii.gz")].

Definition discover (sid : string)
  : result (dict string * dict SessionInputs) :=
  if sid =? "01" then
    Ok (subject_files sid, [("a", session_files sid "a")])
  else if sid =? "02" then
    Ok (subject_files sid,
        [("a", session_files sid "a"); ("b", session_files sid "b")])
  else Raise (ValueError ("no data for subject " +++ sid)).

Definition io_node (uid : nat) (name : string) (fields : list string)
  : EngineBase :=
  ANode uid (mkNode name (IdentityInterface fields) [] false None).

Definition anatomical_wf (name : string) : EngineBase :=
  AWorkflow 0 name
    [ io_node 1 "inputnode"
        ["base_directory"; "atlas_name"; "atlas_nifti_file";
         "anatomical_reference"; "mni_to_native_transform";
         "gm_probabilistic_segmentation"; "subject_id"; "freesurfer_dir"];
      io_node 2 "outputnode"
        ["whole_brain_parcellation"; "gm_cropped_parcellation"] ]
    [] None.

Definition anatomical (name : string) : result EngineBase :=
  Ok (anatomical_wf name).

Definition diffusion (dwi_data : SessionInputs) : result EngineBase :=
  match getitem dwi_data "session" with
  | Raise e => Raise e
  | Ok ses =>
      Ok (AWorkflow 0 ("diffusion_wf_ses_" +++ ses)
            [ io_node 1 "inputnode"
                ["base_directory"; "atlas_name"; "t1w_file"; "t1w_mask_file";
                 "whole_brain_t1w_parcellation"; "gm_cropped_t1w_parcellation"] ]
            [] None)
  end.

(** Every image has voxels of 2 mm. *)
Definition load_image (in_file : string) : result Image :=
  Ok (mkImage [("pixdim", map Np.float32_of_int [1; 2; 2; 2; 1; 0; 0; 0]%Z)]).

Definition cfg_atlas (atlas : string + Atlas) (anat : bool)
           (participants : list string) : Config :=
  mkConfig atlas anat false VNone VNone (VInt 1000) (VInt 45)
           participants "/data/derivatives/qsipost" "/work" "run-1" false
           [("PipelineDescription", [("Name", "qsiprep"); ("Version", "0.16.1")])]
           "0.1.0" "1.8.5" (VInt 1).

Definition cfg (anat : bool) (participants : list string) : Config :=
  cfg_atlas (inl "brainnetome") anat participants.

(** The same with streamline filtering enabled. *)
Definition cfg_sift (term_number term_ratio : value) : Config :=
  mkConfig (inl "brainnetome") false true term_number term_ratio
           (VInt 1000) (VInt 45)
           ["01"] "/data/derivatives/qsipost" "/work" "run-1" false
           [("PipelineDescription", [("Name", "qsiprep"); ("Version", "0.16.1")])]
           "0.1.0" "1.8.5" (VInt 1).

End Sample.

(** ** src/qsipost/cli/workflow.py *)

(** What the dictionary [retval] holds. *)
Inductive RetVal : Type :=
| RInt (n : nat)
| RNone
| RWorkflow (wf : EngineBase).

(** The records of the build log, by their content. *)
Inductive LogRecord : Type :=
| LogBanner (level : nat) (version : string)
| LogInit (level : nat) (dataset_path : string) (subject_list : list string)
          (run_uuid : string) (qsipost_dir : string)
| LogBuilt (nodes : nat).

(** What a call of [build_workflow] leaves: the dictionary it was given,
    the log, and the state of the build. *)
Record CliState : Type := mkCli {
  cli_retval : dict RetVal;
  cli_log : list LogRecord;
  cli_build : BuildState
}.

(** A step of [build_workflow]: its result and what it leaves. *)
Definition Cli (A : Type) : Type := CliState -> result A * CliState.

Definition cli_ret {A} (a : A) : Cli A := fun s => (Ok a, s).

Definition cli_bind {A B} (m : Cli A) (f : A -> Cli B) : Cli B :=
  fun s =>
    match m s with
    | (Ok a, s') => f a s'
    | (Raise e, s') => (Raise e, s')
    end.

(** The answer of a collaborator. *)
Definition call {A} (r : result A) : Cli A := fun s => (r, s).

(** [retval[k] = v] *)
Definition set_retval (k : string) (v : RetVal) : Cli unit :=
  fun s => (Ok tt, mkCli (setitem (cli_retval s) k v) (cli_log s) (cli_build s)).

(** A record the logger took. *)
Definition logged (r : LogRecord) : Cli unit :=
  fun s => (Ok tt, mkCli (cli_retval s) (cli_log s ++ [r]) (cli_build s)).

(** A builder, run on the state of the build. *)
Definition building {A} (m : Build A) : Cli A :=
  fun s =>
    let (r, st) := m (cli_build s) in
    (r, mkCli (cli_retval s) (cli_log s) st).

Declare Scope cli_scope.
Delimit Scope cli_scope with cli.
Notation "x <- m ;; k" := (cli_bind m (fun x => k))
  (at level 100, m at next level, right associativity) : cli_scope.
Notation "m ;; k" := (cli_bind m (fun _ => k))
  (at level 100, right associativity) : cli_scope.

Section Cli.

(** [config.load(config_file)]: the settings once the file is loaded. *)
Variable config_load : string -> result Config.
(** [config.loggers.workflow]: what a call of the logger at a level
    answers.  The message is a string when the logger is called, and the
    logging module keeps the exceptions of its handlers to itself: the
    answer is the logger's, whatever the message. *)
Variable build_log : Config -> nat -> result unit.
(** [Path(config.execution.qsipost_dir)] *)
Variable qsipost_dir_of : Config -> result string.
(** [config.execution.layout.description], read from the layout of the
    input dataset. *)
Variable layout_description_of : Config -> result (dict (dict string)).
(** [config.execution.layout.root] *)
Variable layout_root : Config -> string.
(** [niworkflows.utils.bids.collect_participants] *)
Variable collect_participants : Config -> result (list string).
(** [config.to_filename(config_file)] *)
Variable config_to_filename : Config -> string -> result unit.
(** [len(workflow.nodes())] *)
Variable count_nodes : EngineBase -> result nat.
(** The collaborators of [init_qsipost_wf]. *)
Variable Atlas_load : string -> result Atlas.
Variable Version : string -> result (nat * nat).
Variable collect_data : string -> result (dict string * dict SessionInputs).
Variable init_anatomical_wf : string -> result EngineBase.
Variable init_diffusion_wf : SessionInputs -> result EngineBase.

(** [build_workflow(config_file, retval)].  [retval] is the dictionary the
    caller gave, or the one of the default argument, which the calls
    share.  [build_log.log(25, ...)] is a call at level 25 and
    [build_log.info(...)] one at level 20. *)
Definition build_workflow (config_file : string) (retval : dict RetVal)
           (st : BuildState) : result EngineBase * CliState :=
  (config <- call (config_load config_file) ;;
   qsipost_dir <- call (qsipost_dir_of config) ;;
   let version := version config in
   set_retval "return_code" (RInt 1) ;;
   set_retval "workflow" RNone ;;
   call (build_log config 25) ;;
   logged (LogBanner 25 version) ;;
   input_dataset_description <- call (layout_description_of config) ;;
   subject_list <- call (collect_participants config) ;;
   call (build_log config 25) ;;
   logged (LogInit 25 (layout_root config) subject_list (run_uuid config)
                   qsipost_dir) ;;
   workflow <- building
     (init_qsipost_wf config Atlas_load Version collect_data
                      init_anatomical_wf init_diffusion_wf) ;;
   set_retval "workflow" (RWorkflow workflow) ;;
   call (config_to_filename config config_file) ;;
   building (emit (ConfigSaved config_file)) ;;
   nodes <- call (count_nodes workflow) ;;
   call (build_log config 20) ;;
   logged (LogBuilt nodes) ;;
   set_retval "return_code" (RInt 0) ;;
   cli_ret workflow)%cli
    (mkCli retval [] st).

End Cli.

Module CliSample.

Definition load (config_file : string) : result Config :=
  if config_file =? "qsipost.toml" then Ok (Sample.cfg false ["01"; "02"])
  else if config_file =? "unknown-subject.toml"
       then Ok (Sample.cfg false ["01"; "03"])
  else Raise (OSError "No such file or directory").

Definition logger (config : Config) (level : nat) : result unit := Ok tt.

Definition out_dir (config : Config) : result string := Ok (output_dir config).

Definition description (config : Config) : result (dict (dict string)) :=
  Ok (layout_description config).

Definition dataset (config : Config) : string := "/data/derivatives/qsiprep".

Definition participants (config : Config) : result (list string) :=
  Ok (participant_label config).

(** Another answer of the same collaborator: every subject of the
    dataset. *)
Definition all_participants (config : Config) : result (list string) :=
  Ok ["01"; "02"; "03"].

Definition save (config : Config) (config_file : string) : result unit := Ok tt.

Definition count (wf : EngineBase) : result nat :=
  Ok (length (members_of wf)).

End CliSample.

(** * Vocabulary of the properties *)

(** The nodes [init_mrtrix_tractography_wf] creates before it reads the
    filtering configuration, in the order of their creation. *)
Definition tractography_base_nodes : list string :=
  ["inputnode"; "outputnode"; "dwi2response"; "dwi2fod"; "mtnormalise";
   "gen_5tt"; "estimate_tractography_parameters"; "tckgen";
   "ds_unfiltered_tracts"].

(** The parameters of the members called [nm] of the workflow built. *)
Definition params_of_member (nm : string) (r : result EngineBase)
  : list (dict value) :=
  match r with
  | Ok wf => map params_of (filter (fun m => name_of m =? nm) (members_of wf))
  | Raise _ => []
  end.

(** The edge [e] arrives at port [p] of the member [nm]. *)
Definition edge_to (nm p : string) (e : Edge) : bool :=
  (e_dst e =? nm) && (e_dst_port e =? p).

(** The edges the loop over the sessions adds for the session workflow
    [w]. *)
Definition session_edges (inputnode anat w : EngineBase) : list Edge :=
  accepted [ (inputnode, w, session_input_connections);
             (anat, w, session_parcellation_connections) ].

(** The FreeSurfer directory, beside the output directory. *)
Definition freesurfer_dir_of (config : Config) : string :=
  path_join (path_parent (output_dir config)) "freesurfer".

(** What the build of a subject leaves in the trace when it succeeds. *)
Definition subject_events (config : Config) (subject_id : string)
           (sessions : list SessionInputs) : list Event :=
  [ WorkflowCreated (subject_wf_name subject_id);
    Mkdir (freesurfer_dir_of config);
    CollectData subject_id;
    NodeCreated "inputnode_subject";
    InitAnatomicalWf "anatomical_wf" ]
  ++ (if anat_only config then [] else map InitDiffusionWf sessions).

(** What the loop over the participants does after a subject is built. *)
Definition step_events (config : Config) (subject_id : string) : list Event :=
  (if write_graph config then [GraphWritten (subject_wf_name subject_id)] else [])
  ++ [ Mkdir (log_dir_of config subject_id);
       ConfigSaved (path_join (log_dir_of config subject_id) "qsipost.toml") ].

(** The calls of the anatomical and of the session builder. *)
Definition is_anatomical_call (ev : Event) : bool :=
  match ev with InitAnatomicalWf _ => true | _ => false end.

Definition is_diffusion_call (ev : Event) : bool :=
  match ev with InitDiffusionWf _ => true | _ => false end.

(** In the workflow [sw], the two parcellation inputs of the session
    workflow [s] are wired, each from one source: the matching output of
    [anat]. *)
Definition parcellation_wired (sw anat s : EngineBase) : Prop :=
  Forall (fun pq =>
            In (mkEdge (name_of anat) (fst pq) (name_of s) (snd pq))
               (edges_of sw)
            /\ forall e,
                In e (edges_of sw) ->
                e_dst e = name_of s -> e_dst_port e = snd pq ->
                e_src e = name_of anat /\ e_src_port e = fst pq)
         session_parcellation_connections.

(** The anatomical workflow offers the two parcellations and a session
    workflow takes them. *)
Definition offers_parcellations (anat : EngineBase) : Prop :=
  Forall (fun pq => has_port Out_ anat (fst pq) = true)
         session_parcellation_connections.

Definition takes_parcellations (s : EngineBase) : Prop :=
  Forall (fun pq => has_port In_ s (snd pq) = true)
         session_parcellation_connections.

(** A session workflow as it is in the graph: the workflow the builder
    returned, under its new identity. *)
Definition stamped (w w' : EngineBase) : Prop := exists k, w' = with_uid k w.

(** The atlas the configuration designates. *)
Definition atlas_configured (config : Config)
           (Atlas_load : string -> result Atlas) (atlas : Atlas) : Prop :=
  match parcellation_atlas config with
  | inl name => Atlas_load name = Ok atlas
  | inr a => a = atlas
  end.

(** What [init_qsipost_wf] does before its loop: the atlas, the version and
    the root workflow. *)
Definition cohort_prelude (config : Config)
           (Atlas_load : string -> result Atlas)
           (Version : string -> result (nat * nat))
  : Build (Atlas * EngineBase) :=
  parcellation_atlas <- resolve_atlas config Atlas_load ;;
  ver <- lift (Version (version config)) ;;
  qsipost_wf <- pe_Workflow (root_wf_name ver) ;;
  ret (parcellation_atlas, qsipost_wf).

(** Every run of [m] only adds events that satisfy [P]. *)
Definition emits {A} (P : Event -> Prop) (m : Build A) : Prop :=
  forall st r st',
    m st = (r, st') ->
    exists evs, trace st' = trace st ++ evs /\ Forall P evs.

(** The events of the build of the subject [subject_id]: its own workflow,
    its own discovery, and nothing of the loop over the participants. *)
Definition subject_event_of (subject_id : string) (ev : Event) : Prop :=
  match ev with
  | WorkflowCreated n => n = subject_wf_name subject_id
  | CollectData s => s = subject_id
  | GraphWritten _ | ConfigSaved _ => False
  | _ => True
  end.

(** ** What the collaborators must answer *)

Section Readiness.

Variable config : Config.
Variable collect_data : string -> result (dict string * dict SessionInputs).
Variable init_anatomical_wf : string -> result EngineBase.
Variable init_diffusion_wf : SessionInputs -> result EngineBase.

(** A subject that can be built: the dataset description gives the version
    of the upstream pipeline, the atlas has its image, the subject's files
    are found, and the anatomical workflow is built under a name other
    than that of the input node. *)
Record subject_ready (subject_id : string) (atlas : Atlas)
       (anat : EngineBase) (sessions : dict SessionInputs) : Prop := {
  ready_description :
    exists d v, getitem (layout_description config) "PipelineDescription" = Ok d
                /\ getitem d "Version" = Ok v;
  ready_atlas : exists f, atlas_nifti_file atlas = Some f;
  ready_files :
    exists files,
      collect_data subject_id = Ok (files, sessions)
      /\ Forall (fun k => exists v, getitem files k = Ok v)
                ["anatomical_reference"; "anatomical_brain_mask";
                 "mni_to_native_transform"; "gm_probabilistic_segmentation"];
  ready_anatomical : init_anatomical_wf "anatomical_wf" = Ok anat;
  ready_anatomical_name : name_of anat <> "inputnode_subject"
}.

(** The sessions of a subject that is about to be built: every record
    gives a session workflow, and the names of these are distinct and
    differ from the names of the input node and of the anatomical
    workflow. *)
Record sessions_ready (anat : EngineBase) (sessions : dict SessionInputs)
       (ws : list EngineBase) : Prop := {
  ready_sessions :
    Forall2 (fun s w => init_diffusion_wf s = Ok w) (values sessions) ws;
  ready_session_names : NoDup (map name_of ws);
  ready_session_names_free :
    Forall (fun w => name_of w <> "inputnode_subject"
                     /\ name_of w <> name_of anat) ws
}.

(** The shape of the subgraph of a subject with its sessions: the input
    node, the anatomical workflow, and one session workflow per session
    record, in the order of the records, each taking its parcellations
    from the anatomical workflow. *)
Definition subject_shape (anat : EngineBase) (subject_id : string)
           (sw : EngineBase) : Prop :=
  name_of sw = subject_wf_name subject_id
  /\ exists inputnode anat' sess files sessions,
      members_of sw = inputnode :: anat' :: sess
      /\ name_of inputnode = "inputnode_subject"
      /\ is_workflow inputnode = false
      /\ name_of anat' = name_of anat
      /\ collect_data subject_id = Ok (files, sessions)
      /\ Forall2 (fun s w' => exists w, init_diffusion_wf s = Ok w
                                        /\ name_of w' = name_of w)
                 (values sessions) sess
      /\ Forall (fun s => name_of s <> name_of anat'
                          /\ parcellation_wired sw anat' s) sess.

(** What the collaborators must answer for a subject of a cohort built
    with its sessions. *)
Definition subject_with_sessions_ready (atlas : Atlas) (anat : EngineBase)
           (subject_id : string) : Prop :=
  exists sessions ws,
    subject_ready subject_id atlas anat sessions
    /\ sessions_ready anat sessions ws
    /\ Forall takes_parcellations ws.

End Readiness.

(** ** More vocabulary: what the builders leave out, and what a build that
    returned tells *)

(** The members of the tractography workflow without the filter, in the
    order in which [connect] meets them. *)
Definition tractography_base_members : list string :=
  ["inputnode"; "dwi2response"; "dwi2fod"; "mtnormalise"; "gen_5tt"; "tckgen";
   "estimate_tractography_parameters"; "outputnode"; "ds_unfiltered_tracts"].

(** The port pairs by which [init_tractography_wf] feeds the tractography
    workflow of MRtrix3. *)
Definition tractography_wf_connections : list (string * string) :=
  [ ("dwi_nifti", "inputnode.dwi_file");
    ("dwi_reference", "inputnode.dwi_reference");
    ("dwi_grad", "inputnode.dwi_grad");
    ("dwi_mask", "inputnode.dwi_mask_file");
    ("t1w_file", "inputnode.t1w_file");
    ("t1w_mask_file", "inputnode.t1w_mask_file") ].

(** The interface class [cls] declares the input, or the output, [p]. *)
Definition declares_input (tool_ports : string -> list string * list string)
           (cls p : string) : Prop :=
  mem p (fst (tool_ports cls)) = true.

Definition declares_output (tool_ports : string -> list string * list string)
           (cls p : string) : Prop :=
  mem p (snd (tool_ports cls)) = true.

(** The names of the members of a workflow that are derivative sinks. *)
Definition sinks_of (wf : EngineBase) : list string :=
  map name_of
      (filter (fun m =>
                 match m with
                 | ANode _ n =>
                     match i_kind (n_interface n) with
                     | DerivativeSink => true
                     | _ => false
                     end
                 | AWorkflow _ _ _ _ _ => false
                 end)
              (members_of wf)).

(** The build of the tractography workflow succeeds: filtering is off, or
    one of its two criteria is a true value. *)
Definition sift_configured (config : Config) : Prop :=
  do_sift_filtering config = true ->
  truthy (sift_term_number config) || truthy (sift_term_ratio config) = true.

(** The nodes of the tensor workflow created before the keyword arguments
    of the sink are put together. *)
Definition tensor_nodes_before_sink : list string :=
  ["inputnode"; "outputnode"; "mrtrix3_tensor_wf"; "mrtrix3_tensor2metric_wf";
   "listify_tensor_params"].

(** The entry of the table of output entities cannot be unpacked beside the
    two keywords written out: it is missing, or it has one of them. *)
Definition sink_keywords_clash (entities : dict (dict value)) : Prop :=
  get entities "dti_derived_parameters" = None
  \/ exists d,
      get entities "dti_derived_parameters" = Some d
      /\ (mem_key "reconstruction_software" d = true
          \/ mem_key "save_meta" d = true).

(** The edges of the registration workflow, as the source lists them. *)
Definition registration_edges : list Edge :=
  [ mkEdge "inputnode" "atlas_nifti_file" "apply_transforms" "input_image";
    mkEdge "inputnode" "mni_to_native_transform" "apply_transforms" "transforms";
    mkEdge "inputnode" "anatomical_reference" "apply_transforms" "reference_image";
    mkEdge "apply_transforms" "output_image" "outputnode" "whole_brain_parcellation" ].

(** The keys of the subject's files that [init_single_subject_wf] reads, in
    the order in which it reads them. *)
Definition subject_file_keys : list string :=
  ["anatomical_reference"; "anatomical_brain_mask"; "mni_to_native_transform";
   "gm_probabilistic_segmentation"].

(** The state in which the build of a subject is when its input node has
    just been created. *)
Definition subject_inputnode_state (config : Config) (subject_id : string)
           (st : BuildState) : BuildState :=
  mkState (S (S (next_uid st)))
    (record (record (record (record (trace st)
       (WorkflowCreated (subject_wf_name subject_id)))
       (Mkdir (path_join (path_parent (output_dir config)) "freesurfer")))
       (CollectData subject_id))
       (NodeCreated "inputnode_subject")).

(** The nodes of a workflow, those of the workflows nested in it included
    ([_get_all_nodes]). *)
Fixpoint all_nodes (u : EngineBase) : list Node :=
  match u with
  | ANode _ n => [n]
  | AWorkflow _ _ ms _ _ => flat_map all_nodes ms
  end.

(** The events by which the loop over the participants records a subject:
    the graph written, when asked for, and the configuration saved. *)
Definition is_snapshot (ev : Event) : bool :=
  match ev with
  | GraphWritten _ | ConfigSaved _ => true
  | _ => false
  end.

Definition snapshot_events (config : Config) (subject_id : string) : list Event :=
  (if write_graph config then [GraphWritten (subject_wf_name subject_id)] else [])
  ++ [ConfigSaved (path_join (log_dir_of config subject_id) "qsipost.toml")].

(** No run of [m] gives an identity again. *)
Definition keeps_uids {A} (m : Build A) : Prop :=
  forall st r st', m st = (r, st') -> next_uid st <= next_uid st'.

(** What [m] returns, when it returns, satisfies [Q]. *)
Definition returns {A} (Q : A -> Prop) (m : Build A) : Prop :=
  forall st a st', m st = (Ok a, st') -> Q a.

(** [w'] is the workflow [w], possibly with more members and edges. *)
Definition same_head (w w' : EngineBase) : Prop :=
  is_workflow w' = true
  /\ uid_of w' = uid_of w
  /\ name_of w' = name_of w
  /\ crashdump_dir_of w' = crashdump_dir_of w.

(** The workflow of a subject as the loop over the participants leaves it
    in the root workflow. *)
Definition built_subject (config : Config) (subject_id : string)
           (sw : EngineBase) : Prop :=
  name_of sw = subject_wf_name subject_id
  /\ is_workflow sw = true
  /\ crashdump_dir_of sw = Some (log_dir_of config subject_id)
  /\ Forall (fun n => n_crashdump_dir n = Some (log_dir_of config subject_id))
            (all_nodes sw).

(** [w'] has the members of [w], in their order, and possibly more after
    them. *)
Definition grows (w w' : EngineBase) : Prop :=
  exists ms, members_of w' = members_of w ++ ms.

(** Where an edge of the workflow of a subject may start: at the input
    node of the subject, towards the anatomical workflow or with one of the
    pairs given to a session workflow, or at the anatomical workflow, with
    one of the two parcellations. *)
Definition subject_edge (anat : EngineBase) (e : Edge) : Prop :=
  (e_src e = "inputnode_subject"
   /\ ((e_dst e = name_of anat
        /\ In (e_src_port e, e_dst_port e) anatomical_connections)
       \/ In (e_src_port e, e_dst_port e) session_input_connections))
  \/ (e_src e = name_of anat
      /\ In (e_src_port e, e_dst_port e) session_parcellation_connections).

(** * Tactics *)

Arguments accepted : simpl never.
Arguments has_port : simpl never.

(** Runs the monadic steps of the builder in [H] on its state.  The
    configuration, the port tests and the comparison of identities are
    left as they are; an identity is compared with itself only. *)
Ltac run_steps_in H :=
  with_strategy opaque
    [accepted has_port Nat.eqb truthy
     parcellation_atlas anat_only do_sift_filtering sift_term_number
     sift_term_ratio n_tracts angle participant_label output_dir work_dir
     run_uuid write_graph layout_description version nipype_version
     omp_nthreads atlas_name atlas_nifti_file description_csv label_name
     path_parent path_join String.append record getitem get setitem
     mem_key]
    lazy in H.

Ltac run_build_in H :=
  run_steps_in H;
  repeat (rewrite Nat.eqb_refl in H; run_steps_in H).

(** Names the run of a builder found in the goal. *)
Ltac start_run out Hrun :=
  match goal with
  | |- context [?f ?st] =>
      match type of (f st) with
      | (result _ * BuildState)%type => remember (f st) as out eqn:Hrun
      end
  end.

(** Writes a trace as the old trace followed by the new events. *)
Ltac flatten_trace :=
  unfold record; rewrite <- ?app_assoc; cbn [app].

(** Unfolds the monadic steps up to the next call that is not known. *)
Ltac unfold_monad :=
  cbv beta iota zeta
      delta [bind lift emit fresh ret pe_Workflow pe_Node pe_MapNode
             new_object next_uid trace fst snd].

(** Discharges the readiness of a subject of the sample cohort. *)
Ltac sample_subject_ready :=
  eexists; eexists; split; [|split];
  [ constructor;
    [ do 2 eexists; split; reflexivity
    | eexists; reflexivity
    | eexists; split; [reflexivity|];
      repeat (constructor; [eexists; reflexivity|]); constructor
    | reflexivity
    | cbn; discriminate ]
  | constructor;
    [ cbn [values map snd]; repeat (econstructor; [reflexivity|]); constructor
    | cbn; repeat (constructor; [cbn; intuition discriminate|]); constructor
    | repeat (constructor; [cbn; split; discriminate|]); constructor ]
  | repeat (constructor; [repeat (constructor; [reflexivity|]); constructor|]);
    constructor ].

(** * Lemmas and theorems *)

(** ** Dictionaries *)

Lemma get_setitem_same {V} (d : dict V) (k : string) (v : V) :
  get (setitem d k v) k = Some v.
Proof.
  induction d as [|[k' v'] d IH]; cbn.
  - now rewrite String.eqb_refl.
  - destruct (k' =? k) eqn:E; cbn.
    + now rewrite String.eqb_refl.
    + now rewrite E.
Qed.

Lemma get_setitem_other {V} (d : dict V) (k k' : string) (v : V) :
  k <> k' -> get (setitem d k v) k' = get d k'.
Proof.
  intros Hne. induction d as [|[k0 v0] d IH]; cbn.
  - destruct (k =? k') eqn:E; [apply String.eqb_eq in E; contradiction|reflexivity].
  - destruct (k0 =? k) eqn:E; cbn.
    + apply String.eqb_eq in E. subst k0.
      destruct (k =? k') eqn:E'; [apply String.eqb_eq in E'; contradiction|].
      reflexivity.
    + destruct (k0 =? k'); [reflexivity|apply IH].
Qed.

(** ** The engine: what [connect] adds *)

Lemma register_edges wf u wf' :
  register wf u = Ok wf' -> edges_of wf' = edges_of wf.
Proof.
  destruct wf as [i n|i nm ms es c]; cbn; [discriminate|].
  destruct (find_member (name_of u) ms) as [m|].
  - destruct (Nat.eqb (uid_of m) (uid_of u)); [|discriminate].
    intros H; inversion H; reflexivity.
  - intros H; inversion H; reflexivity.
Qed.

Lemma register_all_edges us : forall wf wf',
  register_all wf us = Ok wf' -> edges_of wf' = edges_of wf.
Proof.
  induction us as [|u us IH]; cbn; intros wf wf' H.
  - inversion H; reflexivity.
  - destruct (register wf u) as [wf1|e] eqn:E; [|discriminate].
    rewrite (IH _ _ H). eapply register_edges; eauto.
Qed.

(** The edges of a workflow after [connect] are its edges before and the
    accepted ones. *)
Lemma connect_edges wf cs wf' rs :
  connect wf cs = Ok (wf', rs) ->
  edges_of wf' = edges_of wf ++ accepted cs.
Proof.
  unfold connect.
  destruct (register_all wf (endpoints cs)) as [[i n|i nm ms es c]|e] eqn:E;
    try discriminate.
  intros H; inversion H; subst; clear H. cbn [edges_of].
  apply register_all_edges in E. cbn in E. now rewrite E.
Qed.

(** An edge that [connect] adds was requested between two nodes that have
    the two ports it names: a pair naming an absent port adds no edge. *)
Lemma connect_adds_declared_ports_only wf cs wf' rs e :
  connect wf cs = Ok (wf', rs) ->
  In e (edges_of wf') ->
  In e (edges_of wf)
  \/ exists src dst,
       In (src, dst, e) (flat_map requested cs)
       /\ has_port Out_ src (e_src_port e) = true
       /\ has_port In_ dst (e_dst_port e) = true.
Proof.
  intros Hc Hin. rewrite (connect_edges _ _ _ _ Hc) in Hin.
  apply in_app_or in Hin. destruct Hin as [Hin|Hin]; [now left|right].
  unfold accepted in Hin. apply in_map_iff in Hin.
  destruct Hin as [[[src dst] e'] [He Hf]]. cbn in He. subst e'.
  apply filter_In in Hf. destruct Hf as [Hreq Hok].
  exists src, dst. split; [exact Hreq|].
  unfold port_ok in Hok. now apply andb_true_iff in Hok.
Qed.

(** The result reported for a pair is a mismatch exactly when one of its
    ports is absent. *)
Lemma connect_result_mismatch src dst e :
  connect_result (src, dst, e) = PortMismatch e
  <-> has_port Out_ src (e_src_port e) = false
      \/ has_port In_ dst (e_dst_port e) = false.
Proof.
  unfold connect_result, port_ok. cbn [snd].
  destruct (has_port Out_ src (e_src_port e));
    destruct (has_port In_ dst (e_dst_port e)); cbn; split;
    try (intros H; discriminate H); try tauto;
    try (intros [H|H]; discriminate H).
Qed.

Lemma filter_map_snd_filter {A B} (P : B -> bool) (Q : A * B -> bool)
      (l : list (A * B)) :
  filter P (map snd (filter Q l))
  = map snd (filter (fun x => P (snd x) && Q x) l).
Proof.
  induction l as [|x l IH]; cbn; [reflexivity|].
  destruct (Q x) eqn:EQ; cbn; destruct (P (snd x)) eqn:EP; cbn;
    rewrite ?IH; reflexivity.
Qed.

Lemma sources_of_accepted i nm ms c cs n p :
  sources_of (AWorkflow i nm ms (accepted cs) c) n p
  = map (fun r => (e_src (snd r), e_src_port (snd r)))
        (filter (fun r => edge_to n p (snd r) && port_ok r)
                (flat_map requested cs)).
Proof.
  unfold sources_of, accepted. cbn [edges_of].
  rewrite (filter_map_snd_filter
             (fun e => (e_dst e =? n) && (e_dst_port e =? p))).
  rewrite map_map. reflexivity.
Qed.

Lemma has_port_node d i n p :
  has_port d (ANode i n) p = mem p (node_ports d n).
Proof. reflexivity. Qed.

Lemma sources_of_app i nm ms c es1 es2 n p :
  sources_of (AWorkflow i nm ms (es1 ++ es2) c) n p
  = sources_of (AWorkflow i nm ms es1 c) n p
    ++ sources_of (AWorkflow i nm ms es2 c) n p.
Proof. unfold sources_of. cbn [edges_of]. now rewrite filter_app, map_app. Qed.

Lemma Forall_cons_inv {A} (P : A -> Prop) x l :
  Forall P (x :: l) -> P x /\ Forall P l.
Proof. intros H. inversion H. now split. Qed.

(** ** Tactics for the sources of a port *)

(** Evaluates the sources of a port, the port tests left as they are. *)
Ltac eval_sources :=
  rewrite ?sources_of_app, ?sources_of_accepted;
  with_strategy opaque [has_port] lazy;
  rewrite ?has_port_node;
  cbn [node_ports n_interface i_inputs i_outputs].

Ltac use_ports :=
  repeat match goal with
         | H : mem _ _ = true |- _ => rewrite H; clear H
         end.

(** ** Atlas registration *)

(** C9. In every build of the atlas-registration workflow the node that
    applies the template-to-native transform ([apply_transforms], the only
    [ApplyTransforms] node) has its interpolation parameter equal to
    [NearestNeighbor]. *)
Theorem registration_interpolation_nearest_neighbor :
  forall tool_ports name st,
  exists wf st',
    init_registration_wf tool_ports name st = (Ok wf, st')
    /\ (exists uid n,
          In (ANode uid n) (members_of wf)
          /\ n_name n = "apply_transforms"
          /\ i_class (n_interface n) = "ApplyTransforms"
          /\ get (i_params (n_interface n)) "interpolation"
             = Some (VStr "NearestNeighbor"))
    /\ (forall uid n,
          In (ANode uid n) (members_of wf) ->
          i_class (n_interface n) = "ApplyTransforms" ->
          get (i_params (n_interface n)) "interpolation"
          = Some (VStr "NearestNeighbor")).
Proof.
  intros tp name [u tr].
  start_run r Hrun.
  unfold init_registration_wf in Hrun. run_build_in Hrun. subst r.
  eexists. eexists. split; [reflexivity|]. cbn [members_of]. split.
  - do 2 eexists. split; [right; left; reflexivity|]. cbn. auto.
  - intros uid n [H|[H|[H|[]]]] Hc; inversion H; subst; cbn in *;
      try discriminate; reflexivity.
Qed.

(** ** Tractography parameters *)

(** C5, as the code has it.  [estimate_tractography_parameters] returns
    the products of its three parameters with the first spatial voxel
    dimension of the input image (entry 1 of the header's [pixdim]), as
    NumPy computes them on a [float32]: the parameter is taken as a
    [float32] and the product is rounded to a [float32].  With a voxel
    dimension of 2.0 the defaults 0.5, 30 and 500 give exactly 1.0, 60 and
    1000. *)
Theorem estimate_tractography_parameters_linear :
  forall nib_load in_file data field p stepscale lenscale_min lenscale_max,
    nib_load in_file = Ok data ->
    get (header data) "pixdim" = Some field ->
    nth_error field 1 = Some p ->
    estimate_tractography_parameters nib_load in_file
      stepscale lenscale_min lenscale_max
    = Ok (Np.mul (Np.float32_of_float stepscale) p,
          Np.mul (Np.float32_of_int lenscale_min) p,
          Np.mul (Np.float32_of_int lenscale_max) p)
    /\ (p = Np.float32_of_int 2 ->
        estimate_tractography_parameters nib_load in_file
          (Np.float64_of 1 (-1)) 30 500
        = Ok (Np.float32_of_int 1, Np.float32_of_int 60, Np.float32_of_int 1000)
        /\ map Np.to_Q [Np.float64_of 1 (-1); p; Np.float32_of_int 1;
                        Np.float32_of_int 60; Np.float32_of_int 1000]
           = [Some (1 # 2); Some 2; Some 1; Some 60; Some 1000]%Q).
Proof.
  intros load f data field p s lmin lmax Hload Hfield Hpix.
  unfold estimate_tractography_parameters.
  rewrite Hload, Hfield, Hpix. split; [reflexivity|].
  intros ->. split; vm_compute; reflexivity.
Qed.

Lemma estimate_tractography_parameters_linear_witness :
  estimate_tractography_parameters Sample.load_image "dwi.nii.gz"
    (Np.float64_of 1 (-1)) 30 500
  = Ok (Np.float32_of_int 1, Np.float32_of_int 60, Np.float32_of_int 1000).
Proof.
  exact (proj1 (proj2 (estimate_tractography_parameters_linear
                         Sample.load_image "dwi.nii.gz"
                         (mkImage [("pixdim", map Np.float32_of_int
                                                  [1; 2; 2; 2; 1; 0; 0; 0]%Z)])
                         (map Np.float32_of_int [1; 2; 2; 2; 1; 0; 0; 0]%Z)
                         (Np.float32_of_int 2) (Np.float64_of 1 (-1)) 30 500
                         eq_refl eq_refl eq_refl)
                      eq_refl)).
Defined.

(** C5, as stated, fails: the products are not exact.  For a voxel
    dimension of 1.7, which the header holds as the [float32]
    [14260634 * 2^-23], the minimal length 30 becomes 51.0, and 51 is not
    30 times the voxel dimension. *)
Lemma exact_products_fail_in_single_precision :
  let p := S754_finite false 14260634 (-23) in
  let load := fun _ : string =>
                Ok (mkImage [("pixdim", [Np.float32_of_int 1; p; p; p])]) in
  exists a b c,
    estimate_tractography_parameters load "dwi.nii.gz"
      (Np.float64_of 1 (-1)) 30 500
    = Ok (a, b, c)
    /\ valid_binary 24 128 p = true
    /\ Np.to_Q p = Some (7130317 # 4194304)%Q
    /\ Np.to_Q b = Some 51%Q
    /\ ~ (51 == 30 * (7130317 # 4194304))%Q.
Proof.
  cbv zeta. do 3 eexists. split; [reflexivity|].
  repeat split; try reflexivity. intros H. vm_compute in H. discriminate H.
Qed.

(** ** Tractography and streamline filtering *)

(** C3, as the code has it.  With filtering enabled and neither
    [sift_term_number] nor [sift_term_ratio] set to a true value (both
    [None], say), the build of the tractography workflow raises the
    [ValueError] and returns no workflow; by then the workflow object and
    its nine nodes other than the filter have been created, the filter node
    [tcksift] has not: the error is that of the choice of the filter's
    termination criterion, which comes before the node is created. *)
Theorem sift_without_termination_fails_at_build :
  forall config tool_ports name tractography_algorithm n_tracts_ angle_
         stepscale lenscale_min lenscale_max output_dir_ st,
    do_sift_filtering config = true ->
    truthy (sift_term_number config) = false ->
    truthy (sift_term_ratio config) = false ->
    exists st',
      init_mrtrix_tractography_wf config tool_ports name tractography_algorithm
        n_tracts_ angle_ stepscale lenscale_min lenscale_max output_dir_ st
      = (Raise (ValueError sift_error), st')
      /\ trace st'
         = trace st ++ WorkflowCreated name :: map NodeCreated tractography_base_nodes
      /\ ~ In "tcksift" tractography_base_nodes
      /\ tcksift_node config tool_ports st' = (Raise (ValueError sift_error), st').
Proof.
  intros config tp name alg n a s lmin lmax out [u tr] Hsift Hnum Hratio.
  start_run r Hrun.
  unfold init_mrtrix_tractography_wf in Hrun. run_build_in Hrun.
  rewrite Hsift, Hnum, Hratio in Hrun. run_steps_in Hrun. subst r.
  eexists. split; [reflexivity|]. cbn [trace]. split; [|split].
  - flatten_trace. reflexivity.
  - intros H. cbn in H. repeat (destruct H as [H|H]; [discriminate|]). exact H.
  - unfold tcksift_node, tcksift_kwargs. rewrite Hnum, Hratio. reflexivity.
Qed.

Lemma sift_without_termination_fails_at_build_witness :
  exists st',
    init_mrtrix_tractography_wf (Sample.cfg_sift VNone VNone) Sample.ports
      "mrtrix_tractography_wf" "SD_Stream" 1000 45 (1 # 2) 30 500 "." init_state
    = (Raise (ValueError sift_error), st')
    /\ trace st'
       = trace init_state
         ++ WorkflowCreated "mrtrix_tractography_wf"
            :: map NodeCreated tractography_base_nodes
    /\ ~ In "tcksift" tractography_base_nodes
    /\ tcksift_node (Sample.cfg_sift VNone VNone) Sample.ports st'
       = (Raise (ValueError sift_error), st').
Proof.
  exact (sift_without_termination_fails_at_build
           (Sample.cfg_sift VNone VNone) Sample.ports
           "mrtrix_tractography_wf" "SD_Stream" 1000 45 (1 # 2) 30 500 "."
           init_state eq_refl eq_refl eq_refl).
Defined.

(** C3, as stated, fails: in the cohort of [Sample] with filtering enabled
    and both termination criteria [None], the error is raised, and nodes of
    the tractography workflow have been created before it. *)
Lemma sift_error_comes_after_node_creation :
  let r := init_mrtrix_tractography_wf_default (Sample.cfg_sift VNone VNone)
             Sample.ports init_state in
  fst r = Raise (ValueError sift_error)
  /\ trace (snd r)
     = WorkflowCreated "mrtrix_tractography_wf"
       :: map NodeCreated tractography_base_nodes
  /\ ~ (forall nm, ~ In (NodeCreated nm) (trace (snd r))).
Proof.
  cbv zeta. split; [vm_compute; reflexivity|]. split; [vm_compute; reflexivity|].
  intros H. apply (H "inputnode"). vm_compute. right. left. reflexivity.
Qed.

(** C10, as the code has it.  As soon as one of the two criteria is a true
    value (set and not zero), the filter node is created: if
    [sift_term_number] is a true value, the node is given [term_number] and
    [fd_scale_gm] only, whatever [sift_term_ratio] is; [term_ratio] is
    given exactly when [sift_term_number] is not a true value (unset or
    zero) and [sift_term_ratio] is one; when neither is a true value no
    filter node is created.  With filtering enabled, the build of the
    tractography workflow creates this node after the nine others. *)
Theorem sift_term_number_takes_precedence :
  forall config tool_ports st,
    (truthy (sift_term_number config) || truthy (sift_term_ratio config) = true ->
     exists node st',
       tcksift_node config tool_ports st = (Ok node, st')
       /\ name_of node = "tcksift"
       /\ params_of node
          = [ (if truthy (sift_term_number config)
               then ("term_number", sift_term_number config)
               else ("term_ratio", sift_term_ratio config));
              ("fd_scale_gm", VBool true) ]
       /\ trace st' = trace st ++ [NodeCreated "tcksift"]
       /\ forall name tractography_algorithm n_tracts_ angle_ stepscale
                 lenscale_min lenscale_max output_dir_ st0,
           do_sift_filtering config = true ->
           trace (snd (init_mrtrix_tractography_wf config tool_ports name
                         tractography_algorithm n_tracts_ angle_ stepscale
                         lenscale_min lenscale_max output_dir_ st0))
           = trace st0 ++ WorkflowCreated name
                          :: map NodeCreated (tractography_base_nodes ++ ["tcksift"]))
    /\ (truthy (sift_term_number config) || truthy (sift_term_ratio config) = false ->
        tcksift_node config tool_ports st = (Raise (ValueError sift_error), st)).
Proof.
  intros config tp [u tr]. split.
  - intros Hset.
    assert (Hkw : tcksift_kwargs config
                  = Ok [if truthy (sift_term_number config)
                        then ("term_number", sift_term_number config)
                        else ("term_ratio", sift_term_ratio config)]).
    { unfold tcksift_kwargs.
      destruct (truthy (sift_term_number config)); [reflexivity|].
      cbn in Hset. now rewrite Hset. }
    unfold tcksift_node. rewrite Hkw. unfold_monad.
    eexists. eexists. split; [reflexivity|].
    split; [reflexivity|]. split; [reflexivity|]. split; [reflexivity|].
    intros name alg n a s lmin lmax out [u0 tr0] Hsift.
    start_run r Hrun.
    unfold init_mrtrix_tractography_wf, tcksift_node in Hrun.
    rewrite Hkw, Hsift in Hrun. run_build_in Hrun. subst r.
    cbn [snd trace]. flatten_trace. reflexivity.
  - intros Hset. apply orb_false_elim in Hset as [Hnum Hratio].
    unfold tcksift_node, tcksift_kwargs. now rewrite Hnum, Hratio.
Qed.

Lemma sift_term_number_takes_precedence_witness :
  exists node st',
    tcksift_node (Sample.cfg_sift (VInt 100000) (VFloat (1 # 10))) Sample.ports
      init_state
    = (Ok node, st')
    /\ params_of node
       = [("term_number", VInt 100000); ("fd_scale_gm", VBool true)].
Proof.
  destruct (proj1 (sift_term_number_takes_precedence
                     (Sample.cfg_sift (VInt 100000) (VFloat (1 # 10)))
                     Sample.ports init_state)
                  eq_refl)
    as (node & st' & Hrun & _ & Hparams & _).
  exists node, st'. split; [exact Hrun|exact Hparams].
Defined.

(** C10, as stated, fails: with filtering enabled, [sift_term_number = 0]
    and [sift_term_ratio = 0.5], both set, the filter node is given
    [term_ratio] and no [term_number]. *)
Lemma zero_term_number_gives_way_to_term_ratio :
  let config := Sample.cfg_sift (VInt 0) (VFloat (1 # 2)) in
  do_sift_filtering config = true
  /\ is_none (sift_term_number config) = false
  /\ is_none (sift_term_ratio config) = false
  /\ exists node,
      fst (tcksift_node config Sample.ports init_state) = Ok node
      /\ params_of node
         = [("term_ratio", VFloat (1 # 2)); ("fd_scale_gm", VBool true)].
Proof.
  cbv zeta. do 3 (split; [reflexivity|]).
  eexists. split; vm_compute; reflexivity.
Qed.

(** ** Tensor estimation *)

(** C2. The tensor-estimation workflow is built whenever the table of
    output entities has the entry it unpacks.  It derives the nine
    parameters [adc, fa, ad, rd, cl, cp, cs, evec, eval], distinct, each
    written by the metrics node to [<parameter>.nii.gz] and, when the
    metrics node declares its outputs, carried from its output
    [out_<parameter>] to the port [<parameter>] of the output node.  The
    inputs [in1 .. in9] of the fan-in node [listify_tensor_params] come
    from these ports in the declared order of the parameters.  The only
    derivative sink is the map node [ds_tensor_wf], which iterates over
    [in_file] and [desc]: its [in_file] is fed by the sequence of the
    fan-in node, when the sink declares it, and by nothing else, its
    [desc] is the list of the parameter names and is fed by no edge; the
    two sequences have one element per parameter, in the same order, so
    that there is one instance per parameter, the [desc] of the instance
    being the name of the parameter whose file it receives. *)
Theorem tensor_parameters_fan_out :
  forall config tool_ports entities name d st,
    get entities "dti_derived_parameters" = Some d ->
    mem_key "reconstruction_software" d = false ->
    mem_key "save_meta" d = false ->
    exists wf st',
      init_mrtrix3_tensor_wf config tool_ports entities name st = (Ok wf, st')
      /\ TENSOR_PARAMETERS
         = ["adc"; "fa"; "ad"; "rd"; "cl"; "cp"; "cs"; "evec"; "eval"]
      /\ NoDup TENSOR_PARAMETERS
      /\ params_of_member "mrtrix3_tensor2metric_wf" (Ok wf)
         = [ map (fun p => ("out_" +++ p, VStr (p +++ ".nii.gz")))
                 TENSOR_PARAMETERS ]
      /\ map name_of
             (filter (fun m =>
                        match m with
                        | ANode _ n =>
                            match i_kind (n_interface n) with
                            | DerivativeSink => true
                            | _ => false
                            end
                        | AWorkflow _ _ _ _ _ => false
                        end)
                     (members_of wf))
         = ["ds_tensor_wf"]
      /\ (exists uid n,
            In (ANode uid n) (members_of wf)
            /\ n_name n = "ds_tensor_wf"
            /\ i_kind (n_interface n) = DerivativeSink
            /\ n_iterfield n = ["in_file"; "desc"]
            /\ length (mapnode_instances "desc" n) = length TENSOR_PARAMETERS
            /\ map (fun inst => get (i_params (n_interface inst)) "desc")
                   (mapnode_instances "desc" n)
               = map (fun p => Some (VStr p)) TENSOR_PARAMETERS
            /\ map (fun si => (fst si,
                               get (i_params (n_interface (snd si))) "desc"))
                   (combine (merge_sources wf "listify_tensor_params"
                                           (length TENSOR_PARAMETERS))
                            (mapnode_instances "desc" n))
               = map (fun p => (("outputnode", p), Some (VStr p)))
                     TENSOR_PARAMETERS)
      /\ merge_sources wf "listify_tensor_params" (length TENSOR_PARAMETERS)
         = map (fun p => ("outputnode", p)) TENSOR_PARAMETERS
      /\ (Forall (fun p => declares_output tool_ports "TensorMetrics" ("out_" +++ p))
                 TENSOR_PARAMETERS ->
          map (sources_of wf "outputnode") TENSOR_PARAMETERS
          = map (fun p => [("mrtrix3_tensor2metric_wf", "out_" +++ p)])
                TENSOR_PARAMETERS)
      /\ (declares_input tool_ports "DerivativesDataSink" "in_file" ->
          sources_of wf "ds_tensor_wf" "in_file" = [("listify_tensor_params", "out")])
      /\ sources_of wf "ds_tensor_wf" "desc" = [].
Proof.
  intros config tp ents name d [u tr] Hd H1 H2.
  unfold declares_input, declares_output.
  destruct (tp "FitTensor") as [fit_in fit_out] eqn:Efit.
  destruct (tp "TensorMetrics") as [met_in met_out] eqn:Emet.
  destruct (tp "DerivativesDataSink") as [sink_in sink_out] eqn:Esink.
  cbn [fst snd].
  start_run r Hrun.
  unfold init_mrtrix3_tensor_wf in Hrun.
  rewrite Hd, ?Efit, ?Emet, ?Esink in Hrun. unfold sink_kwargs in Hrun.
  cbn [existsb fst] in Hrun. rewrite H1, H2 in Hrun.
  run_build_in Hrun.
  subst r. eexists. eexists. split; [reflexivity|].
  split; [reflexivity|].
  split; [unfold TENSOR_PARAMETERS;
          repeat (constructor; [cbn; intuition discriminate|]); constructor|].
  split; [reflexivity|].
  split; [reflexivity|].
  match goal with
  | |- context [merge_sources ?w ?nm ?k] =>
      assert (Hmerge : merge_sources w nm k
                       = map (fun p => ("outputnode", p)) TENSOR_PARAMETERS)
  end.
  { unfold merge_sources.
    cbn [length TENSOR_PARAMETERS merge_inputs seq map flat_map].
    rewrite !sources_of_accepted. vm_compute. reflexivity. }
  rewrite Hmerge. clear Hmerge.
  split; [|split; [|split; [|split]]].
  - do 2 eexists. split; [do 5 right; left; reflexivity|].
    cbn [n_name n_interface i_kind n_iterfield].
    do 3 (split; [reflexivity|]).
    unfold mapnode_instances. cbn [n_interface i_params].
    rewrite get_setitem_same.
    cbn [map combine seq length fst snd n_interface i_params TENSOR_PARAMETERS].
    rewrite !get_setitem_same. repeat split; reflexivity.
  - reflexivity.
  - intros Hout. unfold TENSOR_PARAMETERS in Hout.
    repeat (apply Forall_cons_inv in Hout as [?H Hout]).
    repeat match goal with
           | H : mem (_ +++ _) _ = true |- _ => cbn [String.append] in H
           end.
    unfold TENSOR_PARAMETERS. cbn [map]. eval_sources. use_ports. reflexivity.
  - intros; eval_sources; use_ports; reflexivity.
  - eval_sources. reflexivity.
Qed.

Lemma tensor_parameters_fan_out_witness :
  exists wf st',
    init_mrtrix3_tensor_wf (Sample.cfg false []) Sample.ports Sample.entities
      "mrtrix3_tensor_wf" init_state = (Ok wf, st')
    /\ merge_sources wf "listify_tensor_params" (length TENSOR_PARAMETERS)
       = map (fun p => ("outputnode", p)) TENSOR_PARAMETERS
    /\ map (sources_of wf "outputnode") TENSOR_PARAMETERS
       = map (fun p => [("mrtrix3_tensor2metric_wf", "out_" +++ p)])
             TENSOR_PARAMETERS
    /\ sources_of wf "ds_tensor_wf" "in_file" = [("listify_tensor_params", "out")].
Proof.
  destruct (tensor_parameters_fan_out
              (Sample.cfg false []) Sample.ports Sample.entities
              "mrtrix3_tensor_wf"
              [("suffix", VStr "dwiref"); ("extension", VStr ".nii.gz")]
              init_state eq_refl eq_refl eq_refl)
    as (wf & st' & Hrun & _ & _ & _ & _ & _ & Hmerge & Hout & Hin & _).
  exists wf, st'. split; [exact Hrun|]. split; [exact Hmerge|].
  split; [apply Hout|apply Hin; reflexivity].
  repeat (constructor; [reflexivity|]). constructor.
Defined.

(** ** The engine: identities, names and members *)

Lemma name_of_with_uid k u : name_of (with_uid k u) = name_of u.
Proof. destruct u; reflexivity. Qed.

Lemma uid_of_with_uid k u : uid_of (with_uid k u) = k.
Proof. destruct u; reflexivity. Qed.

Lemma has_port_with_uid d k u p : has_port d (with_uid k u) p = has_port d u p.
Proof. destruct u; reflexivity. Qed.

Lemma name_of_copy_config c u : name_of (copy_config c u) = name_of u.
Proof. destruct u; reflexivity. Qed.

Lemma name_of_set_input u k v : name_of (set_input u k v) = name_of u.
Proof. destruct u; reflexivity. Qed.

Lemma uid_of_set_input u k v : uid_of (set_input u k v) = uid_of u.
Proof. destruct u; reflexivity. Qed.

Lemma find_member_app nm ms u :
  find_member nm (ms ++ [u])
  = match find_member nm ms with
    | Some m => Some m
    | None => if name_of u =? nm then Some u else None
    end.
Proof.
  unfold find_member. induction ms as [|m ms IH]; cbn.
  - destruct (name_of u =? nm); reflexivity.
  - destruct (name_of m =? nm); [reflexivity|apply IH].
Qed.

Lemma register_existing i nm ms es c u :
  find_member (name_of u) ms = Some u ->
  register (AWorkflow i nm ms es c) u = Ok (AWorkflow i nm ms es c).
Proof. intros H. cbn. rewrite H, Nat.eqb_refl. reflexivity. Qed.

Lemma register_new i nm ms es c u :
  find_member (name_of u) ms = None ->
  register (AWorkflow i nm ms es c) u = Ok (AWorkflow i nm (ms ++ [u]) es c).
Proof. intros H. cbn. rewrite H. reflexivity. Qed.

(** What is in [accepted cs] was requested by [cs] with ports that exist. *)
Lemma in_accepted e cs :
  In e (accepted cs) <->
  exists src dst ports sp dp,
    In (src, dst, ports) cs /\ In (sp, dp) ports
    /\ e = mkEdge (name_of src) sp (name_of dst) dp
    /\ has_port Out_ src sp = true /\ has_port In_ dst dp = true.
Proof.
  unfold accepted. rewrite in_map_iff. split.
  - intros [[[src dst] e'] [He Hf]]. cbn in He. subst e'.
    apply filter_In in Hf. destruct Hf as [Hreq Hok].
    apply in_flat_map in Hreq. destruct Hreq as [[[s d] ports] [Hc Hr]].
    unfold requested in Hr. apply in_map_iff in Hr.
    destruct Hr as [[sp dp] [Heq Hp]]. inversion Heq; subst; clear Heq.
    exists src, dst, ports, sp, dp.
    unfold port_ok in Hok. cbn in Hok. apply andb_true_iff in Hok.
    cbn. tauto.
  - intros (src & dst & ports & sp & dp & Hc & Hp & He & Ho & Hi).
    exists (src, dst, e). split; [reflexivity|].
    apply filter_In. split.
    + apply in_flat_map. exists (src, dst, ports). split; [exact Hc|].
      unfold requested. apply in_map_iff. exists (sp, dp). subst e. auto.
    + unfold port_ok. subst e. cbn. now rewrite Ho, Hi.
Qed.
Lemma session_step_ok idf inputnode anat i nm ms es c dws s w st :
  idf s = Ok w ->
  find_member (name_of inputnode) ms = Some inputnode ->
  find_member (name_of anat) ms = Some anat ->
  find_member (name_of w) ms = None ->
  session_step idf inputnode anat (AWorkflow i nm ms es c, dws) s st
  = (Ok (AWorkflow i nm (ms ++ [with_uid (next_uid st) w])
           (es ++ session_edges inputnode anat (with_uid (next_uid st) w)) c,
         dws ++ [with_uid (next_uid st) w]),
     mkState (S (next_uid st)) (record (trace st) (InitDiffusionWf s))).
Proof.
  intros Hw Hin Han Hnew.
  unfold session_step, bind, emit, new_object, lift, fresh, ret.
  rewrite Hw. cbn [next_uid trace].
  unfold connect_, bind, lift, ret, connect.
  cbn [endpoints flat_map fst snd app register_all].
  rewrite (register_existing _ _ _ _ _ _ Hin).
  rewrite register_new by (now rewrite name_of_with_uid).
  rewrite register_existing
    by (rewrite find_member_app, Han; reflexivity).
  rewrite register_existing
    by (rewrite find_member_app, name_of_with_uid, Hnew, String.eqb_refl;
        reflexivity).
  reflexivity.
Qed.

Lemma sessions_loop_ok idf inputnode anat i nm c :
  forall ss ws,
    Forall2 (fun s w => idf s = Ok w) ss ws ->
    forall ms es dws st,
      find_member (name_of inputnode) ms = Some inputnode ->
      find_member (name_of anat) ms = Some anat ->
      NoDup (map name_of ws) ->
      Forall (fun w => find_member (name_of w) ms = None) ws ->
      exists ws' st',
        for_each (session_step idf inputnode anat) ss
                 (AWorkflow i nm ms es c, dws) st
        = (Ok (AWorkflow i nm (ms ++ ws')
                 (es ++ flat_map (session_edges inputnode anat) ws') c,
               dws ++ ws'),
           st')
        /\ Forall2 (fun w w' => exists k, w' = with_uid k w) ws ws'
        /\ trace st' = trace st ++ map InitDiffusionWf ss.
Proof.
  induction 1 as [|s w ss ws Hw Hrest IH];
    intros ms es dws st Hin Han Hnd Hnew.
  - exists [], st. cbn. rewrite !app_nil_r. repeat split. constructor.
  - inversion Hnd as [|? ? Hnotin Hnd']; subst.
    inversion Hnew as [|? ? Hw_new Hnew']; subst.
    cbn [for_each]. unfold bind at 1.
    rewrite (session_step_ok _ _ _ _ _ _ _ _ _ _ _ _ Hw Hin Han Hw_new).
    set (w' := with_uid (next_uid st) w).
    destruct (IH (ms ++ [w']) (es ++ session_edges inputnode anat w')
                 (dws ++ [w'])
                 (mkState (S (next_uid st)) (record (trace st) (InitDiffusionWf s))))
      as (ws' & st' & Hrun & Hstamp & Htr).
    + rewrite find_member_app, Hin. reflexivity.
    + rewrite find_member_app, Han. reflexivity.
    + exact Hnd'.
    + rewrite Forall_forall in *. intros x Hx.
      rewrite find_member_app, (Hnew' x Hx).
      unfold w'. rewrite name_of_with_uid.
      destruct (name_of w =? name_of x) eqn:E; [|reflexivity].
      apply String.eqb_eq in E. exfalso. apply Hnotin.
      rewrite E. now apply in_map.
    + exists (w' :: ws'), st'. split; [|split].
      * rewrite Hrun. cbn [flat_map]. rewrite <- !app_assoc. reflexivity.
      * constructor; [exists (next_uid st); reflexivity|exact Hstamp].
      * rewrite Htr. cbn [trace]. unfold record. rewrite <- app_assoc. reflexivity.
Qed.

Lemma connect_first i nm c src dst ports st :
  name_of src <> name_of dst ->
  connect_ (AWorkflow i nm [] [] c) [(src, dst, ports)] st
  = (Ok (AWorkflow i nm [src; dst] (accepted [(src, dst, ports)]) c), st).
Proof.
  intros Hne. unfold connect_, bind, lift, ret, connect.
  cbn [endpoints flat_map fst snd app register_all].
  rewrite register_new by reflexivity.
  rewrite register_new.
  - reflexivity.
  - cbn. apply String.eqb_neq in Hne. now rewrite Hne.
Qed.

Section Subject.

Variable config : Config.
Variable collect_data : string -> result (dict string * dict SessionInputs).
Variable init_anatomical_wf : string -> result EngineBase.
Variable init_diffusion_wf : SessionInputs -> result EngineBase.

Lemma init_single_subject_wf_ok sid atlas anat ss ws st :
  subject_ready config collect_data init_anatomical_wf sid atlas anat ss ->
  (anat_only config = false -> sessions_ready init_diffusion_wf anat ss ws) ->
  exists inputnode anat' sess st',
    init_single_subject_wf config collect_data init_anatomical_wf
      init_diffusion_wf sid atlas st
    = (Ok (AWorkflow (next_uid st) (subject_wf_name sid)
             (inputnode :: anat' :: sess)
             (accepted [(inputnode, anat', anatomical_connections)]
              ++ flat_map (session_edges inputnode anat') sess)
             None),
       st')
    /\ name_of inputnode = "inputnode_subject"
    /\ is_workflow inputnode = false
    /\ (forall p, has_port Out_ inputnode p = mem p subject_inputnode_fields)
    /\ (exists k, anat' = with_uid k anat)
    /\ (if anat_only config then sess = []
        else Forall2 (fun w w' => exists k, w' = with_uid k w) ws sess)
    /\ trace st' = trace st ++ subject_events config sid (values ss).
Proof.
  intros [(d & v & Hd & Hv) (f & Hf) (files & Hc & Hfiles) Han Hname] Hses.
  destruct st as [u tr]. cbn [next_uid trace].
  repeat (match goal with
          | H : Forall _ (_ :: _) |- _ => inversion H; clear H; subst
          end).
  repeat (match goal with H : exists _, _ |- _ => destruct H end).
  unfold init_single_subject_wf, get_atlas_nifti_file.
  unfold_monad. rewrite Hd. unfold_monad. rewrite Hv. unfold_monad.
  rewrite Hc. unfold_monad. rewrite Hf. unfold_monad.
  repeat match goal with
         | H : getitem files _ = Ok _ |- _ => rewrite H; clear H; unfold_monad
         end.
  rewrite Han. unfold_monad.
  match goal with
  | |- context [connect_ _ [(?i, ?a, _)] _] =>
      set (inputnode := i); set (anat' := a)
  end.
  assert (Hin_name : name_of inputnode = "inputnode_subject") by reflexivity.
  assert (Han_name : name_of anat' = name_of anat)
    by apply name_of_with_uid.
  rewrite connect_first by (rewrite Hin_name, Han_name; congruence).
  unfold_monad.
  assert (Hports : forall p,
             has_port Out_ inputnode p = mem p subject_inputnode_fields)
    by reflexivity.
  unfold subject_events.
  destruct (anat_only config) eqn:Hanat.
  - exists inputnode, anat', [], 
      (mkState (S (S (S u)))
         (record (record (record (record (record tr
            (WorkflowCreated (subject_wf_name sid)))
            (Mkdir (path_join (path_parent (output_dir config)) "freesurfer")))
            (CollectData sid)) (NodeCreated "inputnode_subject"))
            (InitAnatomicalWf "anatomical_wf"))).
    cbn [flat_map]. rewrite app_nil_r.
    repeat split; try reflexivity.
    + exists (S (S u)). reflexivity.
    + cbn [trace]. unfold record, freesurfer_dir_of.
      rewrite <- !app_assoc. reflexivity.
  - destruct (Hses eq_refl) as [Hws Hnd Hfree].
    match goal with
    | |- context [for_each _ _ _ ?s] => set (st2 := s)
    end.
    destruct (sessions_loop_ok init_diffusion_wf inputnode anat'
                u (subject_wf_name sid) None
                (values ss) ws Hws
                [inputnode; anat']
                (accepted [(inputnode, anat', anatomical_connections)])
                [] st2)
      as (sess & st' & Hrun & Hstamp & Htr).
    + unfold find_member. cbn [find]. now rewrite String.eqb_refl.
    + unfold find_member. cbn [find]. rewrite Hin_name, Han_name.
      destruct ("inputnode_subject" =? name_of anat) eqn:E.
      * apply String.eqb_eq in E. congruence.
      * now rewrite String.eqb_refl.
    + exact Hnd.
    + rewrite Forall_forall in *. intros w Hw.
      destruct (Hfree w Hw) as [Hn1 Hn2].
      unfold find_member. cbn [find]. rewrite Hin_name, Han_name.
      destruct ("inputnode_subject" =? name_of w) eqn:E1;
        [apply String.eqb_eq in E1; congruence|].
      destruct (name_of anat =? name_of w) eqn:E2;
        [apply String.eqb_eq in E2; congruence|].
      reflexivity.
    + exists inputnode, anat', sess, st'.
      rewrite Hrun. cbn [app fst].
      repeat split; try reflexivity; try assumption.
      * exists (S (S u)). reflexivity.
      * change (let (_, t) := st' in t) with (trace st'). rewrite Htr. unfold st2. cbn [trace]. unfold record, freesurfer_dir_of.
        rewrite <- !app_assoc. reflexivity.
Qed.

End Subject.


(** ** The wiring of a session workflow *)

Lemma in_session_edges e inputnode anat s :
  In e (session_edges inputnode anat s) ->
  e_dst e = name_of s
  /\ ((e_src e = name_of inputnode
       /\ In (e_src_port e, e_dst_port e) session_input_connections)
      \/ (e_src e = name_of anat
          /\ In (e_src_port e, e_dst_port e) session_parcellation_connections)).
Proof.
  unfold session_edges. rewrite in_accepted.
  intros (src & dst & ports & sp & dp & Hc & Hp & He & _ & _).
  destruct Hc as [Hc|[Hc|[]]]; inversion Hc; subst; cbn [e_dst e_src e_src_port e_dst_port];
    auto.
Qed.

Lemma sessions_wired i nm c inputnode anat sess :
  offers_parcellations anat ->
  Forall takes_parcellations sess ->
  Forall (fun s => name_of s <> name_of anat) sess ->
  Forall (parcellation_wired
            (AWorkflow i nm (inputnode :: anat :: sess)
               (accepted [(inputnode, anat, anatomical_connections)]
                ++ flat_map (session_edges inputnode anat) sess) c)
            anat) sess.
Proof.
  intros Hoff Htake Hnames.
  unfold offers_parcellations in Hoff.
  rewrite Forall_forall in *. intros s Hs.
  unfold parcellation_wired. rewrite Forall_forall. intros [p q] Hpq.
  cbn [fst snd edges_of]. split.
  - apply in_or_app. right. apply in_flat_map. exists s. split; [exact Hs|].
    unfold session_edges. apply in_accepted.
    exists anat, s, session_parcellation_connections, p, q.
    split; [right; left; reflexivity|].
    split; [exact Hpq|]. split; [reflexivity|].
    split.
    + exact (Hoff (p, q) Hpq).
    + specialize (Htake s Hs). unfold takes_parcellations in Htake.
      rewrite Forall_forall in Htake. exact (Htake (p, q) Hpq).
  - intros e He Hdst Hport.
    apply in_app_or in He. destruct He as [He|He].
    + apply in_accepted in He.
      destruct He as (src & dst & ports & sp & dp & Hc & _ & Heq & _ & _).
      destruct Hc as [Hc|[]]. inversion Hc; subst. cbn in Hdst.
      exfalso. apply (Hnames s Hs). now symmetry.
    + apply in_flat_map in He. destruct He as (s' & _ & He).
      apply in_session_edges in He.
      destruct He as [_ [[_ Hin]|[Hsrc Hin]]].
      * exfalso. cbn in Hpq, Hin.
        destruct Hpq as [Hpq|[Hpq|[]]]; injection Hpq as <- <-;
          cbn [snd] in Hport; rewrite Hport in Hin;
          repeat (destruct Hin as [Hin|Hin]; [discriminate Hin|]);
          exact Hin.
      * split; [exact Hsrc|]. cbn in Hpq, Hin.
        destruct Hpq as [Hpq|[Hpq|[]]]; injection Hpq as <- <-;
          cbn [snd fst] in *; rewrite Hport in Hin;
          destruct Hin as [Hin|[Hin|[]]]; inversion Hin; reflexivity.
Qed.

(** ** Names of subject workflows *)

Lemma length_append (a b : string) :
  String.length (a +++ b) = String.length a + String.length b.
Proof. induction a as [|c a IH]; cbn; [reflexivity|now rewrite IH]. Qed.

Lemma append_inj_r (s a b : string) : a +++ s = b +++ s -> a = b.
Proof.
  revert b. induction a as [|c a IH]; intros [|c' b] H; cbn in H.
  - reflexivity.
  - exfalso. apply (f_equal String.length) in H. cbn in H.
    rewrite length_append in H. lia.
  - exfalso. apply (f_equal String.length) in H. cbn in H.
    rewrite length_append in H. lia.
  - injection H as -> H. f_equal. now apply IH.
Qed.

Lemma subject_wf_name_inj a b : subject_wf_name a = subject_wf_name b -> a = b.
Proof.
  unfold subject_wf_name. cbn. intros H.
  repeat (injection H as H). now apply (append_inj_r "_wf").
Qed.

Lemma parcellation_wired_ext sw sw' a a' s s' :
  edges_of sw' = edges_of sw ->
  name_of a' = name_of a ->
  name_of s' = name_of s ->
  parcellation_wired sw a s -> parcellation_wired sw' a' s'.
Proof.
  intros He Ha Hs. unfold parcellation_wired. now rewrite He, Ha, Hs.
Qed.

Lemma is_workflow_copy_config c u : is_workflow (copy_config c u) = is_workflow u.
Proof. destruct u; reflexivity. Qed.

Lemma stamped_names (P : string -> Prop) ws sess :
  Forall2 stamped ws sess ->
  Forall (fun w => P (name_of w)) ws ->
  Forall (fun w => P (name_of w)) sess.
Proof.
  induction 1 as [|w w' ws sess [k ->] _ IH]; intros H; inversion H; subst;
    constructor; [now rewrite name_of_with_uid|now apply IH].
Qed.

Lemma stamped_takes ws sess :
  Forall2 stamped ws sess ->
  Forall takes_parcellations ws -> Forall takes_parcellations sess.
Proof.
  induction 1 as [|w w' ws sess [k ->] _ IH]; intros H; inversion H; subst;
    constructor; [|now apply IH].
  unfold takes_parcellations in *. rewrite Forall_forall in *.
  intros pq Hpq. rewrite has_port_with_uid. auto.
Qed.

Lemma stamped_sessions {S} (f : S -> result EngineBase) c ss ws sess :
  Forall2 (fun s w => f s = Ok w) ss ws ->
  Forall2 stamped ws sess ->
  Forall2 (fun s w' => exists w, f s = Ok w /\ name_of w' = name_of w)
          ss (map (copy_config c) sess).
Proof.
  intros H. revert sess.
  induction H as [|s w ss ws Hw _ IH]; intros sess Hs;
    inversion Hs as [|? w' ? sess' [k ->] Hs']; subst; cbn [map]; constructor.
  - exists w. split; [exact Hw|].
    now rewrite name_of_copy_config, name_of_with_uid.
  - now apply IH.
Qed.

(** ** The cohort *)

Lemma anatomical_calls_of_sessions ss :
  filter is_anatomical_call (map InitDiffusionWf ss) = [].
Proof. induction ss; cbn; auto. Qed.

Lemma anatomical_calls_of_subject config sid ss :
  filter is_anatomical_call (subject_events config sid ss ++ step_events config sid)
  = [InitAnatomicalWf "anatomical_wf"].
Proof.
  unfold subject_events, step_events. rewrite !filter_app. cbn [filter is_anatomical_call].
  destruct (anat_only config), (write_graph config); cbn;
    rewrite ?anatomical_calls_of_sessions; reflexivity.
Qed.

Lemma resolve_atlas_ok config Atlas_load atlas st :
  atlas_configured config Atlas_load atlas ->
  (exists f, atlas_nifti_file atlas = Some f) ->
  resolve_atlas config Atlas_load st = (Ok atlas, st).
Proof.
  unfold atlas_configured, resolve_atlas. intros H [f Hf].
  destruct (parcellation_atlas config) as [name|a].
  - unfold bind, lift. rewrite H, Hf. reflexivity.
  - now subst.
Qed.

Section Cohort.

Variable config : Config.
Variable collect_data : string -> result (dict string * dict SessionInputs).
Variable init_anatomical_wf : string -> result EngineBase.
Variable init_diffusion_wf : SessionInputs -> result EngineBase.

Lemma subject_step_ok atlas anat sid i nm ms es c st :
  anat_only config = false ->
  offers_parcellations anat ->
  subject_with_sessions_ready config collect_data init_anatomical_wf
    init_diffusion_wf atlas anat sid ->
  find_member (subject_wf_name sid) ms = None ->
  exists sw st' sessions,
    subject_step config collect_data init_anatomical_wf init_diffusion_wf
                 atlas (AWorkflow i nm ms es c) sid st
    = (Ok (AWorkflow i nm (ms ++ [sw]) es c), st')
    /\ subject_shape collect_data init_diffusion_wf anat sid sw
    /\ trace st' = trace st ++ subject_events config sid sessions
                            ++ step_events config sid.
Proof.
  intros Hanat Hoff (sessions & ws & Hready & Hses & Htake) Hfree.
  destruct (init_single_subject_wf_ok config collect_data init_anatomical_wf
              init_diffusion_wf sid atlas anat sessions ws st Hready
              (fun _ => Hses))
    as (inputnode & anat' & sess & st1 & Hrun & Hin & Hnode & _ & [k Hk]
        & Hsess & Htr).
  rewrite Hanat in Hsess.
  unfold subject_step. unfold bind at 1. rewrite Hrun.
  set (sw0 := AWorkflow (next_uid st) (subject_wf_name sid)
                (inputnode :: anat' :: sess)
                (accepted [(inputnode, anat', anatomical_connections)]
                 ++ flat_map (session_edges inputnode anat') sess) None).
  set (sw := copy_config _ _).
  assert (Hsw_name : name_of sw = subject_wf_name sid) by reflexivity.
  unfold add_nodes. cbn [register_all].
  rewrite register_new by (rewrite Hsw_name; exact Hfree).
  unfold bind, lift, ret, emit.
  assert (Hget : get_node (AWorkflow i nm (ms ++ [sw]) es c)
                          (subject_wf_name sid) = Some sw).
  { unfold get_node. cbn [members_of].
    rewrite find_member_app, Hfree, Hsw_name, String.eqb_refl. reflexivity. }
  assert (Hshape : subject_shape collect_data init_diffusion_wf anat sid sw).
  { split; [exact Hsw_name|].
      destruct Hready as [_ _ (files & Hc & _) _ _].
      destruct Hses as [Hws Hnd Hnames].
      exists (copy_config (crashdump_dir_of (set_crashdump_dir sw0 (log_dir_of config sid))) inputnode),
        (copy_config (crashdump_dir_of (set_crashdump_dir sw0 (log_dir_of config sid))) anat'),
        (map (copy_config (crashdump_dir_of (set_crashdump_dir sw0 (log_dir_of config sid)))) sess),
        files, sessions.
      split; [reflexivity|].
      split; [now rewrite name_of_copy_config|].
      split; [now rewrite is_workflow_copy_config|].
      split; [rewrite name_of_copy_config, Hk; apply name_of_with_uid|].
      split; [exact Hc|].
      split; [exact (stamped_sessions _ _ _ _ _ Hws Hsess)|].
    assert (Hfree_anat : Forall (fun w => name_of w <> name_of anat') sess).
    { apply (stamped_names (fun n => n <> name_of anat') ws sess Hsess).
      rewrite Forall_forall in *. intros w Hw.
      rewrite Hk, name_of_with_uid. now apply Hnames. }
    assert (Hwired : Forall (parcellation_wired sw0 anat') sess).
    { apply sessions_wired.
      - rewrite Hk. unfold offers_parcellations in *.
        rewrite Forall_forall in *. intros pq Hpq.
        rewrite has_port_with_uid. now apply Hoff.
      - exact (stamped_takes _ _ Hsess Htake).
      - exact Hfree_anat. }
    rewrite Forall_forall in *. intros s Hs.
    apply in_map_iff in Hs. destruct Hs as (s0 & <- & Hs0).
    rewrite !name_of_copy_config. split.
    + now apply Hfree_anat.
    + eapply parcellation_wired_ext; [| | |exact (Hwired s0 Hs0)];
        try reflexivity; apply name_of_copy_config. }
  exists sw.
  destruct (write_graph config) eqn:Hwg.
  - rewrite Hget. eexists. exists (values sessions).
    split; [reflexivity|]. split; [exact Hshape|].
    cbn [trace]. rewrite Htr. unfold step_events.
    rewrite Hwg, Hsw_name. unfold record. rewrite <- !app_assoc. reflexivity.
  - eexists. exists (values sessions).
    split; [reflexivity|]. split; [exact Hshape|].
    cbn [trace]. rewrite Htr. unfold step_events. rewrite Hwg.
    unfold record. rewrite <- !app_assoc. reflexivity.
Qed.

End Cohort.

Section CohortLoop.

Variable config : Config.
Variable collect_data : string -> result (dict string * dict SessionInputs).
Variable init_anatomical_wf : string -> result EngineBase.
Variable init_diffusion_wf : SessionInputs -> result EngineBase.

Lemma cohort_loop_ok atlas anat i nm es c :
  anat_only config = false ->
  offers_parcellations anat ->
  forall sids,
    NoDup sids ->
    Forall (subject_with_sessions_ready config collect_data init_anatomical_wf
              init_diffusion_wf atlas anat) sids ->
    forall ms st,
      Forall (fun sid => find_member (subject_wf_name sid) ms = None) sids ->
      exists sws st' evs,
        for_each (subject_step config collect_data init_anatomical_wf
                    init_diffusion_wf atlas)
                 sids (AWorkflow i nm ms es c) st
        = (Ok (AWorkflow i nm (ms ++ sws) es c), st')
        /\ Forall2 (subject_shape collect_data init_diffusion_wf anat) sids sws
        /\ trace st' = trace st ++ evs
        /\ filter is_anatomical_call evs
           = map (fun _ => InitAnatomicalWf "anatomical_wf") sids.
Proof.
  intros Hanat Hoff sids.
  induction sids as [|sid sids IH]; intros Hnd Hready ms st Hfree.
  - exists [], st, []. cbn. rewrite !app_nil_r. repeat split. constructor.
  - inversion Hnd as [|? ? Hnotin Hnd']; subst.
    inversion Hready as [|? ? Hsid Hready']; subst.
    inversion Hfree as [|? ? Hsid_free Hfree']; subst.
    destruct (subject_step_ok config collect_data init_anatomical_wf
                init_diffusion_wf atlas anat sid i nm ms es c st
                Hanat Hoff Hsid Hsid_free)
      as (sw & st1 & sessions & Hstep & Hshape & Htr1).
    destruct (IH Hnd' Hready' (ms ++ [sw]) st1)
      as (sws & st' & evs & Hrun & Hshapes & Htr & Hcalls).
    + rewrite Forall_forall in *. intros sid' Hin'.
      rewrite find_member_app, (Hfree' sid' Hin').
      destruct Hshape as [Hname _]. rewrite Hname.
      destruct (subject_wf_name sid =? subject_wf_name sid') eqn:E;
        [|reflexivity].
      apply String.eqb_eq, subject_wf_name_inj in E. subst sid'.
      contradiction.
    + exists (sw :: sws), st',
        ((subject_events config sid sessions ++ step_events config sid) ++ evs).
      cbn [for_each]. unfold bind at 1. rewrite Hstep, Hrun.
      rewrite <- app_assoc. split; [reflexivity|].
      split; [constructor; assumption|]. split.
      * rewrite Htr, Htr1. rewrite <- !app_assoc. reflexivity.
      * rewrite filter_app, anatomical_calls_of_subject, Hcalls. reflexivity.
Qed.

End CohortLoop.

(** C1. A cohort built with its sessions ([anat_only] false), from a list
    of distinct participants for each of whom the collaborators answer
    (files found, one session workflow per session record, with names that
    do not clash, the anatomical workflow offering the two parcellations
    and the session workflows taking them): the build returns the root
    workflow; its members are the subject workflows, one per participant
    and in the order of the list; each subject workflow holds its input
    node, one anatomical workflow and one session workflow per session
    record, none of them the anatomical workflow; each session workflow
    has its two parcellation inputs wired from that anatomical workflow and
    from nothing else; and the anatomical builder was called once per
    subject. *)
Theorem cohort_one_subgraph_per_subject_and_session :
  forall config Atlas_load Version collect_data init_anatomical_wf
         init_diffusion_wf atlas anat ver st,
    anat_only config = false ->
    atlas_configured config Atlas_load atlas ->
    (exists f, atlas_nifti_file atlas = Some f) ->
    Version (version config) = Ok ver ->
    offers_parcellations anat ->
    NoDup (participant_label config) ->
    Forall (subject_with_sessions_ready config collect_data init_anatomical_wf
              init_diffusion_wf atlas anat)
           (participant_label config) ->
    exists root st' evs,
      init_qsipost_wf config Atlas_load Version collect_data init_anatomical_wf
                      init_diffusion_wf st
      = (Ok root, st')
      /\ name_of root = root_wf_name ver
      /\ Forall2 (subject_shape collect_data init_diffusion_wf anat)
                 (participant_label config) (members_of root)
      /\ trace st' = trace st ++ WorkflowCreated (root_wf_name ver) :: evs
      /\ filter is_anatomical_call evs
         = map (fun _ => InitAnatomicalWf "anatomical_wf")
               (participant_label config).
Proof.
  intros config AL V cd ia idf atlas anat ver st
         Hanat Hatlas Hnifti Hver Hoff Hnd Hready.
  unfold init_qsipost_wf. unfold bind at 1.
  rewrite (resolve_atlas_ok _ _ _ _ Hatlas Hnifti).
  unfold bind at 1, lift at 1. rewrite Hver.
  unfold bind at 1. unfold pe_Workflow, bind, fresh, emit, ret.
  cbn [next_uid trace].
  destruct (cohort_loop_ok config cd ia idf atlas anat
              (next_uid st) (root_wf_name ver) [] None Hanat Hoff
              (participant_label config) Hnd Hready []
              (mkState (S (next_uid st))
                       (record (trace st) (WorkflowCreated (root_wf_name ver)))))
    as (sws & st' & evs & Hrun & Hshapes & Htr & Hcalls).
  - rewrite Forall_forall. reflexivity.
  - exists (AWorkflow (next_uid st) (root_wf_name ver) sws [] None), st', evs.
    split; [exact Hrun|]. split; [reflexivity|]. split; [exact Hshapes|].
    split; [|exact Hcalls].
    rewrite Htr. cbn [trace]. unfold record. rewrite <- app_assoc. reflexivity.
Qed.

Lemma cohort_one_subgraph_per_subject_and_session_witness :
  exists root st' evs,
    init_qsipost_wf (Sample.cfg false ["01"; "02"]) Sample.load_atlas
      Sample.parse_version Sample.discover Sample.anatomical Sample.diffusion
      init_state
    = (Ok root, st')
    /\ name_of root = root_wf_name (0, 1)
    /\ Forall2 (subject_shape Sample.discover Sample.diffusion
                  (Sample.anatomical_wf "anatomical_wf"))
               ["01"; "02"] (members_of root)
    /\ trace st' = trace init_state ++ WorkflowCreated (root_wf_name (0, 1)) :: evs
    /\ filter is_anatomical_call evs
       = map (fun _ => InitAnatomicalWf "anatomical_wf") ["01"; "02"].
Proof.
  apply (cohort_one_subgraph_per_subject_and_session
           (Sample.cfg false ["01"; "02"]) Sample.load_atlas
           Sample.parse_version Sample.discover Sample.anatomical
           Sample.diffusion Sample.brainnetome
           (Sample.anatomical_wf "anatomical_wf") (0, 1) init_state).
  - reflexivity.
  - reflexivity.
  - eexists; reflexivity.
  - reflexivity.
  - repeat (constructor; [reflexivity|]); constructor.
  - cbn. repeat (constructor; [cbn; intuition discriminate|]); constructor.
  - cbn [participant_label Sample.cfg Sample.cfg_atlas].
    constructor; [sample_subject_ready|].
    constructor; [sample_subject_ready|]. constructor.
Defined.

(** The sample cohort of the specification: two subjects, one session for
    the first and two for the second. *)
Example sample_cohort_counts :
  match fst (init_qsipost_wf (Sample.cfg false ["01"; "02"]) Sample.load_atlas
               Sample.parse_version Sample.discover Sample.anatomical
               Sample.diffusion init_state) with
  | Ok root =>
      map (fun sw => map name_of (members_of sw)) (members_of root)
      = [ ["inputnode_subject"; "anatomical_wf"; "diffusion_wf_ses_a"];
          ["inputnode_subject"; "anatomical_wf"; "diffusion_wf_ses_a";
           "diffusion_wf_ses_b"] ]
  | Raise _ => False
  end.
Proof. vm_compute. reflexivity. Qed.

(** ** Anatomy only *)

(** C4. With [anat_only] true, for every subject for whom the collaborators
    answer and whatever sessions were discovered for it, the build of the
    subject returns a workflow whose members are the input node and the
    anatomical workflow, and nothing else: no session workflow is built
    (the session builder is not called) and none is in the graph. *)
Theorem anat_only_builds_no_session :
  forall config collect_data init_anatomical_wf init_diffusion_wf
         subject_id atlas anat sessions st,
    anat_only config = true ->
    subject_ready config collect_data init_anatomical_wf subject_id atlas anat
                  sessions ->
    exists wf st' inputnode anat',
      init_single_subject_wf config collect_data init_anatomical_wf
        init_diffusion_wf subject_id atlas st
      = (Ok wf, st')
      /\ name_of wf = subject_wf_name subject_id
      /\ members_of wf = [inputnode; anat']
      /\ name_of inputnode = "inputnode_subject"
      /\ is_workflow inputnode = false
      /\ stamped anat anat'
      /\ trace st' = trace st ++ subject_events config subject_id []
      /\ filter is_diffusion_call (subject_events config subject_id []) = [].
Proof.
  intros config cd ia idf sid atlas anat sessions st Hanat Hready.
  destruct (init_single_subject_wf_ok config cd ia idf sid atlas anat sessions
              [] st Hready)
    as (inputnode & anat' & sess & st' & Hrun & Hin & Hnode & _ & Hk
        & Hsess & Htr).
  - rewrite Hanat. discriminate.
  - rewrite Hanat in Hsess. subst sess.
    eexists. exists st', inputnode, anat'.
    split; [exact Hrun|]. cbn [name_of members_of].
    repeat split; try assumption.
    + rewrite Htr. unfold subject_events. now rewrite Hanat.
    + unfold subject_events. now rewrite Hanat.
Qed.

Lemma anat_only_builds_no_session_witness :
  exists wf st' inputnode anat',
    init_single_subject_wf (Sample.cfg true ["02"]) Sample.discover
      Sample.anatomical Sample.diffusion "02" Sample.brainnetome init_state
    = (Ok wf, st')
    /\ name_of wf = subject_wf_name "02"
    /\ members_of wf = [inputnode; anat']
    /\ name_of inputnode = "inputnode_subject"
    /\ is_workflow inputnode = false
    /\ stamped (Sample.anatomical_wf "anatomical_wf") anat'
    /\ trace st' = trace init_state ++ subject_events (Sample.cfg true ["02"]) "02" []
    /\ filter is_diffusion_call (subject_events (Sample.cfg true ["02"]) "02" []) = [].
Proof.
  apply (anat_only_builds_no_session
           (Sample.cfg true ["02"]) Sample.discover Sample.anatomical
           Sample.diffusion "02" Sample.brainnetome
           (Sample.anatomical_wf "anatomical_wf")
           [("a", Sample.session_files "02" "a");
            ("b", Sample.session_files "02" "b")]
           init_state).
  - reflexivity.
  - constructor.
    + do 2 eexists; split; reflexivity.
    + eexists; reflexivity.
    + eexists; split; [reflexivity|].
      repeat (constructor; [eexists; reflexivity|]); constructor.
    + reflexivity.
    + cbn; discriminate.
Defined.

(** ** Failures *)

(** C8. When the configured atlas name does not resolve to an atlas with an
    image (the atlas object has no [atlas_nifti_file], or making it
    raises), the cohort build raises before anything is built: the state
    is the initial one (no root workflow and no subject workflow was
    created, no collaborator was asked for a subject), and when the atlas
    object exists the exception is the [ValueError] whose message holds the
    atlas's name. *)
Theorem unresolved_atlas_is_fatal :
  forall config Atlas_load Version collect_data init_anatomical_wf
         init_diffusion_wf name st,
    parcellation_atlas config = inl name ->
    (forall a, Atlas_load name = Ok a -> atlas_nifti_file a = None) ->
    exists e,
      init_qsipost_wf config Atlas_load Version collect_data init_anatomical_wf
                      init_diffusion_wf st
      = (Raise e, st)
      /\ forall a,
          Atlas_load name = Ok a ->
          e = ValueError (atlas_error a)
          /\ atlas_error a
             = "Could not find the atlas " +++ atlas_name a
               +++ " in the configured atlas directory. Please check the name or initialize a corresponding Atlas object.".
Proof.
  intros config AL V cd ia idf name st Hname Hnone.
  unfold init_qsipost_wf, resolve_atlas. rewrite Hname.
  unfold bind, lift.
  destruct (AL name) as [a|e] eqn:Ha.
  - rewrite (Hnone a eq_refl). exists (ValueError (atlas_error a)).
    split; [reflexivity|].
    intros a' Ha'. inversion Ha'; subst. split; reflexivity.
  - exists e. split; [reflexivity|]. intros a Habs. discriminate.
Qed.

Lemma unresolved_atlas_is_fatal_witness :
  exists e,
    init_qsipost_wf (Sample.cfg_atlas (inl "aal") false ["01"; "02"])
      Sample.load_atlas Sample.parse_version Sample.discover Sample.anatomical
      Sample.diffusion init_state
    = (Raise e, init_state)
    /\ forall a,
        Sample.load_atlas "aal" = Ok a ->
        e = ValueError (atlas_error a)
        /\ atlas_error a
           = "Could not find the atlas " +++ atlas_name a
             +++ " in the configured atlas directory. Please check the name or initialize a corresponding Atlas object.".
Proof.
  apply (unresolved_atlas_is_fatal
           (Sample.cfg_atlas (inl "aal") false ["01"; "02"])
           Sample.load_atlas Sample.parse_version Sample.discover
           Sample.anatomical Sample.diffusion "aal" init_state).
  - reflexivity.
  - intros a Ha. inversion Ha. reflexivity.
Defined.

(** ** What a builder leaves in the trace *)

Lemma emits_ret {A} P (a : A) : emits P (ret a).
Proof.
  intros st r st' H. inversion H; subst. exists []. rewrite app_nil_r. auto.
Qed.

Lemma emits_raise {A} P e : emits P (@raise A e).
Proof.
  intros st r st' H. inversion H; subst. exists []. rewrite app_nil_r. auto.
Qed.

Lemma emits_lift {A} P (x : result A) : emits P (lift x).
Proof.
  intros st r st' H. inversion H; subst. exists []. rewrite app_nil_r. auto.
Qed.

Lemma emits_fresh P : emits P fresh.
Proof.
  intros st r st' H. inversion H; subst. exists []. cbn. rewrite app_nil_r. auto.
Qed.

Lemma emits_emit (P : Event -> Prop) ev : P ev -> emits P (emit ev).
Proof.
  intros Hev st r st' H. inversion H; subst. exists [ev]. cbn. auto.
Qed.

Lemma emits_bind {A B} P (m : Build A) (f : A -> Build B) :
  emits P m -> (forall a, emits P (f a)) -> emits P (bind m f).
Proof.
  intros Hm Hf st r st' H. unfold bind in H.
  destruct (m st) as [[a|e] st1] eqn:Em.
  - destruct (Hm _ _ _ Em) as (evs1 & Htr1 & HP1).
    destruct (Hf a _ _ _ H) as (evs2 & Htr2 & HP2).
    exists (evs1 ++ evs2). rewrite Htr2, Htr1, app_assoc. split; [reflexivity|].
    apply Forall_app; auto.
  - inversion H; subst. exact (Hm _ _ _ Em).
Qed.

Lemma emits_for_each {A X} P (body : A -> X -> Build A) xs :
  (forall acc x, emits P (body acc x)) ->
  forall acc, emits P (for_each body xs acc).
Proof.
  intros Hbody. induction xs as [|x xs IH]; intros acc; cbn [for_each].
  - apply emits_ret.
  - apply emits_bind; [apply Hbody|exact IH].
Qed.

Lemma emits_connect P wf cs : emits P (connect_ wf cs).
Proof.
  unfold connect_. apply emits_bind; [apply emits_lift|intros; apply emits_ret].
Qed.

Lemma emits_new_object P r : emits P (new_object r).
Proof.
  unfold new_object.
  apply emits_bind; [apply emits_lift|intros].
  apply emits_bind; [apply emits_fresh|intros; apply emits_ret].
Qed.

Lemma emits_pe_Node (P : Event -> Prop) itf name b :
  P (NodeCreated name) -> emits P (pe_Node itf name b).
Proof.
  intros H. unfold pe_Node.
  apply emits_bind; [apply emits_fresh|intros].
  apply emits_bind; [now apply emits_emit|intros; apply emits_ret].
Qed.

Lemma emits_pe_Workflow (P : Event -> Prop) name :
  P (WorkflowCreated name) -> emits P (pe_Workflow name).
Proof.
  intros H. unfold pe_Workflow.
  apply emits_bind; [apply emits_fresh|intros].
  apply emits_bind; [now apply emits_emit|intros; apply emits_ret].
Qed.

Ltac emits_step :=
  first
    [ apply emits_ret | apply emits_raise | apply emits_lift
    | apply emits_fresh | apply emits_connect | apply emits_new_object
    | apply emits_emit; exact I
    | apply emits_emit; reflexivity
    | apply emits_pe_Node; exact I
    | apply emits_pe_Workflow; reflexivity
    | apply emits_bind; [|intros ?]
    | match goal with
      | |- emits _ (match ?x with _ => _ end) => destruct x
      end ].

Lemma init_single_subject_wf_emits config cd ia idf sid atlas :
  emits (subject_event_of sid)
        (init_single_subject_wf config cd ia idf sid atlas).
Proof.
  unfold init_single_subject_wf.
  repeat emits_step.
  apply emits_for_each. intros [wf dws] s. unfold session_step.
  repeat emits_step.
Qed.

Lemma init_qsipost_wf_loop config AL V cd ia idf st :
  init_qsipost_wf config AL V cd ia idf st
  = match cohort_prelude config AL V st with
    | (Ok (atlas, root), st') =>
        for_each (subject_step config cd ia idf atlas)
                 (participant_label config) root st'
    | (Raise e, st') => (Raise e, st')
    end.
Proof.
  unfold init_qsipost_wf, cohort_prelude, bind.
  destruct (resolve_atlas config AL st) as [[atlas|e] st1]; [|reflexivity].
  unfold lift. destruct (V (version config)) as [ver|e]; [|reflexivity].
  destruct (pe_Workflow (root_wf_name ver) st1) as [[root|e] st2]; reflexivity.
Qed.

Lemma for_each_app {A X} (body : A -> X -> Build A) xs ys acc st :
  for_each body (xs ++ ys) acc st
  = match for_each body xs acc st with
    | (Ok acc', st') => for_each body ys acc' st'
    | (Raise e, st') => (Raise e, st')
    end.
Proof.
  revert acc st. induction xs as [|x xs IH]; intros acc st; cbn.
  - reflexivity.
  - unfold bind. destruct (body acc x st) as [[acc'|e] st']; [apply IH|reflexivity].
Qed.

(** C7. When the build of one subject's workflow raises, after the
    participants before it were built, the cohort build raises the same
    exception and returns no root workflow, whatever participants come
    after; it ends in the state the exception was raised in, and what the
    failed build left in the trace concerns that subject only: no other
    subject's files were asked for and no other subject's workflow was
    created.  The subject is not skipped and nothing is built for the
    participants after it. *)
Theorem subject_failure_aborts_cohort :
  forall config Atlas_load Version collect_data init_anatomical_wf
         init_diffusion_wf before subject_id after atlas root0 root
         st0 st1 st2 st3 e,
    participant_label config = before ++ subject_id :: after ->
    cohort_prelude config Atlas_load Version st0 = (Ok (atlas, root0), st1) ->
    for_each (subject_step config collect_data init_anatomical_wf
                init_diffusion_wf atlas) before root0 st1
    = (Ok root, st2) ->
    init_single_subject_wf config collect_data init_anatomical_wf
      init_diffusion_wf subject_id atlas st2
    = (Raise e, st3) ->
    init_qsipost_wf config Atlas_load Version collect_data init_anatomical_wf
                    init_diffusion_wf st0
    = (Raise e, st3)
    /\ for_each (subject_step config collect_data init_anatomical_wf
                   init_diffusion_wf atlas) (subject_id :: after) root st2
       = (Raise e, st3)
    /\ exists evs,
        trace st3 = trace st2 ++ evs
        /\ forall other,
            other <> subject_id ->
            ~ In (CollectData other) evs
            /\ ~ In (WorkflowCreated (subject_wf_name other)) evs.
Proof.
  intros config AL V cd ia idf before sid after atlas root0 root
         st0 st1 st2 st3 e Hlist Hpre Hbefore Hfail.
  assert (Hstep : for_each (subject_step config cd ia idf atlas)
                           (sid :: after) root st2 = (Raise e, st3)).
  { cbn [for_each]. unfold bind at 1. unfold subject_step at 1.
    unfold bind at 1. rewrite Hfail. reflexivity. }
  split; [|split; [exact Hstep|]].
  - rewrite init_qsipost_wf_loop, Hpre, Hlist, for_each_app, Hbefore.
    exact Hstep.
  - destruct (init_single_subject_wf_emits config cd ia idf sid atlas
                _ _ _ Hfail) as (evs & Htr & Hevs).
    exists evs. split; [exact Htr|].
    rewrite Forall_forall in Hevs. intros other Hother. split; intros Hin.
    + apply Hevs in Hin. cbn in Hin. contradiction.
    + apply Hevs in Hin. cbn [subject_event_of] in Hin.
      apply subject_wf_name_inj in Hin. contradiction.
Qed.

Lemma subject_failure_aborts_cohort_witness :
  exists st3,
    init_qsipost_wf (Sample.cfg false ["01"; "03"; "02"]) Sample.load_atlas
      Sample.parse_version Sample.discover Sample.anatomical Sample.diffusion
      init_state
    = (Raise (ValueError "no data for subject 03"), st3)
    /\ ~ In (CollectData "02") (trace st3).
Proof.
  edestruct (fun atlas root0 root st1 st2 st3 e =>
               subject_failure_aborts_cohort
                 (Sample.cfg false ["01"; "03"; "02"]) Sample.load_atlas
                 Sample.parse_version Sample.discover Sample.anatomical
                 Sample.diffusion ["01"] "03" ["02"] atlas root0 root
                 init_state st1 st2 st3 e eq_refl)
    as [Hrun _].
  - vm_compute. reflexivity.
  - vm_compute. reflexivity.
  - vm_compute. reflexivity.
  - eexists. split; [exact Hrun|].
    cbn. intuition discriminate.
Defined.

(** ** Ports named by the subject workflow *)

(** C6, on the code.  The connection of the subject's input node to the
    anatomical workflow names the source port [atlas_nifti_file]; the
    fields the input node declares hold [atlas_nifti] and no
    [atlas_nifti_file], so the node has no such port and the pair is
    reported as a port mismatch.  In the sample cohort the anatomical
    workflow of subject [01] declares the input and is given no source for
    it, while its other inputs are connected. *)
Theorem subject_connect_names_undeclared_port :
  In ("atlas_nifti_file", "inputnode.atlas_nifti_file") anatomical_connections
  /\ ~ In "atlas_nifti_file" subject_inputnode_fields
  /\ In "atlas_nifti" subject_inputnode_fields
  /\ (forall uid n anat,
        i_outputs (n_interface n) = subject_inputnode_fields ->
        let e := mkEdge (n_name n) "atlas_nifti_file"
                        (name_of anat) "inputnode.atlas_nifti_file" in
        connect_result (ANode uid n, anat, e) = PortMismatch e)
  /\ match fst (init_single_subject_wf (Sample.cfg false ["01"]) Sample.discover
                  Sample.anatomical Sample.diffusion "01" Sample.brainnetome
                  init_state) with
     | Ok wf =>
         option_map (fun a => has_port In_ a "inputnode.atlas_nifti_file")
                    (get_node wf "anatomical_wf") = Some true
         /\ sources_of wf "anatomical_wf" "inputnode.atlas_nifti_file" = []
         /\ sources_of wf "anatomical_wf" "inputnode.atlas_name"
            = [("inputnode_subject", "atlas_name")]
     | Raise _ => False
     end.
Proof.
  split; [cbn; tauto|].
  split; [cbn; intuition discriminate|].
  split; [cbn; tauto|].
  split.
  - intros uid n anat Hfields e. apply connect_result_mismatch. left.
    unfold has_port. cbn [node_ports e_src_port e]. rewrite Hfields. reflexivity.
  - vm_compute. repeat split; reflexivity.
Qed.

(** * Further properties of the builders *)

(** ** More on the tractography workflow *)

Lemma accepted_incl cs e :
  In e (accepted cs) -> In e (map snd (flat_map requested cs)).
Proof.
  unfold accepted. rewrite !in_map_iff. intros (r & Hr & Hin).
  apply filter_In in Hin as [Hin _]. now exists r.
Qed.

(** No edge of the workflow in the goal leaves the port [port] of the
    member [src]: no connection asks for one. *)
Ltac no_edge_from src port :=
  let e := fresh "e" in
  let He := fresh "He" in
  let Hsrc := fresh "Hsrc" in
  let Hport := fresh "Hport" in
  let Hb := fresh "Hb" in
  intros e He Hsrc Hport; cbn [edges_of] in He;
  try (apply in_app_or in He; destruct He as [He|He]);
  apply accepted_incl in He;
  match type of He with
  | In _ ?l =>
      assert (Hb : forallb (fun e => negb ((e_src e =? src)
                                           && (e_src_port e =? port))) l = true)
        by reflexivity;
      apply (proj1 (forallb_forall _ _) Hb) in He; clear Hb; rename He into Hb
  end;
  cbv beta in Hb; rewrite Hsrc, Hport in Hb; discriminate Hb.

(** The facts about a tractography workflow that was built, gathered from
    one run of the builder. *)
Lemma tractography_run_facts :
  forall config tool_ports name tractography_algorithm n_tracts_ angle_
         stepscale lenscale_min lenscale_max output_dir_ st,
    (do_sift_filtering config = true ->
     truthy (sift_term_number config) || truthy (sift_term_ratio config) = true) ->
    exists wf st',
      init_mrtrix_tractography_wf config tool_ports name tractography_algorithm
        n_tracts_ angle_ stepscale lenscale_min lenscale_max output_dir_ st
      = (Ok wf, st')
      /\ name_of wf = name
      /\ map name_of (members_of wf)
         = tractography_base_members
           ++ (if do_sift_filtering config then ["tcksift"] else [])
      /\ trace st'
         = trace st ++ WorkflowCreated name
                       :: map NodeCreated tractography_base_nodes
                       ++ (if do_sift_filtering config
                           then [NodeCreated "tcksift"] else [])
      /\ params_of_member "tckgen" (Ok wf)
         = [ [("algorithm", VStr tractography_algorithm);
              ("select", n_tracts config); ("angle", angle config)] ]
      /\ params_of_member "estimate_tractography_parameters" (Ok wf)
         = [ [("function_str", VStr "estimate_tractography_parameters");
              ("stepscale", VFloat stepscale);
              ("lenscale_min", VInt lenscale_min);
              ("lenscale_max", VInt lenscale_max)] ]
      /\ sources_of wf "estimate_tractography_parameters" "in_file"
         = [("inputnode", "dwi_file")]
      /\ (declares_input tool_ports "Tractography" "step_size" ->
          declares_input tool_ports "Tractography" "min_length" ->
          declares_input tool_ports "Tractography" "max_length" ->
          sources_of wf "tckgen" "step_size"
          = [("estimate_tractography_parameters", "stepscale")]
          /\ sources_of wf "tckgen" "min_length"
             = [("estimate_tractography_parameters", "lenscale_min")]
          /\ sources_of wf "tckgen" "max_length"
             = [("estimate_tractography_parameters", "lenscale_max")])
      /\ (declares_output tool_ports "Tractography" "out_file" ->
          declares_output tool_ports "TCKSift" "out_file" ->
          sources_of wf "outputnode" "tck_file"
          = if do_sift_filtering config
            then [("tckgen", "out_file"); ("tcksift", "out_file")]
            else [("tckgen", "out_file")])
      /\ sinks_of wf = ["ds_unfiltered_tracts"]
      /\ (declares_output tool_ports "Tractography" "out_file" ->
          declares_input tool_ports "DerivativesDataSink" "in_file" ->
          declares_input tool_ports "DerivativesDataSink" "source_file" ->
          sources_of wf "ds_unfiltered_tracts" "in_file" = [("tckgen", "out_file")]
          /\ sources_of wf "ds_unfiltered_tracts" "source_file"
             = [("inputnode", "dwi_file")])
      /\ forallb (fun sd => has_port In_ wf (snd sd)) tractography_wf_connections
         = true
      /\ params_of_member "ds_unfiltered_tracts" (Ok wf)
         = [ [("base_directory", VStr output_dir_); ("suffix", VStr "tracts");
              ("extension", VStr ".tck"); ("desc", VStr "unfiltered");
              ("reconstruction", VStr "mrtrix")] ]
      /\ sources_of wf "ds_unfiltered_tracts" "base_directory" = []
      /\ (forall e, In e (edges_of wf) ->
                    e_src e = "inputnode" -> e_src_port e = "dwi_reference" ->
                    False).
Proof.
  intros config tp name alg n a s lmin lmax out [u tr] Hset.
  unfold declares_input, declares_output.
  destruct (tp "Tractography") as [gen_in gen_out] eqn:Egen.
  destruct (tp "TCKSift") as [sift_in sift_out] eqn:Esift.
  destruct (tp "DerivativesDataSink") as [sink_in sink_out] eqn:Esink.
  cbn [fst snd].
  start_run r Hrun.
  unfold init_mrtrix_tractography_wf, tcksift_node in Hrun.
  rewrite ?Egen, ?Esift, ?Esink in Hrun. run_build_in Hrun.
  destruct (do_sift_filtering config) eqn:Hsift.
  - specialize (Hset eq_refl).
    destruct (truthy (sift_term_number config)) eqn:Hnum;
      [|cbn in Hset; rewrite Hset in Hrun];
      run_build_in Hrun; subst r;
      (eexists; eexists; split; [reflexivity|]);
      (do 5 (split; [first [reflexivity
                           | cbn [trace]; flatten_trace; reflexivity]|]));
      (split; [eval_sources; reflexivity|]);
      (split; [intros; eval_sources; use_ports; repeat split; reflexivity|]);
      (split; [intros; eval_sources; use_ports; reflexivity|]);
      (split; [reflexivity|]);
      (split; [intros; eval_sources; use_ports; repeat split; reflexivity|]);
      (split; [reflexivity|]);
      (split; [reflexivity|]);
      (split; [eval_sources; reflexivity|]);
      no_edge_from "inputnode" "dwi_reference".
  - run_steps_in Hrun. subst r.
    eexists. eexists. split; [reflexivity|].
    do 5 (split; [first [reflexivity | cbn [trace]; flatten_trace; reflexivity]|]).
    split; [eval_sources; reflexivity|].
    split; [intros; eval_sources; use_ports; repeat split; reflexivity|].
    split; [intros; eval_sources; use_ports; reflexivity|].
    split; [reflexivity|].
    split; [intros; eval_sources; use_ports; repeat split; reflexivity|].
    split; [reflexivity|].
    split; [reflexivity|].
    split; [eval_sources; reflexivity|].
    no_edge_from "inputnode" "dwi_reference".
Qed.

(** X1. With filtering disabled the tractography workflow is built whatever
    the two criteria are; it holds its nine nodes and no filter node, and
    nothing but the workflow and these nine nodes is created. *)
Theorem tractography_without_filtering :
  forall config tool_ports name tractography_algorithm n_tracts_ angle_
         stepscale lenscale_min lenscale_max output_dir_ st,
    do_sift_filtering config = false ->
    exists wf st',
      init_mrtrix_tractography_wf config tool_ports name tractography_algorithm
        n_tracts_ angle_ stepscale lenscale_min lenscale_max output_dir_ st
      = (Ok wf, st')
      /\ name_of wf = name
      /\ map name_of (members_of wf) = tractography_base_members
      /\ ~ In "tcksift" (map name_of (members_of wf))
      /\ trace st'
         = trace st ++ WorkflowCreated name :: map NodeCreated tractography_base_nodes.
Proof.
  intros config tp name alg n a s lmin lmax out st Hsift.
  destruct (tractography_run_facts config tp name alg n a s lmin lmax out st)
    as (wf & st' & Hrun & Hname & Hmembers & Htrace & _).
  { intros H. rewrite Hsift in H. discriminate. }
  rewrite Hsift, app_nil_r in Hmembers. rewrite Hsift, app_nil_r in Htrace.
  exists wf, st'. repeat split; try assumption.
  rewrite Hmembers. cbn. intuition discriminate.
Qed.

Lemma tractography_without_filtering_witness :
  exists wf st',
    init_mrtrix_tractography_wf (Sample.cfg false ["01"]) Sample.ports
      "mrtrix_tractography_wf" "SD_Stream" 1000 45 (1 # 2) 30 500 "." init_state
    = (Ok wf, st')
    /\ name_of wf = "mrtrix_tractography_wf"
    /\ map name_of (members_of wf) = tractography_base_members
    /\ ~ In "tcksift" (map name_of (members_of wf))
    /\ trace st'
       = trace init_state
         ++ WorkflowCreated "mrtrix_tractography_wf"
            :: map NodeCreated tractography_base_nodes.
Proof.
  exact (tractography_without_filtering
           (Sample.cfg false ["01"]) Sample.ports
           "mrtrix_tractography_wf" "SD_Stream" 1000 45 (1 # 2) 30 500 "."
           init_state eq_refl).
Defined.

(** X2. When the tractography tool declares the output [out_file], the
    output [tck_file] of a workflow built without filtering has one source,
    the streamlines of [tckgen], and the workflow exposes it as
    [outputnode.tck_file]. *)
Theorem tractography_output_sources :
  forall config tool_ports name tractography_algorithm n_tracts_ angle_
         stepscale lenscale_min lenscale_max output_dir_ st,
    do_sift_filtering config = false ->
    declares_output tool_ports "Tractography" "out_file" ->
    exists wf st',
      init_mrtrix_tractography_wf config tool_ports name tractography_algorithm
        n_tracts_ angle_ stepscale lenscale_min lenscale_max output_dir_ st
      = (Ok wf, st')
      /\ sources_of wf "outputnode" "tck_file" = [("tckgen", "out_file")]
      /\ has_port Out_ wf "outputnode.tck_file" = true.
Proof.
  intros config tp name alg n a s lmin lmax out [u tr] Hsift Hgen.
  unfold declares_output in Hgen.
  destruct (tp "Tractography") as [gen_in gen_out] eqn:Egen.
  cbn [snd] in Hgen.
  start_run r Hrun.
  unfold init_mrtrix_tractography_wf in Hrun.
  rewrite ?Egen, Hsift in Hrun. run_build_in Hrun. subst r.
  eexists. eexists. split; [reflexivity|]. split.
  - eval_sources. use_ports. reflexivity.
  - reflexivity.
Qed.

Lemma tractography_output_sources_witness :
  exists wf st',
    init_mrtrix_tractography_wf (Sample.cfg false ["01"]) Sample.ports
      "mrtrix_tractography_wf" "SD_Stream" 1000 45 (1 # 2) 30 500 "." init_state
    = (Ok wf, st')
    /\ sources_of wf "outputnode" "tck_file" = [("tckgen", "out_file")]
    /\ has_port Out_ wf "outputnode.tck_file" = true.
Proof.
  exact (tractography_output_sources
           (Sample.cfg false ["01"]) Sample.ports
           "mrtrix_tractography_wf" "SD_Stream" 1000 45 (1 # 2) 30 500 "."
           init_state eq_refl eq_refl).
Defined.

(** X3. The number of streamlines and the angle given to [tckgen] are those
    of the configuration: the arguments [n_tracts] and [angle] of the
    builder are not used, the algorithm is the one given as argument. *)
Theorem tractography_settings_come_from_configuration :
  forall config tool_ports name tractography_algorithm n_tracts_ angle_
         stepscale lenscale_min lenscale_max output_dir_ st,
    sift_configured config ->
    exists wf st',
      init_mrtrix_tractography_wf config tool_ports name tractography_algorithm
        n_tracts_ angle_ stepscale lenscale_min lenscale_max output_dir_ st
      = (Ok wf, st')
      /\ params_of_member "tckgen" (Ok wf)
         = [ [("algorithm", VStr tractography_algorithm);
              ("select", n_tracts config); ("angle", angle config)] ].
Proof.
  intros config tp name alg n a s lmin lmax out st Hset.
  destruct (tractography_run_facts config tp name alg n a s lmin lmax out st Hset)
    as (wf & st' & Hrun & _ & _ & _ & Hgen & _).
  exists wf, st'. split; assumption.
Qed.

Lemma tractography_settings_come_from_configuration_witness :
  exists wf st',
    init_mrtrix_tractography_wf (Sample.cfg false ["01"]) Sample.ports
      "mrtrix_tractography_wf" "iFOD2" 5 90 (1 # 2) 30 500 "." init_state
    = (Ok wf, st')
    /\ params_of_member "tckgen" (Ok wf)
       = [ [("algorithm", VStr "iFOD2");
            ("select", n_tracts (Sample.cfg false ["01"]));
            ("angle", angle (Sample.cfg false ["01"]))] ].
Proof.
  apply (tractography_settings_come_from_configuration
           (Sample.cfg false ["01"]) Sample.ports
           "mrtrix_tractography_wf" "iFOD2" 5 90 (1 # 2) 30 500 "."
           init_state).
  intros H. discriminate H.
Defined.

(** X4. The node that normalises the step and length parameters is given
    the builder's [stepscale], [lenscale_min] and [lenscale_max], reads the
    diffusion image of the input node, and, when the tractography tool
    declares [step_size], [min_length] and [max_length], is the one source
    of each of them, in this order. *)
Theorem tractography_parameters_feed_tckgen :
  forall config tool_ports name tractography_algorithm n_tracts_ angle_
         stepscale lenscale_min lenscale_max output_dir_ st,
    sift_configured config ->
    declares_input tool_ports "Tractography" "step_size" ->
    declares_input tool_ports "Tractography" "min_length" ->
    declares_input tool_ports "Tractography" "max_length" ->
    exists wf st',
      init_mrtrix_tractography_wf config tool_ports name tractography_algorithm
        n_tracts_ angle_ stepscale lenscale_min lenscale_max output_dir_ st
      = (Ok wf, st')
      /\ params_of_member "estimate_tractography_parameters" (Ok wf)
         = [ [("function_str", VStr "estimate_tractography_parameters");
              ("stepscale", VFloat stepscale);
              ("lenscale_min", VInt lenscale_min);
              ("lenscale_max", VInt lenscale_max)] ]
      /\ sources_of wf "estimate_tractography_parameters" "in_file"
         = [("inputnode", "dwi_file")]
      /\ sources_of wf "tckgen" "step_size"
         = [("estimate_tractography_parameters", "stepscale")]
      /\ sources_of wf "tckgen" "min_length"
         = [("estimate_tractography_parameters", "lenscale_min")]
      /\ sources_of wf "tckgen" "max_length"
         = [("estimate_tractography_parameters", "lenscale_max")].
Proof.
  intros config tp name alg n a s lmin lmax out st Hset H1 H2 H3.
  destruct (tractography_run_facts config tp name alg n a s lmin lmax out st Hset)
    as (wf & st' & Hrun & _ & _ & _ & _ & Hest & Hin & Hfeed & _).
  exists wf, st'. split; [exact Hrun|]. split; [exact Hest|].
  split; [exact Hin|]. now apply Hfeed.
Qed.

Lemma tractography_parameters_feed_tckgen_witness :
  exists wf st',
    init_mrtrix_tractography_wf (Sample.cfg false ["01"]) Sample.ports
      "mrtrix_tractography_wf" "SD_Stream" 1000 45 (1 # 2) 30 500 "." init_state
    = (Ok wf, st')
    /\ params_of_member "estimate_tractography_parameters" (Ok wf)
       = [ [("function_str", VStr "estimate_tractography_parameters");
            ("stepscale", VFloat (1 # 2));
            ("lenscale_min", VInt 30);
            ("lenscale_max", VInt 500)] ]
    /\ sources_of wf "estimate_tractography_parameters" "in_file"
       = [("inputnode", "dwi_file")]
    /\ sources_of wf "tckgen" "step_size"
       = [("estimate_tractography_parameters", "stepscale")]
    /\ sources_of wf "tckgen" "min_length"
       = [("estimate_tractography_parameters", "lenscale_min")]
    /\ sources_of wf "tckgen" "max_length"
       = [("estimate_tractography_parameters", "lenscale_max")].
Proof.
  apply (tractography_parameters_feed_tckgen
           (Sample.cfg false ["01"]) Sample.ports
           "mrtrix_tractography_wf" "SD_Stream" 1000 45 (1 # 2) 30 500 "."
           init_state);
    [intros H; discriminate H|reflexivity..].
Defined.

(** X5. The one derivative sink of a tractography workflow built without
    filtering is [ds_unfiltered_tracts], tagged [unfiltered]; when the
    ports are declared it is fed by [tckgen] and by nothing else, and takes
    the diffusion image as its source file. *)
Theorem tractography_persists_unfiltered_streamlines :
  forall config tool_ports name tractography_algorithm n_tracts_ angle_
         stepscale lenscale_min lenscale_max output_dir_ st,
    do_sift_filtering config = false ->
    declares_output tool_ports "Tractography" "out_file" ->
    declares_input tool_ports "DerivativesDataSink" "in_file" ->
    declares_input tool_ports "DerivativesDataSink" "source_file" ->
    exists wf st',
      init_mrtrix_tractography_wf config tool_ports name tractography_algorithm
        n_tracts_ angle_ stepscale lenscale_min lenscale_max output_dir_ st
      = (Ok wf, st')
      /\ sinks_of wf = ["ds_unfiltered_tracts"]
      /\ map (fun params => get params "desc")
             (params_of_member "ds_unfiltered_tracts" (Ok wf))
         = [Some (VStr "unfiltered")]
      /\ sources_of wf "ds_unfiltered_tracts" "in_file" = [("tckgen", "out_file")]
      /\ sources_of wf "ds_unfiltered_tracts" "source_file"
         = [("inputnode", "dwi_file")].
Proof.
  intros config tp name alg n a s lmin lmax out st Hsift H1 H2 H3.
  destruct (tractography_run_facts config tp name alg n a s lmin lmax out st)
    as (wf & st' & Hrun & _ & _ & _ & _ & _ & _ & _ & _ & Hsinks & Hds & _
        & Hparams & _).
  { intros H. rewrite Hsift in H. discriminate H. }
  exists wf, st'. split; [exact Hrun|]. split; [exact Hsinks|].
  split; [rewrite Hparams; reflexivity|]. now apply Hds.
Qed.

Lemma tractography_persists_unfiltered_streamlines_witness :
  exists wf st',
    init_mrtrix_tractography_wf (Sample.cfg false ["01"]) Sample.ports
      "mrtrix_tractography_wf" "SD_Stream" 1000 45 (1 # 2) 30 500 "." init_state
    = (Ok wf, st')
    /\ sinks_of wf = ["ds_unfiltered_tracts"]
    /\ map (fun params => get params "desc")
           (params_of_member "ds_unfiltered_tracts" (Ok wf))
       = [Some (VStr "unfiltered")]
    /\ sources_of wf "ds_unfiltered_tracts" "in_file" = [("tckgen", "out_file")]
    /\ sources_of wf "ds_unfiltered_tracts" "source_file"
       = [("inputnode", "dwi_file")].
Proof.
  exact (tractography_persists_unfiltered_streamlines
           (Sample.cfg false ["01"]) Sample.ports
           "mrtrix_tractography_wf" "SD_Stream" 1000 45 (1 # 2) 30 500 "."
           init_state eq_refl eq_refl eq_refl eq_refl).
Defined.

(** X6. The tractography workflow never reads the field [dwi_reference]
    its input node declares: whatever ports the tools declare, no edge
    leaves it. *)
Theorem tractography_never_reads_dwi_reference :
  forall config tool_ports name tractography_algorithm n_tracts_ angle_
         stepscale lenscale_min lenscale_max output_dir_ st,
    sift_configured config ->
    exists wf st',
      init_mrtrix_tractography_wf config tool_ports name tractography_algorithm
        n_tracts_ angle_ stepscale lenscale_min lenscale_max output_dir_ st
      = (Ok wf, st')
      /\ has_port In_ wf "inputnode.dwi_reference" = true
      /\ forall e,
          In e (edges_of wf) ->
          e_src e = "inputnode" -> e_src_port e <> "dwi_reference".
Proof.
  intros config tp name alg n a s lmin lmax out st Hset.
  destruct (tractography_run_facts config tp name alg n a s lmin lmax out st Hset)
    as (wf & st' & Hrun & _ & _ & _ & _ & _ & _ & _ & _ & _ & _ & Hports & _ & _
        & Hunused).
  exists wf, st'. split; [exact Hrun|]. split.
  - unfold tractography_wf_connections in Hports. cbn [forallb snd] in Hports.
    apply andb_prop in Hports as [_ Hports].
    now apply andb_prop in Hports as [Hports _].
  - intros e He Hsrc Hport. exact (Hunused e He Hsrc Hport).
Qed.

Lemma tractography_never_reads_dwi_reference_witness :
  exists wf st',
    init_mrtrix_tractography_wf
      (Sample.cfg_sift (VInt 100000) VNone) Sample.ports
      "mrtrix_tractography_wf" "SD_Stream" 1000 45 (1 # 2) 30 500 "." init_state
    = (Ok wf, st')
    /\ has_port In_ wf "inputnode.dwi_reference" = true
    /\ forall e,
        In e (edges_of wf) ->
        e_src e = "inputnode" -> e_src_port e <> "dwi_reference".
Proof.
  apply (tractography_never_reads_dwi_reference
           (Sample.cfg_sift (VInt 100000) VNone) Sample.ports
           "mrtrix_tractography_wf" "SD_Stream" 1000 45 (1 # 2) 30 500 "."
           init_state).
  intros _. reflexivity.
Defined.

(** ** The tractography wrapper *)

Lemma accepted_all src dst ports :
  forallb (fun sd => has_port Out_ src (fst sd) && has_port In_ dst (snd sd)) ports
  = true ->
  accepted [(src, dst, ports)]
  = map (fun sd => mkEdge (name_of src) (fst sd) (name_of dst) (snd sd)) ports.
Proof.
  unfold accepted. cbn [flat_map]. rewrite app_nil_r. unfold requested.
  induction ports as [|sd ports IH]; intros H; [reflexivity|].
  cbn [forallb] in H. apply andb_prop in H as [Hsd H].
  cbn [map filter port_ok e_src_port e_dst_port]. rewrite Hsd.
  cbn [map snd]. now rewrite IH.
Qed.

(** The run of the wrapper when the inner builder returns. *)
Lemma tractography_wrapper_run :
  forall config tool_ports name st,
    sift_configured config ->
    exists inputnode inner st',
      init_tractography_wf config tool_ports name st
      = (Ok (AWorkflow (next_uid st) name [inputnode; inner]
               (map (fun sd => mkEdge "inputnode" (fst sd)
                                      "mrtrix_tractography_wf" (snd sd))
                    tractography_wf_connections)
               None),
         st')
      /\ name_of inputnode = "inputnode"
      /\ name_of inner = "mrtrix_tractography_wf"
      /\ params_of_member "ds_unfiltered_tracts" (Ok inner)
         = [ [("base_directory", VStr "."); ("suffix", VStr "tracts");
              ("extension", VStr ".tck"); ("desc", VStr "unfiltered");
              ("reconstruction", VStr "mrtrix")] ]
      /\ sources_of inner "ds_unfiltered_tracts" "base_directory" = [].
Proof.
  intros config tp name [u tr] Hset.
  unfold init_tractography_wf, init_mrtrix_tractography_wf_default.
  unfold_monad.
  match goal with
  | |- context [init_mrtrix_tractography_wf ?c ?t ?a ?b ?n ?an ?s ?l1 ?l2 ?o ?st] =>
      destruct (tractography_run_facts c t a b n an s l1 l2 o st Hset)
        as (inner & st' & Hrun & Hname & _ & _ & _ & _ & _ & _ & _ & _ & _
            & Hports & Hparams & Hbase & _)
  end.
  rewrite Hrun. rewrite connect_first by (rewrite Hname; discriminate).
  rewrite accepted_all.
  - eexists. exists inner. eexists.
    split; [cbn [name_of n_name]; rewrite Hname; reflexivity|].
    repeat split; first [assumption|reflexivity].
  - unfold tractography_wf_connections in Hports. cbn [forallb snd] in Hports.
    cbn [forallb fst snd]. rewrite has_port_node.
    repeat (apply andb_prop in Hports as [-> Hports]). reflexivity.
Qed.

(** X7. When the build of the inner tractography workflow succeeds, the
    wrapper holds its input node and the inner workflow, and its edges are
    the six declared pairs, all accepted, in the order of the source: the
    fields [base_directory], [dwi_bvec] and [dwi_bval] of the input node
    are not forwarded. *)
Theorem tractography_wrapper_forwards_six_inputs :
  forall config tool_ports name st,
    sift_configured config ->
    exists wf st',
      init_tractography_wf config tool_ports name st = (Ok wf, st')
      /\ name_of wf = name
      /\ map name_of (members_of wf) = ["inputnode"; "mrtrix_tractography_wf"]
      /\ edges_of wf
         = map (fun sd => mkEdge "inputnode" (fst sd)
                                 "mrtrix_tractography_wf" (snd sd))
               tractography_wf_connections.
Proof.
  intros config tp name st Hset.
  destruct (tractography_wrapper_run config tp name st Hset)
    as (inputnode & inner & st' & Hrun & Hin & Hinner & _).
  eexists. exists st'. split; [exact Hrun|].
  cbn [name_of members_of edges_of map]. rewrite Hin, Hinner.
  repeat split; reflexivity.
Qed.

Lemma tractography_wrapper_forwards_six_inputs_witness :
  exists wf st',
    init_tractography_wf (Sample.cfg false ["01"]) Sample.ports
      "tractography_wf" init_state
    = (Ok wf, st')
    /\ name_of wf = "tractography_wf"
    /\ map name_of (members_of wf) = ["inputnode"; "mrtrix_tractography_wf"]
    /\ edges_of wf
       = map (fun sd => mkEdge "inputnode" (fst sd)
                               "mrtrix_tractography_wf" (snd sd))
             tractography_wf_connections.
Proof.
  apply (tractography_wrapper_forwards_six_inputs
           (Sample.cfg false ["01"]) Sample.ports "tractography_wf" init_state).
  intros H. discriminate H.
Defined.

(** X8. In the workflow the wrapper builds, the sink of the streamlines
    keeps the base directory of the inner builder's default argument, the
    current directory: the wrapper calls the inner builder without
    arguments, and no edge gives the sink another one. *)
Theorem tractography_wrapper_sink_keeps_default_directory :
  forall config tool_ports name st,
    sift_configured config ->
    exists wf inner st',
      init_tractography_wf config tool_ports name st = (Ok wf, st')
      /\ get_node wf "mrtrix_tractography_wf" = Some inner
      /\ map (fun params => get params "base_directory")
             (params_of_member "ds_unfiltered_tracts" (Ok inner))
         = [Some (VStr ".")]
      /\ sources_of inner "ds_unfiltered_tracts" "base_directory" = []
      /\ sources_of wf "mrtrix_tractography_wf" "inputnode.base_directory" = [].
Proof.
  intros config tp name st Hset.
  destruct (tractography_wrapper_run config tp name st Hset)
    as (inputnode & inner & st' & Hrun & Hin & Hinner & Hparams & Hbase).
  eexists. exists inner, st'. split; [exact Hrun|].
  split; [|split; [|split]].
  - unfold get_node, find_member. cbn [members_of find].
    rewrite Hin, Hinner. reflexivity.
  - rewrite Hparams. reflexivity.
  - exact Hbase.
  - reflexivity.
Qed.

Lemma tractography_wrapper_sink_keeps_default_directory_witness :
  exists wf inner st',
    init_tractography_wf (Sample.cfg false ["01"]) Sample.ports
      "tractography_wf" init_state
    = (Ok wf, st')
    /\ get_node wf "mrtrix_tractography_wf" = Some inner
    /\ map (fun params => get params "base_directory")
           (params_of_member "ds_unfiltered_tracts" (Ok inner))
       = [Some (VStr ".")]
    /\ sources_of inner "ds_unfiltered_tracts" "base_directory" = []
    /\ sources_of wf "mrtrix_tractography_wf" "inputnode.base_directory" = [].
Proof.
  apply (tractography_wrapper_sink_keeps_default_directory
           (Sample.cfg false ["01"]) Sample.ports "tractography_wf" init_state).
  intros H. discriminate H.
Defined.

Lemma tractography_run_fails :
  forall config tool_ports name tractography_algorithm n_tracts_ angle_
         stepscale lenscale_min lenscale_max output_dir_ st,
    do_sift_filtering config = true ->
    truthy (sift_term_number config) = false ->
    truthy (sift_term_ratio config) = false ->
    exists st',
      init_mrtrix_tractography_wf config tool_ports name tractography_algorithm
        n_tracts_ angle_ stepscale lenscale_min lenscale_max output_dir_ st
      = (Raise (ValueError sift_error), st')
      /\ trace st'
         = trace st ++ WorkflowCreated name :: map NodeCreated tractography_base_nodes.
Proof.
  intros config tp name alg n a s lmin lmax out [u tr] Hsift Hnum Hratio.
  start_run r Hrun.
  unfold init_mrtrix_tractography_wf in Hrun. run_build_in Hrun.
  rewrite Hsift, Hnum, Hratio in Hrun. run_steps_in Hrun. subst r.
  eexists. split; [reflexivity|]. cbn [trace]. flatten_trace. reflexivity.
Qed.

(** X9. When filtering is enabled and neither criterion is a true value,
    the wrapper fails with the error of the inner builder and returns no
    workflow; its own workflow object and input node, then the inner
    workflow and the inner nodes other than the filter, have been created. *)
Theorem tractography_wrapper_propagates_sift_error :
  forall config tool_ports name st,
    do_sift_filtering config = true ->
    truthy (sift_term_number config) = false ->
    truthy (sift_term_ratio config) = false ->
    exists st',
      init_tractography_wf config tool_ports name st
      = (Raise (ValueError sift_error), st')
      /\ trace st'
         = trace st
           ++ WorkflowCreated name :: NodeCreated "inputnode"
              :: WorkflowCreated "mrtrix_tractography_wf"
              :: map NodeCreated tractography_base_nodes.
Proof.
  intros config tp name [u tr] Hsift Hnum Hratio.
  unfold init_tractography_wf, init_mrtrix_tractography_wf_default.
  unfold_monad.
  match goal with
  | |- context [init_mrtrix_tractography_wf ?c ?t ?a ?b ?n ?an ?s ?l1 ?l2 ?o ?st] =>
      destruct (tractography_run_fails c t a b n an s l1 l2 o st Hsift Hnum Hratio)
        as (st' & Hrun & Htrace)
  end.
  rewrite Hrun. exists st'. split; [reflexivity|].
  destruct st' as [u' tr']. cbn [trace] in Htrace. subst tr'.
  cbn beta iota. flatten_trace. reflexivity.
Qed.

Lemma tractography_wrapper_propagates_sift_error_witness :
  exists st',
    init_tractography_wf (Sample.cfg_sift VNone (VInt 0)) Sample.ports
      "tractography_wf" init_state
    = (Raise (ValueError sift_error), st')
    /\ trace st'
       = trace init_state
         ++ WorkflowCreated "tractography_wf" :: NodeCreated "inputnode"
            :: WorkflowCreated "mrtrix_tractography_wf"
            :: map NodeCreated tractography_base_nodes.
Proof.
  exact (tractography_wrapper_propagates_sift_error
           (Sample.cfg_sift VNone (VInt 0)) Sample.ports "tractography_wf"
           init_state eq_refl eq_refl eq_refl).
Defined.

(** ** More on the tensor workflow *)

(** The facts about a tensor workflow that was built, gathered from one run
    of the builder. *)
Lemma tensor_run_facts :
  forall config tool_ports entities name d st,
    get entities "dti_derived_parameters" = Some d ->
    mem_key "reconstruction_software" d = false ->
    mem_key "save_meta" d = false ->
    exists wf st',
      init_mrtrix3_tensor_wf config tool_ports entities name st = (Ok wf, st')
      /\ trace st'
         = trace st ++ WorkflowCreated name
                       :: map NodeCreated (tensor_nodes_before_sink ++ ["ds_tensor_wf"])
      /\ params_of_member "mrtrix3_tensor_wf" (Ok wf)
         = [ [("nthreads", omp_nthreads config)] ]
      /\ (declares_input tool_ports "FitTensor" "in_file" ->
          declares_input tool_ports "FitTensor" "grad_file" ->
          declares_input tool_ports "FitTensor" "in_mask" ->
          sources_of wf "mrtrix3_tensor_wf" "in_file" = [("inputnode", "dwi_nifti")]
          /\ sources_of wf "mrtrix3_tensor_wf" "grad_file"
             = [("inputnode", "dwi_grad")]
          /\ sources_of wf "mrtrix3_tensor_wf" "in_mask"
             = [("inputnode", "dwi_mask")])
      /\ (declares_output tool_ports "FitTensor" "out_file" ->
          declares_input tool_ports "TensorMetrics" "in_file" ->
          sources_of wf "mrtrix3_tensor2metric_wf" "in_file"
          = [("mrtrix3_tensor_wf", "out_file")])
      /\ (Forall (fun p => declares_output tool_ports "TensorMetrics" ("out_" +++ p))
                 TENSOR_PARAMETERS ->
          map (sources_of wf "outputnode") TENSOR_PARAMETERS
          = map (fun p => [("mrtrix3_tensor2metric_wf", "out_" +++ p)])
                TENSOR_PARAMETERS)
      /\ (declares_input tool_ports "DerivativesDataSink" "in_file" ->
          declares_input tool_ports "DerivativesDataSink" "base_directory" ->
          declares_input tool_ports "DerivativesDataSink" "source_file" ->
          sources_of wf "ds_tensor_wf" "in_file" = [("listify_tensor_params", "out")]
          /\ sources_of wf "ds_tensor_wf" "base_directory"
             = [("inputnode", "base_directory")]
          /\ sources_of wf "ds_tensor_wf" "source_file"
             = [("inputnode", "dwi_nifti")]).
Proof.
  intros config tp ents name d [u tr] Hd H1 H2.
  unfold declares_input, declares_output.
  destruct (tp "FitTensor") as [fit_in fit_out] eqn:Efit.
  destruct (tp "TensorMetrics") as [met_in met_out] eqn:Emet.
  destruct (tp "DerivativesDataSink") as [sink_in sink_out] eqn:Esink.
  cbn [fst snd].
  start_run r Hrun.
  unfold init_mrtrix3_tensor_wf in Hrun.
  rewrite Hd, ?Efit, ?Emet, ?Esink in Hrun. unfold sink_kwargs in Hrun.
  cbn [existsb fst] in Hrun. rewrite H1, H2 in Hrun.
  run_build_in Hrun.
  subst r. eexists. eexists. split; [reflexivity|].
  split; [cbn [trace]; flatten_trace; reflexivity|].
  split; [reflexivity|].
  split; [intros; eval_sources; use_ports; repeat split; reflexivity|].
  split; [intros; eval_sources; use_ports; reflexivity|].
  split.
  - intros Hout. unfold TENSOR_PARAMETERS in Hout.
    repeat (apply Forall_cons_inv in Hout as [?H Hout]).
    repeat match goal with
           | H : mem (_ +++ _) _ = true |- _ => cbn [String.append] in H
           end.
    unfold TENSOR_PARAMETERS. cbn [map]. eval_sources. use_ports. reflexivity.
  - intros; eval_sources; use_ports; repeat split; reflexivity.
Qed.

(** X10. Under the ports it names, the tensor workflow carries the diffusion
    image, its gradients and its mask to the tensor fit, the fitted tensor
    to the metrics node, and each of the nine outputs [out_<parameter>] of
    the metrics node to the port [<parameter>] of the output node, which
    has no other source. *)
Theorem tensor_metrics_dataflow :
  forall config tool_ports entities name d st,
    get entities "dti_derived_parameters" = Some d ->
    mem_key "reconstruction_software" d = false ->
    mem_key "save_meta" d = false ->
    declares_input tool_ports "FitTensor" "in_file" ->
    declares_input tool_ports "FitTensor" "grad_file" ->
    declares_input tool_ports "FitTensor" "in_mask" ->
    declares_output tool_ports "FitTensor" "out_file" ->
    declares_input tool_ports "TensorMetrics" "in_file" ->
    Forall (fun p => declares_output tool_ports "TensorMetrics" ("out_" +++ p))
           TENSOR_PARAMETERS ->
    exists wf st',
      init_mrtrix3_tensor_wf config tool_ports entities name st = (Ok wf, st')
      /\ sources_of wf "mrtrix3_tensor_wf" "in_file" = [("inputnode", "dwi_nifti")]
      /\ sources_of wf "mrtrix3_tensor_wf" "grad_file" = [("inputnode", "dwi_grad")]
      /\ sources_of wf "mrtrix3_tensor_wf" "in_mask" = [("inputnode", "dwi_mask")]
      /\ sources_of wf "mrtrix3_tensor2metric_wf" "in_file"
         = [("mrtrix3_tensor_wf", "out_file")]
      /\ map (sources_of wf "outputnode") TENSOR_PARAMETERS
         = map (fun p => [("mrtrix3_tensor2metric_wf", "out_" +++ p)])
               TENSOR_PARAMETERS.
Proof.
  intros config tp ents name d st Hd H1 H2 Hi Hg Hm Ho Hmi Hmo.
  destruct (tensor_run_facts config tp ents name d st Hd H1 H2)
    as (wf & st' & Hrun & _ & _ & Hfit & Hmet & Hout & _).
  exists wf, st'. split; [exact Hrun|].
  destruct (Hfit Hi Hg Hm) as (F1 & F2 & F3).
  repeat split; auto.
Qed.

Lemma tensor_metrics_dataflow_witness :
  exists wf st',
    init_mrtrix3_tensor_wf (Sample.cfg false ["01"]) Sample.ports Sample.entities
      "mrtrix3_tensor_wf" init_state
    = (Ok wf, st')
    /\ sources_of wf "mrtrix3_tensor_wf" "in_file" = [("inputnode", "dwi_nifti")]
    /\ sources_of wf "mrtrix3_tensor_wf" "grad_file" = [("inputnode", "dwi_grad")]
    /\ sources_of wf "mrtrix3_tensor_wf" "in_mask" = [("inputnode", "dwi_mask")]
    /\ sources_of wf "mrtrix3_tensor2metric_wf" "in_file"
       = [("mrtrix3_tensor_wf", "out_file")]
    /\ map (sources_of wf "outputnode") TENSOR_PARAMETERS
       = map (fun p => [("mrtrix3_tensor2metric_wf", "out_" +++ p)])
             TENSOR_PARAMETERS.
Proof.
  eapply (tensor_metrics_dataflow
            (Sample.cfg false ["01"]) Sample.ports Sample.entities
            "mrtrix3_tensor_wf" _ init_state);
    [reflexivity| reflexivity| reflexivity| reflexivity| reflexivity
    | reflexivity| reflexivity| reflexivity|].
  repeat (constructor; [reflexivity|]). constructor.
Defined.

(** X11. Under the ports it names, the sink of the tensor workflow takes its
    files from the fan-in node, and its base directory and its source file
    from the input node, the source file being the diffusion image. *)
Theorem tensor_sink_wiring :
  forall config tool_ports entities name d st,
    get entities "dti_derived_parameters" = Some d ->
    mem_key "reconstruction_software" d = false ->
    mem_key "save_meta" d = false ->
    declares_input tool_ports "DerivativesDataSink" "in_file" ->
    declares_input tool_ports "DerivativesDataSink" "base_directory" ->
    declares_input tool_ports "DerivativesDataSink" "source_file" ->
    exists wf st',
      init_mrtrix3_tensor_wf config tool_ports entities name st = (Ok wf, st')
      /\ sources_of wf "ds_tensor_wf" "in_file" = [("listify_tensor_params", "out")]
      /\ sources_of wf "ds_tensor_wf" "base_directory"
         = [("inputnode", "base_directory")]
      /\ sources_of wf "ds_tensor_wf" "source_file" = [("inputnode", "dwi_nifti")].
Proof.
  intros config tp ents name d st Hd H1 H2 Hi Hb Hs.
  destruct (tensor_run_facts config tp ents name d st Hd H1 H2)
    as (wf & st' & Hrun & _ & _ & _ & _ & _ & Hsink).
  exists wf, st'. split; [exact Hrun|]. now apply Hsink.
Qed.

Lemma tensor_sink_wiring_witness :
  exists wf st',
    init_mrtrix3_tensor_wf (Sample.cfg false ["01"]) Sample.ports Sample.entities
      "mrtrix3_tensor_wf" init_state
    = (Ok wf, st')
    /\ sources_of wf "ds_tensor_wf" "in_file" = [("listify_tensor_params", "out")]
    /\ sources_of wf "ds_tensor_wf" "base_directory"
       = [("inputnode", "base_directory")]
    /\ sources_of wf "ds_tensor_wf" "source_file" = [("inputnode", "dwi_nifti")].
Proof.
  eapply (tensor_sink_wiring
            (Sample.cfg false ["01"]) Sample.ports Sample.entities
            "mrtrix3_tensor_wf" _ init_state);
    reflexivity.
Defined.

(** X12. When the entry [dti_derived_parameters] is missing from the table
    of output entities, or holds one of the two keywords the builder writes
    out, the build of the tensor workflow fails with a [TypeError]; the
    workflow object and the five nodes before the sink have been created,
    the sink has not. *)
Theorem tensor_sink_keywords_clash_is_fatal :
  forall config tool_ports entities name st,
    sink_keywords_clash entities ->
    exists msg st',
      init_mrtrix3_tensor_wf config tool_ports entities name st
      = (Raise (TypeError msg), st')
      /\ trace st'
         = trace st ++ WorkflowCreated name
                       :: map NodeCreated tensor_nodes_before_sink
      /\ ~ In "ds_tensor_wf" tensor_nodes_before_sink.
Proof.
  intros config tp ents name [u tr] Hclash.
  assert (Hkw : exists msg,
             sink_kwargs (get ents "dti_derived_parameters")
                         [("reconstruction_software", VStr "mrtrix3");
                          ("save_meta", VBool false)]
             = Raise (TypeError msg)).
  { destruct Hclash as [->|(d & -> & Hd)].
    - eexists. reflexivity.
    - unfold sink_kwargs. cbn [existsb fst].
      destruct Hd as [->| ->]; [|rewrite orb_true_r]; eexists; reflexivity. }
  destruct Hkw as (msg & Hkw).
  start_run r Hrun.
  unfold init_mrtrix3_tensor_wf in Hrun. rewrite Hkw in Hrun.
  run_build_in Hrun. subst r.
  exists msg. eexists. split; [reflexivity|]. split.
  - cbn [trace]. flatten_trace. reflexivity.
  - cbn. intuition discriminate.
Qed.

Lemma tensor_sink_keywords_clash_is_fatal_witness :
  exists msg st',
    init_mrtrix3_tensor_wf (Sample.cfg false ["01"]) Sample.ports
      [("dti_derived_parameters", [("save_meta", VBool true)])]
      "mrtrix3_tensor_wf" init_state
    = (Raise (TypeError msg), st')
    /\ trace st'
       = trace init_state
         ++ WorkflowCreated "mrtrix3_tensor_wf"
            :: map NodeCreated tensor_nodes_before_sink
    /\ ~ In "ds_tensor_wf" tensor_nodes_before_sink.
Proof.
  apply (tensor_sink_keywords_clash_is_fatal
           (Sample.cfg false ["01"]) Sample.ports
           [("dti_derived_parameters", [("save_meta", VBool true)])]
           "mrtrix3_tensor_wf" init_state).
  right. eexists. split; [reflexivity|]. right. reflexivity.
Defined.

(** ** More on the atlas registration *)

(** X13. When [ApplyTransforms] declares the four ports the builder names,
    the registration workflow has its three nodes and four edges: the atlas
    image, the transform and the anatomical reference go to
    [apply_transforms], whose output image is the whole-brain parcellation
    of the output node. *)
Theorem registration_resamples_atlas_into_anatomy :
  forall tool_ports name st,
    declares_input tool_ports "ApplyTransforms" "input_image" ->
    declares_input tool_ports "ApplyTransforms" "transforms" ->
    declares_input tool_ports "ApplyTransforms" "reference_image" ->
    declares_output tool_ports "ApplyTransforms" "output_image" ->
    exists wf st',
      init_registration_wf tool_ports name st = (Ok wf, st')
      /\ name_of wf = name
      /\ map name_of (members_of wf) = ["inputnode"; "apply_transforms"; "outputnode"]
      /\ edges_of wf = registration_edges
      /\ trace st'
         = trace st ++ [WorkflowCreated name; NodeCreated "inputnode";
                        NodeCreated "outputnode"; NodeCreated "apply_transforms"].
Proof.
  intros tp name [u tr]. unfold declares_input, declares_output.
  destruct (tp "ApplyTransforms") as [ins outs] eqn:Eports. cbn [fst snd].
  intros H1 H2 H3 H4.
  start_run r Hrun.
  unfold init_registration_wf in Hrun. rewrite Eports in Hrun.
  run_build_in Hrun. subst r.
  eexists. eexists. split; [reflexivity|].
  split; [reflexivity|]. split; [reflexivity|]. split.
  - cbn [edges_of]. unfold accepted.
    with_strategy opaque [has_port] lazy.
    rewrite ?has_port_node. cbn [node_ports n_interface i_inputs i_outputs].
    rewrite H1, H2, H3, H4. reflexivity.
  - cbn [trace]. flatten_trace. reflexivity.
Qed.

Lemma registration_resamples_atlas_into_anatomy_witness :
  exists wf st',
    init_registration_wf Sample.ports "atlas_registration" init_state = (Ok wf, st')
    /\ name_of wf = "atlas_registration"
    /\ map name_of (members_of wf) = ["inputnode"; "apply_transforms"; "outputnode"]
    /\ edges_of wf = registration_edges
    /\ trace st'
       = trace init_state
         ++ [WorkflowCreated "atlas_registration"; NodeCreated "inputnode";
             NodeCreated "outputnode"; NodeCreated "apply_transforms"].
Proof.
  apply (registration_resamples_atlas_into_anatomy
           Sample.ports "atlas_registration" init_state);
    reflexivity.
Defined.

(** X14. Whatever ports the tools declare, the registration workflow never
    reads the field [atlas_name] its input node declares: no edge leaves
    it, and every edge that leaves the input node arrives at
    [apply_transforms]. *)
Theorem registration_never_reads_atlas_name :
  forall tool_ports name st,
  exists wf st',
    init_registration_wf tool_ports name st = (Ok wf, st')
    /\ has_port In_ wf "inputnode.atlas_name" = true
    /\ forall e,
        In e (edges_of wf) ->
        e_src e = "inputnode" ->
        e_src_port e <> "atlas_name" /\ e_dst e = "apply_transforms".
Proof.
  intros tp name [u tr].
  start_run r Hrun.
  unfold init_registration_wf in Hrun. run_build_in Hrun. subst r.
  eexists. eexists. split; [reflexivity|]. split; [reflexivity|].
  intros e He Hsrc. cbn [edges_of] in He.
  apply in_accepted in He.
  destruct He as (src & dst & ports & sp & dp & Hc & Hp & -> & _).
  cbn [e_src e_src_port e_dst] in *.
  destruct Hc as [Hc|[Hc|[]]]; inversion Hc; subst; clear Hc;
    cbn [name_of n_name] in *; try discriminate.
  split; [|reflexivity].
  destruct Hp as [Hp|[Hp|[Hp|[]]]]; inversion Hp; subst; discriminate.
Qed.

(** ** More on the tractography parameters *)

(** X15. [estimate_tractography_parameters] returns a result exactly when
    the image can be loaded, its header has the field [pixdim] and the
    field has an entry 1. *)
Theorem estimate_tractography_parameters_returns_iff :
  forall nib_load in_file stepscale lenscale_min lenscale_max,
    (exists r,
        estimate_tractography_parameters nib_load in_file
          stepscale lenscale_min lenscale_max = Ok r)
    <-> exists data field,
        nib_load in_file = Ok data
        /\ get (header data) "pixdim" = Some field
        /\ (2 <= length field)%nat.
Proof.
  intros load f s lmin lmax. unfold estimate_tractography_parameters.
  split.
  - intros [r Hr]. destruct (load f) as [data|e]; [|discriminate].
    destruct (get (header data) "pixdim") as [field|] eqn:Hfield;
      [|discriminate].
    exists data, field. split; [reflexivity|]. split; [exact Hfield|].
    destruct (nth_error field 1) eqn:E; [|discriminate].
    assert (H : nth_error field 1 <> None) by congruence.
    apply nth_error_Some in H. lia.
  - intros (data & field & -> & -> & Hlen).
    destruct (nth_error field 1) eqn:E.
    + eexists. reflexivity.
    + apply nth_error_None in E. lia.
Qed.

(** ** Edge cases of the cohort and subject builders *)

Lemma subject_inputnode_state_trace config subject_id st :
  trace (subject_inputnode_state config subject_id st)
  = trace st ++ [ WorkflowCreated (subject_wf_name subject_id);
                  Mkdir (freesurfer_dir_of config);
                  CollectData subject_id;
                  NodeCreated "inputnode_subject" ].
Proof.
  unfold subject_inputnode_state, freesurfer_dir_of. cbn [trace].
  flatten_trace. reflexivity.
Qed.

Lemma subject_fails_without_atlas_image :
  forall config collect_data init_anatomical_wf init_diffusion_wf
         subject_id atlas d v data st,
    atlas_nifti_file atlas = None ->
    getitem (layout_description config) "PipelineDescription" = Ok d ->
    getitem d "Version" = Ok v ->
    collect_data subject_id = Ok data ->
    exists st',
      init_single_subject_wf config collect_data init_anatomical_wf
        init_diffusion_wf subject_id atlas st
      = (Raise (AttributeError "atlas_nifti_file"), st')
      /\ trace st'
         = trace st ++ [ WorkflowCreated (subject_wf_name subject_id);
                         Mkdir (freesurfer_dir_of config);
                         CollectData subject_id;
                         NodeCreated "inputnode_subject" ].
Proof.
  intros config cd ia idf sid atlas d v [files sessions] st
         Himg Hd Hv Hcd.
  exists (subject_inputnode_state config sid st).
  split; [|apply subject_inputnode_state_trace].
  destruct st as [u tr]. unfold subject_inputnode_state. cbn [next_uid trace].
  unfold init_single_subject_wf, get_atlas_nifti_file.
  unfold_monad. rewrite Hd. unfold_monad. rewrite Hv. unfold_monad.
  rewrite Hcd. unfold_monad. rewrite Himg. reflexivity.
Qed.

(** X17. An atlas given as an object is not tested for its image: when it
    has none and there is a participant, the build gets as far as the input
    node of the first participant and fails there with the
    [AttributeError] of the missing attribute, not with the [ValueError] of
    an atlas that was not found; the anatomical builder has not been
    called. *)
Theorem atlas_object_without_image_fails_in_first_subject :
  forall config Atlas_load Version collect_data init_anatomical_wf
         init_diffusion_wf atlas subject_id others ver d v data st,
    parcellation_atlas config = inr atlas ->
    atlas_nifti_file atlas = None ->
    participant_label config = subject_id :: others ->
    Version (version config) = Ok ver ->
    getitem (layout_description config) "PipelineDescription" = Ok d ->
    getitem d "Version" = Ok v ->
    collect_data subject_id = Ok data ->
    exists st',
      init_qsipost_wf config Atlas_load Version collect_data init_anatomical_wf
                      init_diffusion_wf st
      = (Raise (AttributeError "atlas_nifti_file"), st')
      /\ trace st'
         = trace st ++ [ WorkflowCreated (root_wf_name ver);
                         WorkflowCreated (subject_wf_name subject_id);
                         Mkdir (freesurfer_dir_of config);
                         CollectData subject_id;
                         NodeCreated "inputnode_subject" ].
Proof.
  intros config AL V cd ia idf atlas sid others ver d v data [u tr]
         Hatlas Himg Hlist Hver Hd Hv Hcd.
  destruct (subject_fails_without_atlas_image config cd ia idf sid atlas d v data
              (mkState (S u) (record tr (WorkflowCreated (root_wf_name ver))))
              Himg Hd Hv Hcd)
    as (st' & Hfail & Htr).
  exists st'. split.
  - rewrite init_qsipost_wf_loop. unfold cohort_prelude, resolve_atlas.
    rewrite Hatlas. unfold bind at 1. unfold ret at 1.
    unfold bind at 1. unfold lift at 1. rewrite Hver.
    unfold bind at 1. unfold pe_Workflow, bind, fresh, emit, ret.
    cbn [next_uid trace]. rewrite Hlist. cbn [for_each].
    unfold subject_step at 1. unfold bind at 1. unfold bind at 1.
    rewrite Hfail. reflexivity.
  - rewrite Htr. cbn [trace]. flatten_trace. reflexivity.
Qed.

Lemma atlas_object_without_image_fails_in_first_subject_witness :
  exists st',
    init_qsipost_wf
      (Sample.cfg_atlas (inr (mkAtlas "custom" None "custom.csv" "Label"))
                        false ["01"; "02"])
      Sample.load_atlas Sample.parse_version Sample.discover Sample.anatomical
      Sample.diffusion init_state
    = (Raise (AttributeError "atlas_nifti_file"), st')
    /\ trace st'
       = trace init_state
         ++ [ WorkflowCreated (root_wf_name (0, 1));
              WorkflowCreated (subject_wf_name "01");
              Mkdir (freesurfer_dir_of
                       (Sample.cfg_atlas
                          (inr (mkAtlas "custom" None "custom.csv" "Label"))
                          false ["01"; "02"]));
              CollectData "01";
              NodeCreated "inputnode_subject" ].
Proof.
  eapply (atlas_object_without_image_fails_in_first_subject
            (Sample.cfg_atlas (inr (mkAtlas "custom" None "custom.csv" "Label"))
                              false ["01"; "02"])
            Sample.load_atlas Sample.parse_version Sample.discover
            Sample.anatomical Sample.diffusion
            (mkAtlas "custom" None "custom.csv" "Label") "01" ["02"] (0, 1));
    reflexivity.
Defined.

(** X18. With no participant the build returns the root workflow, empty:
    it has no member and no edge, and the root workflow is all that was
    created.  The atlas has been resolved nevertheless: given by name, it
    is loaded and must have its image; given as an object, it is taken as
    it is. *)
Theorem empty_cohort_builds_empty_root :
  forall config Atlas_load Version collect_data init_anatomical_wf
         init_diffusion_wf atlas ver st,
    participant_label config = [] ->
    atlas_configured config Atlas_load atlas ->
    (forall name, parcellation_atlas config = inl name ->
                  exists f, atlas_nifti_file atlas = Some f) ->
    Version (version config) = Ok ver ->
    exists st',
      init_qsipost_wf config Atlas_load Version collect_data init_anatomical_wf
                      init_diffusion_wf st
      = (Ok (AWorkflow (next_uid st) (root_wf_name ver) [] [] None), st')
      /\ trace st' = trace st ++ [WorkflowCreated (root_wf_name ver)].
Proof.
  intros config AL V cd ia idf atlas ver [u tr] Hlist Hatlas Himg Hver.
  assert (Hres : resolve_atlas config AL (mkState u tr) = (Ok atlas, mkState u tr)).
  { unfold resolve_atlas, atlas_configured in *.
    destruct (parcellation_atlas config) as [name|a] eqn:E.
    - destruct (Himg name eq_refl) as [f Hf].
      unfold bind, lift. rewrite Hatlas, Hf. reflexivity.
    - now subst. }
  unfold init_qsipost_wf. unfold bind at 1. rewrite Hres.
  unfold bind at 1. unfold lift. rewrite Hver, Hlist.
  eexists. split; reflexivity.
Qed.

Lemma empty_cohort_builds_empty_root_witness :
  exists st',
    init_qsipost_wf
      (Sample.cfg_atlas (inr (mkAtlas "custom" None "custom.csv" "Label")) false [])
      Sample.load_atlas Sample.parse_version Sample.discover Sample.anatomical
      Sample.diffusion init_state
    = (Ok (AWorkflow (next_uid init_state) (root_wf_name (0, 1)) [] [] None), st')
    /\ trace st' = trace init_state ++ [WorkflowCreated (root_wf_name (0, 1))].
Proof.
  apply (empty_cohort_builds_empty_root
           (Sample.cfg_atlas (inr (mkAtlas "custom" None "custom.csv" "Label"))
                             false [])
           Sample.load_atlas Sample.parse_version Sample.discover
           Sample.anatomical Sample.diffusion
           (mkAtlas "custom" None "custom.csv" "Label") (0, 1) init_state).
  - reflexivity.
  - reflexivity.
  - intros name H. discriminate H.
  - reflexivity.
Defined.

(** X19. When one of the four files of the subject is missing from what
    the discovery returned, the files read before it being there, the
    build of the subject fails with the [KeyError] of that key; the input
    node has been created, the anatomical builder has not been called. *)
Theorem missing_subject_file_is_fatal :
  forall config collect_data init_anatomical_wf init_diffusion_wf
         subject_id atlas d v files sessions f earlier key later st,
    getitem (layout_description config) "PipelineDescription" = Ok d ->
    getitem d "Version" = Ok v ->
    collect_data subject_id = Ok (files, sessions) ->
    atlas_nifti_file atlas = Some f ->
    subject_file_keys = earlier ++ key :: later ->
    Forall (fun k => exists path, get files k = Some path) earlier ->
    get files key = None ->
    exists st',
      init_single_subject_wf config collect_data init_anatomical_wf
        init_diffusion_wf subject_id atlas st
      = (Raise (KeyError key), st')
      /\ trace st'
         = trace st ++ [ WorkflowCreated (subject_wf_name subject_id);
                         Mkdir (freesurfer_dir_of config);
                         CollectData subject_id;
                         NodeCreated "inputnode_subject" ].
Proof.
  intros config cd ia idf sid atlas d v files sessions f earlier key later
         st Hd Hv Hcd Himg Hkeys Hearlier Hkey.
  exists (subject_inputnode_state config sid st).
  split; [|apply subject_inputnode_state_trace].
  destruct st as [u tr]. unfold subject_inputnode_state. cbn [next_uid trace].
  assert (Hmiss : getitem files key = Raise (KeyError key))
    by (unfold getitem; now rewrite Hkey).
  unfold init_single_subject_wf, get_atlas_nifti_file.
  unfold_monad. rewrite Hd. unfold_monad. rewrite Hv. unfold_monad.
  rewrite Hcd. unfold_monad. rewrite Himg. unfold_monad.
  unfold subject_file_keys in Hkeys.
  repeat (destruct earlier as [|? earlier];
          [ injection Hkeys as <- <-
          | injection Hkeys as <- Hkeys;
            apply Forall_cons_inv in Hearlier as [[?path ?Hpath] Hearlier] ]);
    try (destruct earlier; discriminate Hkeys);
    repeat match goal with
           | H : get files ?k = Some ?p |- _ =>
               assert (getitem files k = Ok p) by (unfold getitem; now rewrite H);
               clear H
           end;
    repeat match goal with
           | H : getitem files _ = Ok _ |- _ => rewrite H; clear H; unfold_monad
           end;
    rewrite Hmiss; reflexivity.
Qed.

Lemma missing_subject_file_is_fatal_witness :
  exists st',
    init_single_subject_wf (Sample.cfg false ["01"])
      (fun sid => Ok ([("anatomical_reference", "T1w.nii.gz")], []))
      Sample.anatomical Sample.diffusion "01" Sample.brainnetome init_state
    = (Raise (KeyError "anatomical_brain_mask"), st')
    /\ trace st'
       = trace init_state
         ++ [ WorkflowCreated (subject_wf_name "01");
              Mkdir (freesurfer_dir_of (Sample.cfg false ["01"]));
              CollectData "01";
              NodeCreated "inputnode_subject" ].
Proof.
  eapply (missing_subject_file_is_fatal
            (Sample.cfg false ["01"])
            (fun sid => Ok ([("anatomical_reference", "T1w.nii.gz")], []))
            Sample.anatomical Sample.diffusion "01" Sample.brainnetome
            _ _ _ _ _ ["anatomical_reference"] "anatomical_brain_mask"
            ["mni_to_native_transform"; "gm_probabilistic_segmentation"]
            init_state);
    try reflexivity.
  constructor; [eexists; reflexivity|constructor].
Defined.

(** ** What a cohort that was built tells *)

(** *** Runs that return *)

Lemma bind_inv {A B} (m : Build A) (f : A -> Build B) st b st' :
  bind m f st = (Ok b, st') ->
  exists a st1, m st = (Ok a, st1) /\ f a st1 = (Ok b, st').
Proof.
  unfold bind. destruct (m st) as [[a|e] st1]; [|discriminate].
  intros H. now exists a, st1.
Qed.

Lemma lift_inv {A} (r : result A) st a st' :
  lift r st = (Ok a, st') -> r = Ok a /\ st' = st.
Proof. unfold lift. intros H. inversion H. auto. Qed.

Lemma emit_inv ev st u st' :
  emit ev st = (Ok u, st') ->
  next_uid st' = next_uid st /\ trace st' = trace st ++ [ev].
Proof. unfold emit, record. intros H. inversion H. auto. Qed.

(** *** Identities *)

Lemma keeps_ret {A} (a : A) : keeps_uids (ret a).
Proof. intros st r st' H. inversion H; subst. apply Nat.le_refl. Qed.

Lemma keeps_raise {A} e : keeps_uids (@raise A e).
Proof. intros st r st' H. inversion H; subst. apply Nat.le_refl. Qed.

Lemma keeps_lift {A} (x : result A) : keeps_uids (lift x).
Proof. intros st r st' H. inversion H; subst. apply Nat.le_refl. Qed.

Lemma keeps_emit ev : keeps_uids (emit ev).
Proof. intros st r st' H. inversion H; subst. apply Nat.le_refl. Qed.

Lemma keeps_fresh : keeps_uids fresh.
Proof. intros st r st' H. inversion H; subst. cbn. apply Nat.le_succ_diag_r. Qed.

Lemma keeps_bind {A B} (m : Build A) (f : A -> Build B) :
  keeps_uids m -> (forall a, keeps_uids (f a)) -> keeps_uids (bind m f).
Proof.
  intros Hm Hf st r st' H. unfold bind in H.
  destruct (m st) as [[a|e] st1] eqn:Em.
  - apply Nat.le_trans with (next_uid st1);
      [exact (Hm _ _ _ Em)|exact (Hf a _ _ _ H)].
  - inversion H; subst. exact (Hm _ _ _ Em).
Qed.

Lemma keeps_for_each {A X} (body : A -> X -> Build A) xs :
  (forall acc x, keeps_uids (body acc x)) ->
  forall acc, keeps_uids (for_each body xs acc).
Proof.
  intros Hbody. induction xs as [|x xs IH]; intros acc; cbn [for_each].
  - apply keeps_ret.
  - apply keeps_bind; [apply Hbody|exact IH].
Qed.

Lemma keeps_connect wf cs : keeps_uids (connect_ wf cs).
Proof.
  unfold connect_. apply keeps_bind; [apply keeps_lift|intros; apply keeps_ret].
Qed.

Lemma keeps_new_object r : keeps_uids (new_object r).
Proof.
  unfold new_object.
  apply keeps_bind; [apply keeps_lift|intros].
  apply keeps_bind; [apply keeps_fresh|intros; apply keeps_ret].
Qed.

Lemma keeps_pe_Node itf name b : keeps_uids (pe_Node itf name b).
Proof.
  unfold pe_Node.
  apply keeps_bind; [apply keeps_fresh|intros].
  apply keeps_bind; [apply keeps_emit|intros; apply keeps_ret].
Qed.

Lemma keeps_pe_Workflow name : keeps_uids (pe_Workflow name).
Proof.
  unfold pe_Workflow.
  apply keeps_bind; [apply keeps_fresh|intros].
  apply keeps_bind; [apply keeps_emit|intros; apply keeps_ret].
Qed.

Ltac keeps_step :=
  first
    [ apply keeps_ret | apply keeps_raise | apply keeps_lift
    | apply keeps_fresh | apply keeps_connect | apply keeps_new_object
    | apply keeps_emit | apply keeps_pe_Node | apply keeps_pe_Workflow
    | apply keeps_bind; [|intros ?]
    | match goal with
      | |- keeps_uids (match ?x with _ => _ end) => destruct x
      end ].

(** *** The workflow a builder returns *)

Lemma same_head_refl w : is_workflow w = true -> same_head w w.
Proof. intros H. repeat split. exact H. Qed.

Lemma same_head_trans w1 w2 w3 :
  same_head w1 w2 -> same_head w2 w3 -> same_head w1 w3.
Proof.
  intros (_ & U1 & N1 & C1) (W & U2 & N2 & C2).
  repeat split; [exact W|congruence..].
Qed.

Lemma returns_ret {A} (Q : A -> Prop) a : Q a -> returns Q (ret a).
Proof. intros HQ st b st' H. inversion H; subst. exact HQ. Qed.

Lemma returns_raise {A} (Q : A -> Prop) e : returns Q (raise e).
Proof. intros st b st' H. discriminate H. Qed.

Lemma returns_bind_with {A B} (R : A -> Prop) (Q : B -> Prop)
      (m : Build A) (f : A -> Build B) :
  returns R m -> (forall a, R a -> returns Q (f a)) -> returns Q (bind m f).
Proof.
  intros Hm Hf st b st' H. apply bind_inv in H as (a & st1 & Hma & Hfa).
  exact (Hf a (Hm _ _ _ Hma) _ _ _ Hfa).
Qed.

Lemma returns_bind {A B} (Q : B -> Prop) (m : Build A) (f : A -> Build B) :
  (forall a, returns Q (f a)) -> returns Q (bind m f).
Proof.
  intros Hf. apply (returns_bind_with (fun _ => True)).
  - intros st a st' _. exact I.
  - intros a _. apply Hf.
Qed.

Lemma returns_weaken {A} (Q Q' : A -> Prop) (m : Build A) :
  (forall a, Q a -> Q' a) -> returns Q m -> returns Q' m.
Proof. intros HQ Hm st a st' H. exact (HQ a (Hm _ _ _ H)). Qed.

Lemma register_head wf u wf' :
  register wf u = Ok wf' -> same_head wf wf'.
Proof.
  destruct wf as [i n|i nm ms es c]; cbn; [discriminate|].
  destruct (find_member (name_of u) ms) as [m|].
  - destruct (Nat.eqb (uid_of m) (uid_of u)); [|discriminate].
    intros H; inversion H; subst. now apply same_head_refl.
  - intros H; inversion H; subst. repeat split.
Qed.

Lemma register_all_head us : forall wf wf',
  is_workflow wf = true ->
  register_all wf us = Ok wf' -> same_head wf wf'.
Proof.
  induction us as [|u us IH]; cbn; intros wf wf' Hwf H.
  - inversion H; subst. now apply same_head_refl.
  - destruct (register wf u) as [wf1|e] eqn:E; [|discriminate].
    apply register_head in E.
    apply (same_head_trans _ wf1); [exact E|].
    apply IH; [apply E|exact H].
Qed.

Lemma returns_connect w cs : returns (same_head w) (connect_ w cs).
Proof.
  intros st w' st' H. unfold connect_ in H.
  apply bind_inv in H as ([w1 rs] & st1 & Hc & Hr).
  apply lift_inv in Hc as [Hc _]. inversion Hr; subst; clear Hr.
  unfold connect in Hc.
  destruct (register_all w (endpoints cs)) as [[i n|i nm ms es c]|e] eqn:E;
    try discriminate.
  inversion Hc; subst; clear Hc. cbn [fst].
  destruct w as [j n|j nm' ms' es' c'].
  - destruct (endpoints cs); cbn in E; discriminate.
  - apply register_all_head in E; [|reflexivity].
    destruct E as (_ & U & N & C). repeat split; assumption.
Qed.

Lemma returns_session_step idf inputnode anat acc s :
  returns (fun acc' => same_head (fst acc) (fst acc'))
          (session_step idf inputnode anat acc s).
Proof.
  destruct acc as [w dws]. unfold session_step.
  apply returns_bind. intros _.
  apply returns_bind. intros sw.
  apply (returns_bind_with (same_head w)); [apply returns_connect|].
  intros w' Hw'. apply returns_ret. exact Hw'.
Qed.

Lemma returns_sessions_loop idf inputnode anat ss :
  forall acc,
    is_workflow (fst acc) = true ->
    returns (fun acc' => same_head (fst acc) (fst acc'))
            (for_each (session_step idf inputnode anat) ss acc).
Proof.
  induction ss as [|s ss IH]; intros acc Hacc; cbn [for_each].
  - apply returns_ret. now apply same_head_refl.
  - apply (returns_bind_with (fun acc' => same_head (fst acc) (fst acc')));
      [apply returns_session_step|].
    intros acc1 H1.
    apply (returns_weaken (fun acc' => same_head (fst acc1) (fst acc'))).
    + intros acc2 H2. exact (same_head_trans _ _ _ H1 H2).
    + apply IH. apply H1.
Qed.

Lemma init_single_subject_wf_keeps config cd ia idf sid atlas :
  keeps_uids (init_single_subject_wf config cd ia idf sid atlas).
Proof.
  unfold init_single_subject_wf.
  repeat keeps_step.
  apply keeps_for_each. intros [wf dws] s. unfold session_step.
  repeat keeps_step.
Qed.

(** The build of a subject, when it returns, returns a workflow under a new
    identity and the subject's name, with no crash directory yet. *)
Lemma init_single_subject_wf_inv config cd ia idf sid atlas st wf st' :
  init_single_subject_wf config cd ia idf sid atlas st = (Ok wf, st') ->
  is_workflow wf = true
  /\ uid_of wf = next_uid st
  /\ name_of wf = subject_wf_name sid
  /\ crashdump_dir_of wf = None
  /\ next_uid st < next_uid st'.
Proof.
  unfold init_single_subject_wf. intros H.
  apply bind_inv in H as (d & st1 & H1 & H). apply lift_inv in H1 as [_ ->].
  apply bind_inv in H as (v & st2 & H2 & H). apply lift_inv in H2 as [_ ->].
  apply bind_inv in H as (w & st3 & H3 & H).
  assert (Hw : w = AWorkflow (next_uid st) (subject_wf_name sid) [] [] None
               /\ next_uid st3 = S (next_uid st)).
  { unfold pe_Workflow, bind, fresh, emit, ret in H3.
    inversion H3; subst. auto. }
  destruct Hw as [-> Hst3].
  match type of H with
  | ?m st3 = _ =>
      assert (K : keeps_uids m);
      [|assert (R : returns (same_head (AWorkflow (next_uid st)
                                          (subject_wf_name sid) [] [] None)) m)]
  end.
  - repeat keeps_step.
    apply keeps_for_each. intros [wf0 dws] s. unfold session_step.
    repeat keeps_step.
  - apply returns_bind; intros _.
    apply returns_bind; intros _.
    apply returns_bind; intros [files sessions].
    apply returns_bind; intros inputnode.
    do 5 (apply returns_bind; intros ?).
    apply returns_bind; intros _.
    apply returns_bind; intros anat.
    eapply returns_bind_with; [apply returns_connect|].
    intros w1 Hw1.
    destruct (anat_only config).
    + apply returns_ret. exact Hw1.
    + eapply returns_bind_with;
        [apply returns_sessions_loop; apply Hw1|].
      intros acc Hacc. apply returns_ret.
      exact (same_head_trans _ _ _ Hw1 Hacc).
  - destruct (R _ _ _ H) as (W & U & N & C).
    apply K in H. repeat split; try assumption.
    rewrite Hst3 in H. exact H.
Qed.

(** *** The crash directory of the nodes *)

Lemma EngineBase_nested_ind (P : EngineBase -> Prop) :
  (forall i n, P (ANode i n)) ->
  (forall i nm ms es c, Forall P ms -> P (AWorkflow i nm ms es c)) ->
  forall u, P u.
Proof.
  intros Hnode Hwf. fix IH 1. intros [i n|i nm ms es c].
  - apply Hnode.
  - apply Hwf. induction ms as [|m ms IHms]; constructor;
      [apply IH|exact IHms].
Qed.

Lemma all_nodes_copy_config c u :
  Forall (fun n => n_crashdump_dir n = c) (all_nodes (copy_config c u)).
Proof.
  induction u as [i n|i nm ms es c' IH] using EngineBase_nested_ind.
  - cbn. constructor; [reflexivity|constructor].
  - cbn [copy_config all_nodes].
    induction IH as [|m ms Hm _ IHms]; cbn [map flat_map].
    + constructor.
    + apply Forall_app. split; assumption.
Qed.

Lemma crashdump_dir_of_copy_config c u :
  is_workflow u = true ->
  crashdump_dir_of (copy_config c u) = crashdump_dir_of u.
Proof. destruct u; [discriminate|reflexivity]. Qed.

Lemma uid_of_copy_config c u : uid_of (copy_config c u) = uid_of u.
Proof. destruct u; reflexivity. Qed.

Lemma set_crashdump_dir_head u dir :
  uid_of (set_crashdump_dir u dir) = uid_of u
  /\ name_of (set_crashdump_dir u dir) = name_of u
  /\ is_workflow (set_crashdump_dir u dir) = is_workflow u
  /\ crashdump_dir_of (set_crashdump_dir u dir) = Some dir.
Proof. destruct u; repeat split. Qed.

Lemma find_member_some nm ms m :
  find_member nm ms = Some m -> In m ms /\ name_of m = nm.
Proof.
  unfold find_member. intros H. apply find_some in H as [Hin Hname].
  split; [exact Hin|now apply String.eqb_eq].
Qed.

Lemma find_member_none nm ms m :
  find_member nm ms = None -> In m ms -> name_of m <> nm.
Proof.
  unfold find_member. intros H Hin Hname.
  apply (find_none _ _ H) in Hin. apply String.eqb_neq in Hin. contradiction.
Qed.

(** *** One participant *)

Lemma snapshots_of_subject sid evs :
  Forall (subject_event_of sid) evs -> filter is_snapshot evs = [].
Proof.
  induction 1 as [|ev evs Hev _ IH]; [reflexivity|].
  cbn [filter]. destruct ev; cbn in *; try exact IH; contradiction.
Qed.

Lemma snapshots_of_step config sid :
  filter is_snapshot (step_events config sid) = snapshot_events config sid.
Proof.
  unfold step_events, snapshot_events.
  destruct (write_graph config); reflexivity.
Qed.

(** What a turn of the loop over the participants did, when it returns. *)
Lemma subject_step_inv config cd ia idf atlas root sid st root' st' :
  subject_step config cd ia idf atlas root sid st = (Ok root', st') ->
  exists sw0 st1,
    init_single_subject_wf config cd ia idf sid atlas st = (Ok sw0, st1)
    /\ add_nodes root
         [copy_config (Some (log_dir_of config sid))
            (set_crashdump_dir sw0 (log_dir_of config sid))]
       = Ok root'
    /\ next_uid st' = next_uid st1
    /\ trace st' = trace st1 ++ step_events config sid.
Proof.
  unfold subject_step. intros H.
  apply bind_inv in H as (sw0 & st1 & Hinit & H).
  exists sw0, st1. split; [exact Hinit|].
  replace (crashdump_dir_of (set_crashdump_dir sw0 (log_dir_of config sid)))
    with (Some (log_dir_of config sid)) in H
    by (symmetry; apply set_crashdump_dir_head).
  apply bind_inv in H as (root1 & st2 & Hadd & H).
  apply lift_inv in Hadd as [Hadd ->].
  apply bind_inv in H as ([] & st3 & Hgraph & H).
  apply bind_inv in H as ([] & st4 & Hmk & H).
  apply bind_inv in H as ([] & st5 & Hsave & H).
  inversion H; subst; clear H.
  apply emit_inv in Hmk as [U4 T4]. apply emit_inv in Hsave as [U5 T5].
  split; [exact Hadd|].
  unfold step_events.
  destruct (write_graph config).
  - destruct (get_node root' (subject_wf_name sid)) as [w|] eqn:Hget;
      [|discriminate].
    apply find_member_some in Hget as [_ Hname].
    apply emit_inv in Hgraph as [U3 T3].
    split; [congruence|].
    rewrite T5, T4, T3, Hname, <- !app_assoc. reflexivity.
  - inversion Hgraph; subst; clear Hgraph.
    split; [congruence|].
    rewrite T5, T4, <- !app_assoc. reflexivity.
Qed.

(** *** The loop over the participants *)

Lemma cohort_loop_inv config cd ia idf atlas i nm es c :
  forall sids ms st root' st',
    for_each (subject_step config cd ia idf atlas) sids
             (AWorkflow i nm ms es c) st
    = (Ok root', st') ->
    Forall (fun m => uid_of m < next_uid st) ms ->
    exists sws evs,
      root' = AWorkflow i nm (ms ++ sws) es c
      /\ Forall2 (built_subject config) sids sws
      /\ Forall (fun sid => find_member (subject_wf_name sid) ms = None) sids
      /\ NoDup sids
      /\ Forall (fun m => uid_of m < next_uid st') (ms ++ sws)
      /\ trace st' = trace st ++ evs
      /\ filter is_snapshot evs = flat_map (snapshot_events config) sids.
Proof.
  induction sids as [|sid sids IH]; intros ms st root' st' Hrun Hms.
  - cbn in Hrun. inversion Hrun; subst; clear Hrun.
    exists [], []. rewrite !app_nil_r.
    repeat split; try constructor. exact Hms.
  - cbn [for_each] in Hrun.
    apply bind_inv in Hrun as (root1 & st1 & Hstep & Hrun).
    apply subject_step_inv in Hstep
      as (sw0 & st0 & Hinit & Hadd & Huid & Htrace).
    destruct (init_single_subject_wf_emits config cd ia idf sid atlas _ _ _ Hinit)
      as (evs0 & Htr0 & Hevs0).
    apply init_single_subject_wf_inv in Hinit as (W & U & N & C & Hlt).
    set (dir := log_dir_of config sid) in *.
    set (sw := copy_config (Some dir) (set_crashdump_dir sw0 dir)) in *.
    destruct (set_crashdump_dir_head sw0 dir) as (U' & N' & W' & C').
    assert (Hsw_name : name_of sw = subject_wf_name sid)
      by (unfold sw; rewrite name_of_copy_config; congruence).
    assert (Hsw_uid : uid_of sw = next_uid st)
      by (unfold sw; rewrite uid_of_copy_config; congruence).
    assert (Hsw_wf : is_workflow sw = true)
      by (unfold sw; rewrite is_workflow_copy_config; congruence).
    assert (Hsw : built_subject config sid sw).
    { split; [exact Hsw_name|]. split; [exact Hsw_wf|]. split.
      - unfold sw. rewrite crashdump_dir_of_copy_config by congruence. exact C'.
      - apply all_nodes_copy_config. }
    unfold add_nodes in Hadd. cbn [register_all register] in Hadd.
    rewrite Hsw_name in Hadd.
    destruct (find_member (subject_wf_name sid) ms) as [m|] eqn:Hfind.
    { apply find_member_some in Hfind as [Hin _].
      rewrite Forall_forall in Hms. apply Hms in Hin.
      rewrite Hsw_uid in Hadd.
      assert (Hne : Nat.eqb (uid_of m) (next_uid st) = false)
        by (apply Nat.eqb_neq; lia).
      rewrite Hne in Hadd. discriminate. }
    inversion Hadd; subst root1; clear Hadd.
    destruct (IH (ms ++ [sw]) st1 root' st' Hrun)
      as (sws & evs & -> & Hbuilt & Hfree & Hnd & Huids & Htr & Hsnap).
    { apply Forall_app. split.
      - rewrite Forall_forall in *. intros m Hm. apply Hms in Hm. lia.
      - constructor; [lia|constructor]. }
    exists (sw :: sws), ((evs0 ++ step_events config sid) ++ evs).
    rewrite <- app_assoc in *. cbn [app] in *.
    split; [reflexivity|]. split; [constructor; assumption|].
    assert (Hfree' : Forall (fun sid' =>
                               find_member (subject_wf_name sid') ms = None
                               /\ sid' <> sid) sids).
    { rewrite Forall_forall in *. intros sid' Hin'.
      specialize (Hfree sid' Hin'). rewrite find_member_app in Hfree.
      destruct (find_member (subject_wf_name sid') ms); [discriminate|].
      split; [reflexivity|]. intros ->.
      rewrite Hsw_name, String.eqb_refl in Hfree. discriminate. }
    split; [|split; [|split; [exact Huids|split]]].
    + constructor; [exact Hfind|].
      rewrite Forall_forall in *. intros sid' Hin'. now apply Hfree'.
    + constructor; [|exact Hnd].
      intros Hin. rewrite Forall_forall in Hfree'.
      now apply (Hfree' sid Hin).
    + rewrite Htr, Htrace, Htr0, <- !app_assoc. reflexivity.
    + rewrite !filter_app, (snapshots_of_subject sid evs0 Hevs0),
        snapshots_of_step, Hsnap.
      reflexivity.
Qed.

(** What [init_qsipost_wf] did before its loop, when it got there. *)
Lemma cohort_prelude_inv config AL V st atlas root st1 :
  cohort_prelude config AL V st = (Ok (atlas, root), st1) ->
  exists ver,
    V (version config) = Ok ver
    /\ atlas_configured config AL atlas
    /\ (forall name, parcellation_atlas config = inl name ->
                     exists f, atlas_nifti_file atlas = Some f)
    /\ root = AWorkflow (next_uid st) (root_wf_name ver) [] [] None
    /\ next_uid st1 = S (next_uid st)
    /\ trace st1 = trace st ++ [WorkflowCreated (root_wf_name ver)].
Proof.
  unfold cohort_prelude. intros H.
  apply bind_inv in H as (a & st0 & Hres & H).
  apply bind_inv in H as (ver & st2 & Hver & H).
  apply lift_inv in Hver as [Hver ->].
  apply bind_inv in H as (w & st3 & Hw & H).
  inversion H; subst; clear H.
  unfold pe_Workflow, bind, fresh, emit, ret, record in Hw.
  inversion Hw; subst; clear Hw.
  assert (Ha : st0 = st /\ atlas_configured config AL atlas
               /\ (forall name, parcellation_atlas config = inl name ->
                                exists f, atlas_nifti_file atlas = Some f)).
  { unfold resolve_atlas, atlas_configured in *.
    destruct (parcellation_atlas config) as [name|a0].
    - apply bind_inv in Hres as (a1 & st4 & Hload & Hres).
      apply lift_inv in Hload as [Hload ->].
      destruct (atlas_nifti_file a1) as [f|] eqn:Hf; [|discriminate].
      inversion Hres; subst. repeat split; [exact Hload|].
      intros _ _. now exists f.
    - inversion Hres; subst. repeat split. intros name Hname. discriminate. }
  destruct Ha as (-> & Hconf & Himg).
  exists ver. cbn [next_uid trace]. repeat split; assumption.
Qed.

(** A cohort that was built: the root workflow, its members, and what the
    loop recorded. *)
Lemma init_qsipost_wf_inv config AL V cd ia idf st root st' :
  init_qsipost_wf config AL V cd ia idf st = (Ok root, st') ->
  exists ver sws evs,
    V (version config) = Ok ver
    /\ root = AWorkflow (next_uid st) (root_wf_name ver) sws [] None
    /\ Forall2 (built_subject config) (participant_label config) sws
    /\ NoDup (participant_label config)
    /\ trace st' = trace st ++ WorkflowCreated (root_wf_name ver) :: evs
    /\ filter is_snapshot evs
       = flat_map (snapshot_events config) (participant_label config).
Proof.
  rewrite init_qsipost_wf_loop. intros H.
  destruct (cohort_prelude config AL V st) as [[[atlas root0]|e] st1] eqn:Hpre;
    [|discriminate].
  apply cohort_prelude_inv in Hpre
    as (ver & Hver & _ & _ & -> & Huid & Htr).
  apply cohort_loop_inv in H; [|constructor].
  destruct H as (sws & evs & -> & Hbuilt & _ & Hnd & _ & Htr' & Hsnap).
  exists ver, sws, evs. cbn [app].
  repeat split; try assumption.
  rewrite Htr', Htr, <- app_assoc. reflexivity.
Qed.

Lemma built_subjects_names config sids sws :
  Forall2 (built_subject config) sids sws ->
  map name_of sws = map subject_wf_name sids
  /\ Forall (fun sw => is_workflow sw = true) sws.
Proof.
  induction 1 as [|sid sw sids sws (N & W & _) _ [IHn IHw]]; cbn.
  - split; constructor.
  - split; [now rewrite N, IHn|now constructor].
Qed.

Lemma find_member_in m ms :
  In m ms -> exists m', find_member (name_of m) ms = Some m'.
Proof.
  intros Hin. destruct (find_member (name_of m) ms) as [m'|] eqn:E.
  - now exists m'.
  - exfalso. exact (find_member_none _ _ _ E Hin eq_refl).
Qed.

(** X20. A cohort that was built, with or without its sessions and
    whatever the collaborators answered: the participants were distinct,
    and the root workflow, named after the version, has no edge and one
    member per participant, a workflow named after the participant, in the
    order of the list. *)
Theorem built_cohort_has_one_workflow_per_participant :
  forall config Atlas_load Version collect_data init_anatomical_wf
         init_diffusion_wf st root st',
    init_qsipost_wf config Atlas_load Version collect_data init_anatomical_wf
                    init_diffusion_wf st
    = (Ok root, st') ->
    NoDup (participant_label config)
    /\ map name_of (members_of root)
       = map subject_wf_name (participant_label config)
    /\ Forall (fun sw => is_workflow sw = true) (members_of root)
    /\ edges_of root = []
    /\ exists ver,
        Version (version config) = Ok ver /\ name_of root = root_wf_name ver.
Proof.
  intros config AL V cd ia idf st root st' H.
  apply init_qsipost_wf_inv in H
    as (ver & sws & evs & Hver & -> & Hbuilt & Hnd & _).
  apply built_subjects_names in Hbuilt as [Hnames Hwf].
  cbn [members_of edges_of name_of].
  repeat split; try assumption. now exists ver.
Qed.

Lemma built_cohort_has_one_workflow_per_participant_witness :
  NoDup (participant_label (Sample.cfg false ["01"; "02"])).
Proof.
  edestruct (fun root st' =>
               built_cohort_has_one_workflow_per_participant
                 (Sample.cfg false ["01"; "02"]) Sample.load_atlas
                 Sample.parse_version Sample.discover Sample.anatomical
                 Sample.diffusion init_state root st')
    as [Hnd _].
  - vm_compute. reflexivity.
  - exact Hnd.
Defined.

(** X21. In a cohort that was built, the workflow of every participant and
    every node in it, at any depth, have the crash directory
    [<output_dir>/sub-<participant>/log/<run_uuid>]; the root workflow has
    none. *)
Theorem built_cohort_crash_directories :
  forall config Atlas_load Version collect_data init_anatomical_wf
         init_diffusion_wf st root st',
    init_qsipost_wf config Atlas_load Version collect_data init_anatomical_wf
                    init_diffusion_wf st
    = (Ok root, st') ->
    crashdump_dir_of root = None
    /\ Forall2 (fun sid sw =>
                  crashdump_dir_of sw = Some (log_dir_of config sid)
                  /\ Forall (fun n => n_crashdump_dir n
                                      = Some (log_dir_of config sid))
                            (all_nodes sw))
               (participant_label config) (members_of root).
Proof.
  intros config AL V cd ia idf st root st' H.
  apply init_qsipost_wf_inv in H
    as (ver & sws & evs & _ & -> & Hbuilt & _).
  split; [reflexivity|]. cbn [members_of].
  induction Hbuilt as [|sid sw sids sws (_ & _ & C & Hall) _ IH];
    constructor; auto.
Qed.

Lemma built_cohort_crash_directories_witness :
  exists root,
    Forall2 (fun sid sw =>
               crashdump_dir_of sw
               = Some (log_dir_of (Sample.cfg false ["01"; "02"]) sid)
               /\ Forall (fun n => n_crashdump_dir n
                                   = Some (log_dir_of
                                             (Sample.cfg false ["01"; "02"]) sid))
                         (all_nodes sw))
            ["01"; "02"] (members_of root).
Proof.
  edestruct (fun root st' =>
               built_cohort_crash_directories
                 (Sample.cfg false ["01"; "02"]) Sample.load_atlas
                 Sample.parse_version Sample.discover Sample.anatomical
                 Sample.diffusion init_state root st')
    as [_ Hdirs].
  - vm_compute. reflexivity.
  - eexists. exact Hdirs.
Defined.

(** X22. While a cohort is built, the configuration is saved once per
    participant, in the order of the list, to [qsipost.toml] in the log
    directory of the participant, after the graph of the participant was
    written when the configuration asks for it; the builds of the subjects
    save and write nothing themselves. *)
Theorem built_cohort_snapshots :
  forall config Atlas_load Version collect_data init_anatomical_wf
         init_diffusion_wf st root st',
    init_qsipost_wf config Atlas_load Version collect_data init_anatomical_wf
                    init_diffusion_wf st
    = (Ok root, st') ->
    exists evs,
      trace st' = trace st ++ evs
      /\ filter is_snapshot evs
         = flat_map (snapshot_events config) (participant_label config).
Proof.
  intros config AL V cd ia idf st root st' H.
  apply init_qsipost_wf_inv in H
    as (ver & sws & evs & _ & _ & _ & _ & Htr & Hsnap).
  exists (WorkflowCreated (root_wf_name ver) :: evs).
  split; [exact Htr|exact Hsnap].
Qed.

Lemma built_cohort_snapshots_witness :
  exists evs,
    trace (snd (init_qsipost_wf (Sample.cfg false ["01"; "02"]) Sample.load_atlas
                  Sample.parse_version Sample.discover Sample.anatomical
                  Sample.diffusion init_state))
    = trace init_state ++ evs
    /\ filter is_snapshot evs
       = flat_map (snapshot_events (Sample.cfg false ["01"; "02"]))
                  (participant_label (Sample.cfg false ["01"; "02"])).
Proof.
  destruct (init_qsipost_wf (Sample.cfg false ["01"; "02"]) Sample.load_atlas
              Sample.parse_version Sample.discover Sample.anatomical
              Sample.diffusion init_state) as [[root|e] st'] eqn:Hrun.
  - exact (built_cohort_snapshots _ _ _ _ _ _ _ _ _ Hrun).
  - vm_compute in Hrun. discriminate Hrun.
Defined.

(** X23. A participant listed twice: when the participants before its
    second occurrence were built and its workflow is built again, the
    cohort build fails with the error of a duplicate node name, in the
    state the second build of the subject left; no root workflow is
    returned. *)
Theorem duplicate_participant_is_fatal :
  forall config Atlas_load Version collect_data init_anatomical_wf
         init_diffusion_wf before subject_id after atlas root0 root sw
         st0 st1 st2 st3,
    participant_label config = before ++ subject_id :: after ->
    In subject_id before ->
    cohort_prelude config Atlas_load Version st0 = (Ok (atlas, root0), st1) ->
    for_each (subject_step config collect_data init_anatomical_wf
                init_diffusion_wf atlas) before root0 st1
    = (Ok root, st2) ->
    init_single_subject_wf config collect_data init_anatomical_wf
      init_diffusion_wf subject_id atlas st2
    = (Ok sw, st3) ->
    init_qsipost_wf config Atlas_load Version collect_data init_anatomical_wf
                    init_diffusion_wf st0
    = (Raise (OSError ("Duplicate node name " +++ subject_wf_name subject_id
                       +++ " found.")),
       st3).
Proof.
  intros config AL V cd ia idf before sid after atlas root0 root sw
         st0 st1 st2 st3 Hlist Hin Hpre Hbefore Hsub.
  rewrite init_qsipost_wf_loop, Hpre, Hlist, for_each_app, Hbefore.
  cbn [for_each]. unfold bind at 1. unfold subject_step. unfold bind at 1.
  rewrite Hsub.
  apply cohort_prelude_inv in Hpre as (ver & _ & _ & _ & -> & _ & _).
  apply cohort_loop_inv in Hbefore; [|constructor].
  destruct Hbefore as (sws & evs & -> & Hbuilt & _ & _ & Huids & _).
  cbn [app] in *.
  apply init_single_subject_wf_inv in Hsub as (W & U & N & C & Hlt).
  assert (Hmember : exists m, In m sws /\ name_of m = subject_wf_name sid).
  { clear - Hbuilt Hin. induction Hbuilt as [|s m ss ms (Hn & _) _ IH].
    - destruct Hin.
    - destruct Hin as [->|Hin].
      + exists m. split; [now left|exact Hn].
      + destruct (IH Hin) as (m' & Hm' & Hn'). exists m'. split; [now right|exact Hn']. }
  destruct Hmember as (m & Hm & Hname).
  destruct (find_member_in m sws Hm) as [m' Hfind]. rewrite Hname in Hfind.
  apply find_member_some in Hfind as Hm'. destruct Hm' as [Hm' _].
  rewrite Forall_forall in Huids. apply Huids in Hm'.
  destruct (set_crashdump_dir_head sw (log_dir_of config sid)) as (U' & N' & _).
  unfold add_nodes. cbn [register_all register].
  rewrite name_of_copy_config, uid_of_copy_config, N', U', N, U, Hfind.
  assert (Hne : Nat.eqb (uid_of m') (next_uid st2) = false)
    by (apply Nat.eqb_neq; lia).
  rewrite Hne. reflexivity.
Qed.

Lemma duplicate_participant_is_fatal_witness :
  exists st3,
    init_qsipost_wf (Sample.cfg false ["01"; "02"; "01"]) Sample.load_atlas
      Sample.parse_version Sample.discover Sample.anatomical Sample.diffusion
      init_state
    = (Raise (OSError ("Duplicate node name " +++ subject_wf_name "01"
                       +++ " found.")),
       st3).
Proof.
  eexists.
  eapply (duplicate_participant_is_fatal
            (Sample.cfg false ["01"; "02"; "01"]) Sample.load_atlas
            Sample.parse_version Sample.discover Sample.anatomical
            Sample.diffusion ["01"; "02"] "01" []).
  - reflexivity.
  - left. reflexivity.
  - vm_compute. reflexivity.
  - vm_compute. reflexivity.
  - vm_compute. reflexivity.
Defined.

(** ** The input node of a subject *)

Lemma grows_refl w : grows w w.
Proof. exists []. now rewrite app_nil_r. Qed.

Lemma grows_trans w1 w2 w3 : grows w1 w2 -> grows w2 w3 -> grows w1 w3.
Proof.
  intros [ms1 H1] [ms2 H2]. exists (ms1 ++ ms2).
  now rewrite H2, H1, app_assoc.
Qed.

Lemma register_grows wf u wf' : register wf u = Ok wf' -> grows wf wf'.
Proof.
  destruct wf as [i n|i nm ms es c]; cbn; [discriminate|].
  destruct (find_member (name_of u) ms) as [m|].
  - destruct (Nat.eqb (uid_of m) (uid_of u)); [|discriminate].
    intros H; inversion H; subst. apply grows_refl.
  - intros H; inversion H; subst. now exists [u].
Qed.

Lemma register_all_grows us : forall wf wf',
  register_all wf us = Ok wf' -> grows wf wf'.
Proof.
  induction us as [|u us IH]; cbn; intros wf wf' H.
  - inversion H; subst. apply grows_refl.
  - destruct (register wf u) as [wf1|e] eqn:E; [|discriminate].
    exact (grows_trans _ _ _ (register_grows _ _ _ E) (IH _ _ H)).
Qed.

Lemma returns_connect_grows w cs : returns (grows w) (connect_ w cs).
Proof.
  intros st w' st' H. unfold connect_ in H.
  apply bind_inv in H as ([w1 rs] & st1 & Hc & Hr).
  apply lift_inv in Hc as [Hc _]. inversion Hr; subst; clear Hr.
  unfold connect in Hc.
  destruct (register_all w (endpoints cs)) as [[i n|i nm ms es c]|e] eqn:E;
    try discriminate.
  inversion Hc; subst; clear Hc. cbn [fst].
  apply register_all_grows in E. destruct E as [ms' E].
  exists ms'. exact E.
Qed.

Lemma returns_session_step_grows idf inputnode anat acc s :
  returns (fun acc' => grows (fst acc) (fst acc'))
          (session_step idf inputnode anat acc s).
Proof.
  destruct acc as [w dws]. unfold session_step.
  apply returns_bind. intros _.
  apply returns_bind. intros sw.
  apply (returns_bind_with (grows w)); [apply returns_connect_grows|].
  intros w' Hw'. apply returns_ret. exact Hw'.
Qed.

Lemma returns_sessions_loop_grows idf inputnode anat ss :
  forall acc,
    returns (fun acc' => grows (fst acc) (fst acc'))
            (for_each (session_step idf inputnode anat) ss acc).
Proof.
  induction ss as [|s ss IH]; intros acc; cbn [for_each].
  - apply returns_ret. apply grows_refl.
  - apply (returns_bind_with (fun acc' => grows (fst acc) (fst acc')));
      [apply returns_session_step_grows|].
    intros acc1 H1.
    apply (returns_weaken (fun acc' => grows (fst acc1) (fst acc'))).
    + intros acc2 H2. exact (grows_trans _ _ _ H1 H2).
    + apply IH.
Qed.

Lemma connect_first_member i nm c src dst ports st w1 st' :
  connect_ (AWorkflow i nm [] [] c) [(src, dst, ports)] st = (Ok w1, st') ->
  exists ms, members_of w1 = src :: ms.
Proof.
  intros Hc. unfold connect_ in Hc.
  apply bind_inv in Hc as ([w1' rs] & st1 & Hc & Hr).
  apply lift_inv in Hc as [Hc _]. inversion Hr; subst; clear Hr.
  unfold connect in Hc. cbn [endpoints flat_map fst snd app] in Hc.
  cbn [register_all] in Hc.
  rewrite register_new in Hc by reflexivity.
  destruct (register (AWorkflow i nm ([] ++ [src]) [] c) dst)
    as [w2|e] eqn:E; [|discriminate].
  apply register_grows in E. destruct E as [ms E]. cbn [members_of app] in E.
  destruct w2 as [j n|j nm2 ms2 es c2]; [discriminate|].
  inversion Hc; subst. exists ms. exact E.
Qed.

Lemma pe_Node_inv itf name b st u st' :
  pe_Node itf name b st = (Ok u, st') ->
  u = ANode (next_uid st) (mkNode name itf [] b None).
Proof.
  unfold pe_Node, bind, fresh, emit, ret. intros H. now inversion H.
Qed.

Lemma getitem_inv {V} (d : dict V) k v : getitem d k = Ok v -> get d k = Some v.
Proof. unfold getitem. destruct (get d k); intros H; now inversion H. Qed.

(** X24. In the workflow of a subject that was built, the first member is
    the input node of the subject, and its inputs were set: the output
    directory, the name, the image, the table and the label column of the
    atlas, the four files the discovery returned for the subject, the
    identifier of the subject and the FreeSurfer directory beside the
    output directory. *)
Theorem built_subject_input_node_is_set :
  forall config collect_data init_anatomical_wf init_diffusion_wf
         subject_id atlas st wf st',
    init_single_subject_wf config collect_data init_anatomical_wf
      init_diffusion_wf subject_id atlas st
    = (Ok wf, st') ->
    exists inputnode others files sessions image,
      members_of wf = inputnode :: others
      /\ name_of inputnode = "inputnode_subject"
      /\ collect_data subject_id = Ok (files, sessions)
      /\ atlas_nifti_file atlas = Some image
      /\ map (get (params_of inputnode))
             ["base_directory"; "atlas_name"; "atlas_nifti_file"; "atlas_table";
              "label_column"; "subject_id"; "freesurfer_dir"]
         = map (fun s => Some (VStr s))
               [output_dir config; atlas_name atlas; image;
                description_csv atlas; label_name atlas; subject_id;
                freesurfer_dir_of config]
      /\ Forall (fun k => exists path,
                     get files k = Some path
                     /\ get (params_of inputnode) k = Some (VStr path))
                subject_file_keys.
Proof.
  intros config cd ia idf sid atlas st wf st' H.
  unfold init_single_subject_wf in H.
  apply bind_inv in H as (d & st1 & _ & H).
  apply bind_inv in H as (v & st2 & _ & H).
  apply bind_inv in H as (w0 & st3 & Hw0 & H).
  assert (Ew0 : exists u, w0 = AWorkflow u (subject_wf_name sid) [] [] None).
  { unfold pe_Workflow, bind, fresh, emit, ret in Hw0.
    inversion Hw0; subst. now eexists. }
  destruct Ew0 as [u ->].
  apply bind_inv in H as ([] & st4 & _ & H).
  apply bind_inv in H as ([] & st5 & _ & H).
  apply bind_inv in H as ([files sessions] & st6 & Hcd & H).
  apply lift_inv in Hcd as [Hcd _].
  apply bind_inv in H as (node & st7 & Hnode & H).
  apply pe_Node_inv in Hnode. subst node.
  apply bind_inv in H as (image & st8 & Himg & H).
  apply lift_inv in Himg as [Himg _].
  unfold get_atlas_nifti_file in Himg.
  destruct (atlas_nifti_file atlas) as [image'|] eqn:Eimg; [|discriminate].
  inversion Himg; subst image'; clear Himg.
  apply bind_inv in H as (v1 & st9 & H1 & H). apply lift_inv in H1 as [H1 _].
  apply bind_inv in H as (v2 & st10 & H2 & H). apply lift_inv in H2 as [H2 _].
  apply bind_inv in H as (v3 & st11 & H3 & H). apply lift_inv in H3 as [H3 _].
  apply bind_inv in H as (v4 & st12 & H4 & H). apply lift_inv in H4 as [H4 _].
  apply getitem_inv in H1, H2, H3, H4.
  apply bind_inv in H as ([] & st13 & _ & H).
  apply bind_inv in H as (anat & st14 & _ & H).
  apply bind_inv in H as (w1 & st15 & Hc & H).
  match type of Hc with
  | connect_ _ [(?i, _, _)] _ = _ => set (inputnode := i) in *
  end.
  apply connect_first_member in Hc as Hw1.
  destruct Hw1 as [ms1 Hw1].
  assert (Hwf : grows w1 wf).
  { destruct (anat_only config).
    - inversion H; subst. apply grows_refl.
    - apply bind_inv in H as (acc & st16 & Hloop & H).
      inversion H; subst; clear H.
      exact (returns_sessions_loop_grows _ _ _ _ _ _ _ _ Hloop). }
  destruct Hwf as [ms2 Hwf]. rewrite Hw1 in Hwf.
  exists inputnode, (ms1 ++ ms2), files, sessions, image.
  split; [exact Hwf|]. split; [reflexivity|]. split; [exact Hcd|].
  split; [reflexivity|]. split; [reflexivity|].
  unfold subject_file_keys.
  repeat (constructor; [eexists; split; [eassumption|reflexivity]|]).
  constructor.
Qed.

Lemma built_subject_input_node_is_set_witness :
  exists inputnode,
    get (params_of inputnode) "subject_id" = Some (VStr "01")
    /\ get (params_of inputnode) "atlas_name"
       = Some (VStr (atlas_name Sample.brainnetome)).
Proof.
  edestruct (fun wf st' =>
               built_subject_input_node_is_set
                 (Sample.cfg false ["01"]) Sample.discover Sample.anatomical
                 Sample.diffusion "01" Sample.brainnetome init_state wf st')
    as (inputnode & others & files & sessions & image & _ & _ & _ & _ & Hp & _).
  - vm_compute. reflexivity.
  - exists inputnode. cbn [map] in Hp.
    injection Hp as _ Hname _ _ _ Hsid _. split; assumption.
Defined.

(** ** The edges of a subject *)

Lemma connect_edges_run w cs st w' st' :
  connect_ w cs st = (Ok w', st') ->
  edges_of w' = edges_of w ++ accepted cs.
Proof.
  intros H. unfold connect_ in H.
  apply bind_inv in H as ([w1 rs] & st1 & Hc & Hr).
  apply lift_inv in Hc as [Hc _]. inversion Hr; subst; clear Hr.
  exact (connect_edges _ _ _ _ Hc).
Qed.

Lemma new_object_inv r st u st' :
  new_object r st = (Ok u, st') ->
  exists a, r = Ok a /\ u = with_uid (next_uid st) a.
Proof.
  unfold new_object. intros H.
  apply bind_inv in H as (a & st1 & Ha & H). apply lift_inv in Ha as [Ha ->].
  unfold bind, fresh, ret in H. inversion H; subst. now exists a.
Qed.

Lemma sessions_loop_edges (P : Edge -> Prop) idf inputnode anat :
  (forall s e, In e (session_edges inputnode anat s) -> P e) ->
  forall ss acc,
    Forall P (edges_of (fst acc)) ->
    returns (fun acc' => Forall P (edges_of (fst acc')))
            (for_each (session_step idf inputnode anat) ss acc).
Proof.
  intros HP. induction ss as [|s ss IH]; intros acc Hacc; cbn [for_each].
  - apply returns_ret. exact Hacc.
  - apply (returns_bind_with (fun acc' => Forall P (edges_of (fst acc'))));
      [|intros acc1 H1; now apply IH].
    destruct acc as [w dws]. unfold session_step.
    apply returns_bind. intros _.
    apply returns_bind. intros sw.
    intros st acc1 st' H.
    apply bind_inv in H as (w1 & st1 & Hc & H).
    inversion H; subst; clear H. cbn [fst] in *.
    rewrite (connect_edges_run _ _ _ _ _ Hc).
    apply Forall_app. split; [exact Hacc|].
    apply Forall_forall. intros e He. exact (HP sw e He).
Qed.

(** X25. In the workflow of a subject that was built, every edge starts at
    the input node of the subject or at the anatomical workflow: the input
    node feeds the anatomical workflow with the pairs listed for it and the
    session workflows with the four pairs listed for them, the anatomical
    workflow feeds the two parcellations; no edge starts at a session
    workflow, so that no session depends on another one. *)
Theorem built_subject_edges_leave_input_or_anatomy :
  forall config collect_data init_anatomical_wf init_diffusion_wf
         subject_id atlas st wf st',
    init_single_subject_wf config collect_data init_anatomical_wf
      init_diffusion_wf subject_id atlas st
    = (Ok wf, st') ->
    exists anat,
      init_anatomical_wf "anatomical_wf" = Ok anat
      /\ Forall (subject_edge anat) (edges_of wf).
Proof.
  intros config cd ia idf sid atlas st wf st' H.
  unfold init_single_subject_wf in H.
  apply bind_inv in H as (d & st1 & _ & H).
  apply bind_inv in H as (v & st2 & _ & H).
  apply bind_inv in H as (w0 & st3 & Hw0 & H).
  assert (Ew0 : exists u, w0 = AWorkflow u (subject_wf_name sid) [] [] None).
  { unfold pe_Workflow, bind, fresh, emit, ret in Hw0.
    inversion Hw0; subst. now eexists. }
  destruct Ew0 as [u ->].
  apply bind_inv in H as ([] & st4 & _ & H).
  apply bind_inv in H as ([] & st5 & _ & H).
  apply bind_inv in H as ([files sessions] & st6 & _ & H).
  apply bind_inv in H as (node & st7 & Hnode & H).
  apply pe_Node_inv in Hnode. subst node.
  apply bind_inv in H as (image & st8 & _ & H).
  do 4 (apply bind_inv in H as (? & ? & _ & H)).
  apply bind_inv in H as ([] & st13 & _ & H).
  apply bind_inv in H as (anat' & st14 & Hanat & H).
  apply new_object_inv in Hanat as (anat & Hanat & ->).
  apply bind_inv in H as (w1 & st15 & Hc & H).
  match type of Hc with
  | connect_ _ [(?i, ?a, _)] _ = _ =>
      remember i as inputnode eqn:Ei in *;
      remember a as anat' eqn:Ea in *
  end.
  assert (Hin : name_of inputnode = "inputnode_subject")
    by (rewrite Ei; reflexivity).
  assert (Han : name_of anat' = name_of anat)
    by (rewrite Ea; apply name_of_with_uid).
  clear Ei Ea.
  exists anat. split; [exact Hanat|].
  assert (H1 : Forall (subject_edge anat) (edges_of w1)).
  { rewrite (connect_edges_run _ _ _ _ _ Hc). cbn [edges_of app].
    apply Forall_forall. intros e He. apply (proj1 (in_accepted _ _)) in He.
    destruct He as (src & dst & ports & sp & dp & Hcs & Hp & -> & _).
    destruct Hcs as [Hcs|[]]. injection Hcs as <- <- <-.
    left. cbn [e_src e_dst e_src_port e_dst_port].
    split; [exact Hin|]. left. split; [exact Han|exact Hp]. }
  destruct (anat_only config).
  - inversion H; subst. exact H1.
  - apply bind_inv in H as (acc & st16 & Hloop & H).
    inversion H; subst; clear H.
    refine (sessions_loop_edges (subject_edge anat) idf inputnode anat' _
              _ (w1, []) H1 _ _ _ Hloop).
    intros s e He. apply in_session_edges in He.
    destruct He as [_ [[Hs Hp]|[Hs Hp]]].
    + left. split; [congruence|]. right. exact Hp.
    + right. split; [congruence|exact Hp].
Qed.

Lemma built_subject_edges_leave_input_or_anatomy_witness :
  exists anat wf,
    Sample.anatomical "anatomical_wf" = Ok anat
    /\ Forall (subject_edge anat) (edges_of wf)
    /\ edges_of wf <> [].
Proof.
  edestruct (fun wf st' =>
               built_subject_edges_leave_input_or_anatomy
                 (Sample.cfg false ["02"]) Sample.discover Sample.anatomical
                 Sample.diffusion "02" Sample.brainnetome init_state wf st')
    as (anat & Hanat & Hedges).
  - vm_compute. reflexivity.
  - exists anat. eexists. split; [exact Hanat|]. split; [exact Hedges|].
    discriminate.
Defined.

(** ** The entry point of the command line *)

Ltac unfold_cli :=
  cbv beta iota zeta
      delta [cli_bind cli_ret call set_retval logged building emit
             cli_retval cli_log cli_build].

Lemma retval_code (retval : dict RetVal) v :
  get (setitem (setitem retval "return_code" (RInt 1)) "workflow" v)
      "return_code" = Some (RInt 1).
Proof. rewrite get_setitem_other by discriminate. apply get_setitem_same. Qed.

Lemma retval_other (retval : dict RetVal) c v k :
  k <> "return_code" -> k <> "workflow" ->
  get (setitem (setitem retval "return_code" c) "workflow" v) k = get retval k.
Proof.
  intros K1 K2. rewrite !get_setitem_other by congruence. reflexivity.
Qed.

Lemma setitem_twice {V} (d : dict V) k v v' :
  setitem (setitem d k v) k v' = setitem d k v'.
Proof.
  induction d as [|[k0 v0] d IH]; cbn.
  - now rewrite String.eqb_refl.
  - destruct (k0 =? k) eqn:E; cbn.
    + now rewrite String.eqb_refl.
    + now rewrite E, IH.
Qed.

(** The dictionary [retval] after a failure: the return code is 1 and the
    keys the call does not write are as they were. *)
Ltac retval_after_failure :=
  cbn [cli_retval cli_build]; rewrite ?setitem_twice;
  split; [apply retval_code|];
  split; [intros k K1 K2; now apply retval_other|].

(** X27. When [build_workflow] fails, either nothing was touched ([retval]
    is as it was given, a return code of an earlier call included, and the
    log and the state of the build are as they were), or [retval] holds the
    return code 1, its keys other than the return code and the workflow
    being as they were.  In this case its workflow is [None], and the state
    of the build is untouched or is the one in which the build of the
    cohort failed, with this exception; or its workflow is the cohort that
    was built, and the failure came after the build: writing the
    configuration back raised the exception, or the configuration was
    written back. *)
Theorem build_workflow_failure_leaves_return_code_1 :
  forall config_load build_log qsipost_dir_of layout_description_of layout_root
         config_to_filename count_nodes Atlas_load Version
         collect_data init_anatomical_wf init_diffusion_wf
         collect_participants config_file retval st e cli,
    build_workflow config_load build_log qsipost_dir_of layout_description_of
      layout_root collect_participants config_to_filename
      count_nodes Atlas_load Version collect_data init_anatomical_wf
      init_diffusion_wf config_file retval st
    = (Raise e, cli) ->
    cli = mkCli retval [] st
    \/ (get (cli_retval cli) "return_code" = Some (RInt 1)
        /\ (forall k, k <> "return_code" -> k <> "workflow" ->
                      get (cli_retval cli) k = get retval k)
        /\ exists config,
            config_load config_file = Ok config
            /\ ((get (cli_retval cli) "workflow" = Some RNone
                 /\ (cli_build cli = st
                     \/ init_qsipost_wf config Atlas_load Version collect_data
                          init_anatomical_wf init_diffusion_wf st
                        = (Raise e, cli_build cli)))
                \/ exists wf st1,
                    init_qsipost_wf config Atlas_load Version collect_data
                      init_anatomical_wf init_diffusion_wf st
                    = (Ok wf, st1)
                    /\ get (cli_retval cli) "workflow" = Some (RWorkflow wf)
                    /\ next_uid (cli_build cli) = next_uid st1
                    /\ ((config_to_filename config config_file = Raise e
                         /\ trace (cli_build cli) = trace st1)
                        \/ trace (cli_build cli)
                           = trace st1 ++ [ConfigSaved config_file]))).
Proof.
  intros config_load build_log qsipost_dir_of layout_description_of layout_root
         config_to_filename count_nodes Atlas_load Version
         collect_data init_anatomical_wf init_diffusion_wf
         cp f retval st e cli.
  unfold build_workflow. unfold_cli.
  destruct (config_load f) as [config|e0];
    [|intros H; inversion H; subst; now left].
  destruct (qsipost_dir_of config) as [dir|e0];
    [|intros H; inversion H; subst; now left].
  assert (Hearly : forall log,
             (@Raise EngineBase e, mkCli (setitem (setitem retval "return_code" (RInt 1))
                                      "workflow" RNone) log st)
             = (Raise e, cli) ->
             get (cli_retval cli) "return_code" = Some (RInt 1)
             /\ (forall k, k <> "return_code" -> k <> "workflow" ->
                           get (cli_retval cli) k = get retval k)
             /\ get (cli_retval cli) "workflow" = Some RNone
             /\ cli_build cli = st).
  { intros log H. inversion H; subst; clear H. retval_after_failure.
    split; [apply get_setitem_same|reflexivity]. }
  destruct (build_log config 25) as [[]|e0].
  2:{ intros H. inversion H; subst. right.
      destruct (Hearly _ H) as (E1 & E2 & E3 & E4).
      split; [exact E1|]. split; [exact E2|].
      exists config. split; [reflexivity|]. left. split; [exact E3|now left]. }
  destruct (layout_description_of config) as [description|e0].
  2:{ intros H. inversion H; subst. right.
      destruct (Hearly _ H) as (E1 & E2 & E3 & E4).
      split; [exact E1|]. split; [exact E2|].
      exists config. split; [reflexivity|]. left. split; [exact E3|now left]. }
  destruct (cp config) as [subjects|e0].
  2:{ intros H. inversion H; subst. right.
      destruct (Hearly _ H) as (E1 & E2 & E3 & E4).
      split; [exact E1|]. split; [exact E2|].
      exists config. split; [reflexivity|]. left. split; [exact E3|now left]. }
  clear Hearly.
  destruct (init_qsipost_wf config Atlas_load Version collect_data
              init_anatomical_wf init_diffusion_wf st)
    as [[wf0|e0] st1] eqn:Hbuild.
  2:{ intros H. inversion H; subst; clear H. right. retval_after_failure.
      exists config. split; [reflexivity|]. left.
      split; [apply get_setitem_same|right; exact Hbuild]. }
  destruct (config_to_filename config f) as [[]|e0] eqn:Hsave.
  2:{ intros H. inversion H; subst; clear H. right. retval_after_failure.
      exists config. split; [reflexivity|]. right. exists wf0, st1.
      split; [exact Hbuild|]. split; [apply get_setitem_same|].
      split; [reflexivity|]. left. split; [exact Hsave|reflexivity]. }
  assert (Hlate : forall log,
             (@Raise EngineBase e,
              mkCli (setitem (setitem (setitem retval "return_code" (RInt 1))
                                      "workflow" RNone)
                             "workflow" (RWorkflow wf0)) log
                    (mkState (next_uid st1) (record (trace st1) (ConfigSaved f))))
             = (Raise e, cli) ->
             get (cli_retval cli) "return_code" = Some (RInt 1)
             /\ (forall k, k <> "return_code" -> k <> "workflow" ->
                           get (cli_retval cli) k = get retval k)
             /\ get (cli_retval cli) "workflow" = Some (RWorkflow wf0)
             /\ next_uid (cli_build cli) = next_uid st1
             /\ trace (cli_build cli) = trace st1 ++ [ConfigSaved f]).
  { intros log H. inversion H; subst; clear H. retval_after_failure.
    split; [apply get_setitem_same|]. split; reflexivity. }
  destruct (count_nodes wf0) as [n|e0].
  2:{ intros H. inversion H; subst. right.
      destruct (Hlate _ H) as (E1 & E2 & E3 & E4 & E5).
      split; [exact E1|]. split; [exact E2|].
      exists config. split; [reflexivity|]. right. exists wf0, st1.
      split; [exact Hbuild|]. split; [exact E3|]. split; [exact E4|now right]. }
  destruct (build_log config 20) as [[]|e0]; [discriminate|].
  intros H. inversion H; subst. right.
  destruct (Hlate _ H) as (E1 & E2 & E3 & E4 & E5).
  split; [exact E1|]. split; [exact E2|].
  exists config. split; [reflexivity|]. right. exists wf0, st1.
  split; [exact Hbuild|]. split; [exact E3|]. split; [exact E4|now right].
Qed.

Lemma build_workflow_failure_leaves_return_code_1_witness :
  exists e cli,
    build_workflow CliSample.load CliSample.logger CliSample.out_dir
      CliSample.description CliSample.dataset CliSample.participants
      CliSample.save CliSample.count Sample.load_atlas
      Sample.parse_version Sample.discover Sample.anatomical Sample.diffusion
      "unknown-subject.toml" [] init_state
    = (Raise e, cli)
    /\ get (cli_retval cli) "return_code" = Some (RInt 1).
Proof.
  destruct (build_workflow CliSample.load CliSample.logger CliSample.out_dir
              CliSample.description CliSample.dataset CliSample.participants
              CliSample.save CliSample.count Sample.load_atlas
              Sample.parse_version Sample.discover Sample.anatomical
              Sample.diffusion "unknown-subject.toml" [] init_state)
    as [[wf|e] cli] eqn:Hrun.
  - vm_compute in Hrun. discriminate Hrun.
  - exists e, cli. split; [reflexivity|].
    destruct (build_workflow_failure_leaves_return_code_1
                _ _ _ _ _ _ _ _ _ _ _ _ _ _ _ _ _ _ Hrun)
      as [Hcli|[Hcode _]]; [|exact Hcode].
    rewrite Hcli in Hrun. vm_compute in Hrun. discriminate Hrun.
Defined.

(** X28. The participants that [collect_participants] returns are only
    logged: with two answers of this collaborator, the result, [retval]
    and the state of the build are the same; the cohort is built from the
    participants of the configuration. *)
Theorem build_workflow_ignores_collected_participants :
  forall config_load build_log qsipost_dir_of layout_description_of layout_root
         config_to_filename count_nodes Atlas_load Version
         collect_data init_anatomical_wf init_diffusion_wf
         collect1 collect2 config_file retval st config subjects1 subjects2,
    config_load config_file = Ok config ->
    collect1 config = Ok subjects1 ->
    collect2 config = Ok subjects2 ->
    let run collect :=
      build_workflow config_load build_log qsipost_dir_of layout_description_of
        layout_root collect config_to_filename
        count_nodes Atlas_load Version collect_data init_anatomical_wf
        init_diffusion_wf config_file retval st in
    fst (run collect1) = fst (run collect2)
    /\ cli_retval (snd (run collect1)) = cli_retval (snd (run collect2))
    /\ cli_build (snd (run collect1)) = cli_build (snd (run collect2)).
Proof.
  intros config_load build_log qsipost_dir_of layout_description_of layout_root
         config_to_filename count_nodes Atlas_load Version
         collect_data init_anatomical_wf init_diffusion_wf
         cp1 cp2 f retval st config l1 l2 Hload H1 H2 run. subst run.
  unfold build_workflow. unfold_cli. rewrite Hload.
  destruct (qsipost_dir_of config) as [dir|e]; [|repeat split].
  destruct (build_log config 25) as [[]|e]; [|repeat split].
  destruct (layout_description_of config) as [description|e]; [|repeat split].
  rewrite H1, H2.
  destruct (init_qsipost_wf config Atlas_load Version collect_data
              init_anatomical_wf init_diffusion_wf st)
    as [[wf0|e] st1]; [|repeat split].
  destruct (config_to_filename config f) as [[]|e]; [|repeat split].
  destruct (count_nodes wf0) as [n|e]; [|repeat split].
  destruct (build_log config 20) as [[]|e]; repeat split.
Qed.

Lemma build_workflow_ignores_collected_participants_witness :
  fst (build_workflow CliSample.load CliSample.logger CliSample.out_dir
         CliSample.description CliSample.dataset CliSample.participants
         CliSample.save CliSample.count Sample.load_atlas
         Sample.parse_version Sample.discover Sample.anatomical Sample.diffusion
         "qsipost.toml" [] init_state)
  = fst (build_workflow CliSample.load CliSample.logger CliSample.out_dir
           CliSample.description CliSample.dataset CliSample.all_participants
           CliSample.save CliSample.count Sample.load_atlas
           Sample.parse_version Sample.discover Sample.anatomical
           Sample.diffusion "qsipost.toml" [] init_state).
Proof.
  apply (build_workflow_ignores_collected_participants
           CliSample.load CliSample.logger CliSample.out_dir
           CliSample.description CliSample.dataset CliSample.save
           CliSample.count
           Sample.load_atlas Sample.parse_version Sample.discover
           Sample.anatomical Sample.diffusion
           CliSample.participants CliSample.all_participants
           "qsipost.toml" [] init_state
           (Sample.cfg false ["01"; "02"]) ["01"; "02"] ["01"; "02"; "03"]);
    reflexivity.
Defined.
